(** * git-switch: profile store, SSH identity lifecycle and remote rewriting

    A shallow embedding of [git_profile_manager.py] ([GitProfileManager]) and
    [git_profiles.py] ([GitProfileCLI]).

    Conventions of the embedding.
    - A Python [str] is a [string]; a character is an [ascii], read as a code
      point of the range 0..255.
    - A method that prints, prompts, runs a tool or touches a file is a
      computation of the monad [M] over a [World]; what the outside decides
      (exit codes, I/O failures, the running platform) is read from an [Env].
    - Colour codes and emoji of the printed messages are left out: a message
      is recorded with the level of the [print_*] helper that emits it.
    - A text file is the text that Python reads from it and writes to it; a
      file that exists can be read and decoded. *)

From Stdlib Require Import Ascii String.
From stdpp Require Import gmap strings list fin_maps.

#[local] Open Scope list_scope.
#[local] Open Scope stdpp_scope.

(** ** Python string primitives *)

Module PyStr.

(** The line feed, and the one-character string of it. *)
Definition LF : ascii := "010"%char.
Definition nl : string := String LF EmptyString.

(** [s.startswith(p)] *)
Definition startswith (p s : string) : bool := String.prefix p s.

(** [p in s] *)
Fixpoint contains (p s : string) : bool :=
  String.prefix p s ||
  match s with
  | EmptyString => false
  | String _ s' => contains p s'
  end.

(** [c.isspace()] on the code points 0..255: TAB, LF, VT, FF, CR, the
    separators FS, GS, RS, US, the space, NEL and the no-break space. *)
Definition isspace (c : ascii) : bool :=
  let n := nat_of_ascii c in
  ((9 <=? n) && (n <=? 13)) || ((28 <=? n) && (n <=? 32))
  || (n =? 133) || (n =? 160).

Fixpoint lstrip (s : string) : string :=
  match s with
  | EmptyString => EmptyString
  | String c s' => if isspace c then lstrip s' else s
  end.

Fixpoint rstrip (s : string) : string :=
  match s with
  | EmptyString => EmptyString
  | String c s' =>
      match rstrip s' with
      | EmptyString => if isspace c then EmptyString else String c EmptyString
      | r => String c r
      end
  end.

(** [s.strip()] *)
Definition strip (s : string) : string := rstrip (lstrip s).

(** [c.lower()] on the code points 0..255: A-Z and the Latin-1 capitals
    (0xC0-0xDE but the multiplication sign 0xD7) move 32 up. *)
Definition lower_char (c : ascii) : ascii :=
  let n := nat_of_ascii c in
  if ((65 <=? n) && (n <=? 90))
     || ((192 <=? n) && (n <=? 222) && negb (n =? 215))
  then ascii_of_nat (n + 32) else c.

(** [s.lower()] *)
Fixpoint lower (s : string) : string :=
  match s with
  | EmptyString => EmptyString
  | String c s' => String (lower_char c) (lower s')
  end.

(** [s.replace(old, new)] for a non-empty [old]: occurrences are found left
    to right and do not overlap. [skip] counts the characters of the
    occurrence just replaced that are still to be passed over. *)
Fixpoint replace_from (old new s : string) (skip : nat) : string :=
  match s with
  | EmptyString => EmptyString
  | String c s' =>
      match skip with
      | S k => replace_from old new s' k
      | O =>
          if String.prefix old s
          then new +:+ replace_from old new s' (String.length old - 1)
          else String c (replace_from old new s' 0)
      end
  end.

Definition replace (old new s : string) : string := replace_from old new s 0.

(** [s.split(sep)] for a non-empty [sep]; the head of the result is the
    piece being read. *)
Fixpoint split_from (sep s : string) (skip : nat) : list string :=
  match s with
  | EmptyString => [EmptyString]
  | String c s' =>
      match skip with
      | S k => split_from sep s' k
      | O =>
          if String.prefix sep s
          then EmptyString :: split_from sep s' (String.length sep - 1)
          else match split_from sep s' 0 with
               | piece :: pieces => String c piece :: pieces
               | [] => [String c EmptyString]
               end
      end
  end.

Definition split (sep s : string) : list string := split_from sep s 0.

(** [f.readlines()]: the lines of a text, each with its line end. *)
Fixpoint readlines (s : string) : list string :=
  match s with
  | EmptyString => []
  | String c s' =>
      if Ascii.eqb c LF
      then String c EmptyString :: readlines s'
      else match readlines s' with
           | l :: ls => String c l :: ls
           | [] => [String c EmptyString]
           end
  end.

(** [f.writelines(lines)] on a file opened for writing *)
Definition writelines (lines : list string) : string :=
  foldr String.append EmptyString lines.

(** Every piece with the separator before it: how [pathlib] writes the
    components that follow the first operand of [/]. *)
Definition concat_with (sep : string) (pieces : list string) : string :=
  foldr (fun piece acc => sep +:+ piece +:+ acc) EmptyString pieces.

(** The components of a relative path: the pieces between separators, but
    the empty ones and the single dots, which [pathlib] drops. *)
Fixpoint path_parts (is_sep : ascii -> bool) (s : string) : list string :=
  match s with
  | EmptyString => [EmptyString]
  | String c s' =>
      if is_sep c then EmptyString :: path_parts is_sep s'
      else match path_parts is_sep s' with
           | piece :: pieces => String c piece :: pieces
           | [] => [String c EmptyString]
           end
  end.

Definition kept_part (piece : string) : bool :=
  negb (String.eqb piece EmptyString) && negb (String.eqb piece ".").

End PyStr.


(** ** Regular expressions, as the [re] module matches them *)

Module Regex.

Inductive re : Type :=
| Void
| Eps
| Class (p : ascii -> bool)
| Seq (r1 r2 : re)
| Alt (r1 r2 : re)
| Star (r : re).

(** [r?], [r+] and [r{2,}] *)
Definition Opt (r : re) : re := Alt Eps r.
Definition Plus (r : re) : re := Seq r (Star r).
Definition AtLeast2 (r : re) : re := Seq r (Plus r).

Fixpoint nullable (r : re) : bool :=
  match r with
  | Void => false
  | Eps => true
  | Class _ => false
  | Seq r1 r2 => nullable r1 && nullable r2
  | Alt r1 r2 => nullable r1 || nullable r2
  | Star _ => true
  end.

Fixpoint deriv (c : ascii) (r : re) : re :=
  match r with
  | Void => Void
  | Eps => Void
  | Class p => if p c then Eps else Void
  | Seq r1 r2 =>
      if nullable r1
      then Alt (Seq (deriv c r1) r2) (deriv c r2)
      else Seq (deriv c r1) r2
  | Alt r1 r2 => Alt (deriv c r1) (deriv c r2)
  | Star r1 => Seq (deriv c r1) (Star r1)
  end.

(** The whole of [s] is a word of [r]. *)
Fixpoint fullmatch (r : re) (s : list ascii) : bool :=
  match s with
  | [] => nullable r
  | c :: s' => fullmatch (deriv c r) s'
  end.

(** [s] without its last character when that is a line feed. *)
Fixpoint chop_newline (s : list ascii) : option (list ascii) :=
  match s with
  | [] => None
  | [c] => if Ascii.eqb c PyStr.LF then Some [] else None
  | c :: s' => option_map (cons c) (chop_newline s')
  end.

(** [re.compile('^' body '$').match(s)] as a truth value. [match] starts at
    the first character, where [^] holds; without [re.MULTILINE], [$] holds
    at the end of the string and also just before a line feed that is its
    last character. So a word of [body] matches, and so does a word of
    [body] followed by one line feed. *)
Definition match_anchored (body : re) (s : string) : bool :=
  let cs := list_ascii_of_string s in
  fullmatch body cs ||
  match chop_newline cs with
  | Some cs' => fullmatch body cs'
  | None => false
  end.

(** The denotation of an expression, to reason about [fullmatch]. *)
Inductive lang : re -> list ascii -> Prop :=
| lang_eps : lang Eps []
| lang_class p c : p c = true -> lang (Class p) [c]
| lang_seq r1 r2 s1 s2 : lang r1 s1 -> lang r2 s2 -> lang (Seq r1 r2) (s1 ++ s2)
| lang_alt_l r1 r2 s : lang r1 s -> lang (Alt r1 r2) s
| lang_alt_r r1 r2 s : lang r2 s -> lang (Alt r1 r2) s
| lang_star_nil r : lang (Star r) []
| lang_star_app r s1 s2 :
    lang r s1 -> lang (Star r) s2 -> lang (Star r) (s1 ++ s2).

End Regex.

(** ** Validation patterns ([git_profile_manager.py], module level) *)

Definition in_range (lo hi c : ascii) : bool :=
  (nat_of_ascii lo <=? nat_of_ascii c) && (nat_of_ascii c <=? nat_of_ascii hi).

(** [[a-zA-Z]] and [[a-zA-Z0-9]] *)
Definition is_alpha (c : ascii) : bool :=
  in_range "a" "z" c || in_range "A" "Z" c.
Definition is_alnum (c : ascii) : bool :=
  is_alpha c || in_range "0" "9" c.

Definition one_of (chars : string) (c : ascii) : bool :=
  existsb (Ascii.eqb c) (list_ascii_of_string chars).

(** [[a-zA-Z0-9-]], [[a-zA-Z0-9._%+-]] and [[a-zA-Z0-9.-]] *)
Definition is_alnum_hyphen (c : ascii) : bool := is_alnum c || one_of "-" c.
Definition is_email_local (c : ascii) : bool := is_alnum c || one_of "._%+-" c.
Definition is_email_domain (c : ascii) : bool := is_alnum c || one_of ".-" c.

Import Regex.

(** [^[a-zA-Z0-9._%+-]+@[a-zA-Z0-9.-]+\.[a-zA-Z]{2,}$], between the anchors *)
Definition EMAIL_PATTERN : re :=
  Seq (Plus (Class is_email_local))
    (Seq (Class (one_of "@"))
       (Seq (Plus (Class is_email_domain))
          (Seq (Class (one_of ".")) (AtLeast2 (Class is_alpha))))).

(** [^[a-zA-Z0-9]([a-zA-Z0-9-]*[a-zA-Z0-9])?$], between the anchors *)
Definition USERNAME_PATTERN : re :=
  Seq (Class is_alnum)
    (Opt (Seq (Star (Class is_alnum_hyphen)) (Class is_alnum))).

(** [GitProfileManager.validate_email] *)
Definition validate_email (email : string) : bool :=
  match_anchored EMAIL_PATTERN email.

(** [GitProfileManager.validate_username] *)
Definition validate_username (username : string) : bool :=
  negb (String.eqb username EmptyString)
  && (String.length username <=? 39)
  && match_anchored USERNAME_PATTERN username.

(** The grammar of a profile name in the words of the specification: 1 to 39
    characters, each a letter, a digit or a hyphen, the first and the last
    not a hyphen. *)
Definition username_grammar (s : string) : bool :=
  let cs := list_ascii_of_string s in
  (1 <=? length cs) && (length cs <=? 39)
  && forallb is_alnum_hyphen cs
  && match head cs with Some c => is_alnum c | None => false end
  && match last cs with Some c => is_alnum c | None => false end.

(** ** The world the program runs in *)

(** A profile is the JSON object of its fields; the store maps a profile
    name to its profile. *)
Abbreviation profile := (gmap string string).
Abbreviation store := (gmap string (gmap string string)).

(** The three-field profile [_create_profile] builds. *)
Definition new_profile (name email ssh_key : string) : profile :=
  <["name" := name]> (<["email" := email]> (<["ssh_key" := ssh_key]> ∅)).

Inductive level : Set := LvSuccess | LvError | LvWarning | LvInfo | LvPlain.

Inductive file_id : Set := StoreFile | SshConfigFile | KnownHostsFile.

(** What a run leaves behind, in order. *)
Inductive event : Type :=
| EvPrint (l : level) (msg : string)
| EvPrompt (msg : string)
| EvRun (cmd : list string) (timeout : option nat)
| EvChmod (path : string) (mode : string)
| EvUnlink (path : string)
| EvWrite (f : file_id)
| EvAppend (f : file_id).

(** [subprocess.run] without [check]: the tool ran to its end, or could not
    be started. *)
Inductive spawn : Type :=
| Completed (returncode : Z) (stdout stderr : string)
| OSError (msg : string).

(** The state of [CONFIG_FILE]: absent, not a JSON document, or the JSON
    object of a store. [json.dump] followed by [json.load] gives the mapping
    back; the text in between is not modelled. *)
Inductive store_state : Type :=
| Absent
| Corrupt (why : string)
| Doc (profiles : store).

Record World : Type := mkWorld {
  key_files : gset string;          (* the key files that exist, by path *)
  ssh_config : option string;       (* text of SSH_DIR/config *)
  known_hosts : option string;      (* text of SSH_DIR/known_hosts *)
  store_file : store_state;         (* CONFIG_FILE *)
  git_global : gmap string string;  (* git config --global *)
  stdin : list string;              (* the lines still to be typed *)
  trace : list event
}.

(** What the outside decides. A file that exists can be read; whether it can
    be written, and how the tools end, is given here. *)
Record Env : Type := mkEnv {
  is_windows : bool;                (* self.platform == "Windows" *)
  ssh_dir : string;                 (* str(SSH_DIR) *)
  write_error : file_id -> option string;  (* the IOError of a write, if any *)
  unlink_error : string -> option string;  (* the OSError of an unlink, if any *)
  git_write_ok : string -> bool;           (* by configuration key *)
  ssh_keygen : spawn;
  ssh_keyscan : spawn;
  ssh_probe : option spawn          (* None: no answer within the timeout *)
}.

Inductive exn : Type :=
| EOFError
| IndexError
| KeyError (key : string)
| TimeoutExpired
| CalledProcessError
| IOError (msg : string).

(** [str(e)]; the texts that Python builds are shortened. *)
Definition str_exn (e : exn) : string :=
  match e with
  | EOFError => "EOF when reading a line"
  | IndexError => "list index out of range"
  | KeyError key => "'" +:+ key +:+ "'"
  | TimeoutExpired => "timed out"
  | CalledProcessError => "returned non-zero exit status"
  | IOError msg => msg
  end.

Inductive result (A : Type) : Type :=
| Ok (a : A)
| Raise (e : exn).
Arguments Ok {A} a.
Arguments Raise {A} e.

Definition M (A : Type) : Type := World -> result A * World.

Definition ret {A} (a : A) : M A := fun w => (Ok a, w).
Definition raise {A} (e : exn) : M A := fun w => (Raise e, w).
Definition bind {A B} (m : M A) (k : A -> M B) : M B :=
  fun w => match m w with
           | (Ok a, w') => k a w'
           | (Raise e, w') => (Raise e, w')
           end.
(** [try: m except: handler] *)
Definition catch {A} (m : M A) (handler : exn -> M A) : M A :=
  fun w => match m w with
           | (Ok a, w') => (Ok a, w')
           | (Raise e, w') => handler e w'
           end.

Declare Scope py_scope.
Delimit Scope py_scope with py.
Notation "x <- m ;; k" := (bind m (fun x => k))
  (at level 100, m at next level, right associativity) : py_scope.
Notation "m ;;; k" := (bind m (fun _ => k))
  (at level 100, right associativity) : py_scope.
#[local] Open Scope py_scope.

Definition get : M World := fun w => (Ok w, w).
Definition modify (f : World -> World) : M unit := fun w => (Ok tt, f w).

Definition log (e : event) (w : World) : World :=
  mkWorld (key_files w) (ssh_config w) (known_hosts w) (store_file w)
    (git_global w) (stdin w) (trace w ++ [e]).
Definition set_key_files (k : gset string) (w : World) : World :=
  mkWorld k (ssh_config w) (known_hosts w) (store_file w)
    (git_global w) (stdin w) (trace w).
Definition set_ssh_config (c : option string) (w : World) : World :=
  mkWorld (key_files w) c (known_hosts w) (store_file w)
    (git_global w) (stdin w) (trace w).
Definition set_known_hosts (c : option string) (w : World) : World :=
  mkWorld (key_files w) (ssh_config w) c (store_file w)
    (git_global w) (stdin w) (trace w).
Definition set_store_file (s : store_state) (w : World) : World :=
  mkWorld (key_files w) (ssh_config w) (known_hosts w) s
    (git_global w) (stdin w) (trace w).
Definition set_git_global (g : gmap string string) (w : World) : World :=
  mkWorld (key_files w) (ssh_config w) (known_hosts w) (store_file w)
    g (stdin w) (trace w).
Definition set_stdin (l : list string) (w : World) : World :=
  mkWorld (key_files w) (ssh_config w) (known_hosts w) (store_file w)
    (git_global w) l (trace w).

Definition emit (e : event) : M unit := modify (log e).

(** [print(...)] and the [print_*] helpers of the manager *)
Definition print (msg : string) : M unit := emit (EvPrint LvPlain msg).
Definition print_success (msg : string) : M unit := emit (EvPrint LvSuccess msg).
Definition print_error (msg : string) : M unit := emit (EvPrint LvError msg).
Definition print_warning (msg : string) : M unit := emit (EvPrint LvWarning msg).
Definition print_info (msg : string) : M unit := emit (EvPrint LvInfo msg).

(** [input(prompt)] and [getpass(prompt)]: the next line typed, without its
    line end; [EOFError] when there is none. *)
Definition input (prompt : string) : M string :=
  fun w => match stdin w with
           | [] => (Raise EOFError, log (EvPrompt prompt) w)
           | line :: rest => (Ok line, set_stdin rest (log (EvPrompt prompt) w))
           end.

(** [l[i]] and [d[key]] *)
Definition getindex {V} (l : list V) (i : nat) : M V :=
  match l !! i with
  | Some v => ret v
  | None => raise IndexError
  end.

Definition getitem {V} (d : gmap string V) (key : string) : M V :=
  match d !! key with
  | Some v => ret v
  | None => raise (KeyError key)
  end.

(** [str(base / name)] for a relative [name], as [pathlib] builds it: on
    Windows both slashes separate components and the backslash joins them. *)
Definition is_sep (windows : bool) (c : ascii) : bool :=
  Ascii.eqb c "/" || (windows && Ascii.eqb c "\").
Definition path_sep (windows : bool) : string :=
  if windows then "\" else "/".
Definition joinpath (windows : bool) (base name : string) : string :=
  base +:+ PyStr.concat_with (path_sep windows)
             (filter (fun piece => Is_true (PyStr.kept_part piece))
                     (PyStr.path_parts (is_sep windows) name)).

(** ** [GitProfileManager] *)

Section Manager.

Variable env : Env.

(** [load_profiles] *)
Definition load_profiles : M store :=
  w <- get ;;
  match store_file w with
  | Absent => ret ∅
  | Corrupt why => print_error ("Error loading profiles: " +:+ why) ;;; ret ∅
  | Doc profiles => ret profiles
  end.

(** [save_profiles] *)
Definition save_profiles (profiles : store) : M bool :=
  match write_error env StoreFile with
  | None =>
      emit (EvWrite StoreFile) ;;;
      modify (set_store_file (Doc profiles)) ;;;
      ret true
  | Some e =>
      print_error ("Error saving profiles: " +:+ e) ;;;
      ret false
  end.

Record git_identity : Type := mkIdentity { id_name : string; id_email : string }.

(** [_get_git_config_value]: the value as [git config --global key] prints
    it, stripped; nothing when the key is unset. The output is taken as git
    prints it: a carriage return in a value, which the text mode of
    [subprocess.run] turns into a line feed, is outside the model. *)
Definition _get_git_config_value (key : string) : M (option string) :=
  emit (EvRun ["git"; "config"; "--global"; key] None) ;;;
  w <- get ;;
  match git_global w !! key with
  | Some v => ret (Some (PyStr.strip (v +:+ PyStr.nl)))
  | None => ret None
  end.

(** Truth of an [Optional[str]] *)
Definition truthy (v : option string) : bool :=
  match v with
  | Some s => negb (String.eqb s EmptyString)
  | None => false
  end.

(** [get_current_git_config] *)
Definition get_current_git_config : M (option git_identity) :=
  name <- _get_git_config_value "user.name" ;;
  email <- _get_git_config_value "user.email" ;;
  match name, email with
  | Some n, Some e =>
      if truthy name && truthy email then ret (Some (mkIdentity n e)) else ret None
  | _, _ => ret None
  end.

(** [subprocess.run(['git', 'config', '--global', key, value], check=True)];
    a value that holds a NUL, which [subprocess.run] refuses with a
    [ValueError] before git is started, is outside the model. *)
Definition git_config_set (key value : string) : M unit :=
  emit (EvRun ["git"; "config"; "--global"; key; value] None) ;;;
  if git_write_ok env key
  then w <- get ;; modify (set_git_global (<[key := value]> (git_global w)))
  else raise CalledProcessError.

(** [subprocess.run(['git', 'config', '--global', '--unset', key], check=True)]:
    git fails on a key that is not set. *)
Definition git_config_unset (key : string) : M unit :=
  emit (EvRun ["git"; "config"; "--global"; "--unset"; key] None) ;;;
  w <- get ;;
  if git_write_ok env key && bool_decide (is_Some (git_global w !! key))
  then modify (set_git_global (delete key (git_global w)))
  else raise CalledProcessError.

(** [set_git_config] *)
Definition set_git_config (name email : string) : M bool :=
  catch (git_config_set "user.name" name ;;;
         git_config_set "user.email" email ;;;
         ret true)
        (fun e => match e with
                  | CalledProcessError =>
                      print_error ("Error setting Git config: " +:+ str_exn e) ;;;
                      ret false
                  | _ => raise e
                  end).

(** [_set_ssh_key_permissions]; the two [chmod] calls on the files that
    [ssh-keygen] has just written are taken to succeed. *)
Definition _set_ssh_key_permissions (key_file : string) : M unit :=
  if is_windows env then ret tt
  else emit (EvChmod key_file "600") ;;;
       emit (EvChmod (key_file +:+ ".pub") "644").

(** The lines [update_ssh_config] appends, and their text. *)
Definition stanza_lines (username key_file : string) : list string :=
  [ PyStr.nl;
    "# Git profile: " +:+ username +:+ PyStr.nl;
    "Host github.com-" +:+ username +:+ PyStr.nl;
    "    HostName github.com" +:+ PyStr.nl;
    "    User git" +:+ PyStr.nl;
    "    IdentityFile " +:+ key_file +:+ PyStr.nl;
    "    IdentitiesOnly yes" +:+ PyStr.nl;
    PyStr.nl ].
Definition config_content (username key_file : string) : string :=
  PyStr.writelines (stanza_lines username key_file).

(** [update_ssh_config]; the text appended is taken to be read back as it
    was written, which holds for a text without a carriage return. *)
Definition update_ssh_config (username key_file : string) : M bool :=
  let key_file :=
    if is_windows env then PyStr.replace "\" "/" key_file else key_file in
  match write_error env SshConfigFile with
  | None =>
      emit (EvAppend SshConfigFile) ;;;
      w <- get ;;
      modify (set_ssh_config
                (Some (default EmptyString (ssh_config w)
                       +:+ config_content username key_file))) ;;;
      ret true
  | Some e =>
      print_error ("Error updating SSH config: " +:+ e) ;;;
      ret false
  end.

(** [_get_passphrase] *)
Definition _get_passphrase (use_passphrase : bool) : M string :=
  if negb use_passphrase then ret EmptyString
  else
    print_info "For security, we recommend using a passphrase for your SSH key." ;;;
    choice <- input "Use passphrase? (y/N): " ;;
    if String.eqb (PyStr.lower (PyStr.strip choice)) "y"
    then input "Enter passphrase (leave empty for no passphrase): "
    else ret EmptyString.

(** [_create_ssh_key]: a run of [ssh-keygen] that ends with status 0 has
    written the private key and the public key. *)
Definition _create_ssh_key (key_file email passphrase username : string)
  : M (option string) :=
  catch
    (emit (EvRun ["ssh-keygen"; "-t"; "rsa"; "-b"; "4096"; "-C"; email;
                  "-f"; key_file; "-N"; passphrase] None) ;;;
     match ssh_keygen env with
     | OSError msg => raise (IOError msg)
     | Completed returncode _ stderr =>
         if bool_decide (returncode ≠ 0%Z)
         then print_error ("Failed to generate SSH key: " +:+ stderr) ;;;
              ret None
         else
           w <- get ;;
           modify (set_key_files
                     ({[key_file]} ∪ {[key_file +:+ ".pub"]} ∪ key_files w)) ;;;
           _set_ssh_key_permissions key_file ;;;
           update_ssh_config username key_file ;;;
           print_success "SSH key generated successfully!" ;;;
           ret (Some key_file)
     end)
    (fun e => match e with
              | CalledProcessError | IOError _ =>
                  print_error ("Error generating SSH key: " +:+ str_exn e) ;;;
                  ret None
              | _ => raise e
              end).

(** [generate_ssh_key] *)
Definition generate_ssh_key (email username : string) (use_passphrase : bool)
  : M (option string) :=
  let key_file := joinpath (is_windows env) (ssh_dir env) ("id_rsa_" +:+ username) in
  w <- get ;;
  if bool_decide (key_file ∈ key_files w)
  then print_warning ("SSH key for profile '" +:+ username +:+ "' already exists!") ;;;
       ret (Some key_file)
  else
    print_info ("Generating SSH key for profile '" +:+ username +:+ "'...") ;;;
    passphrase <- _get_passphrase use_passphrase ;;
    _create_ssh_key key_file email passphrase username.

(** [_is_github_in_known_hosts], with [GITHUB_HOST_KEY = 'github.com'] *)
Definition _is_github_in_known_hosts : M bool :=
  w <- get ;;
  match known_hosts w with
  | None => ret false
  | Some content => ret (PyStr.contains "github.com" content)
  end.

(** [_add_github_host_key]: every failure is swallowed. *)
Definition _add_github_host_key : M unit :=
  emit (EvRun ["ssh-keyscan"; "-t"; "rsa"; "github.com"] None) ;;;
  match ssh_keyscan env with
  | OSError _ => ret tt
  | Completed returncode stdout _ =>
      if bool_decide (returncode = 0%Z) && negb (String.eqb stdout EmptyString)
      then match write_error env KnownHostsFile with
           | None =>
               emit (EvAppend KnownHostsFile) ;;;
               w <- get ;;
               modify (set_known_hosts
                         (Some (default EmptyString (known_hosts w) +:+ stdout)))
           | Some _ => ret tt
           end
      else ret tt
  end.

(** [add_github_to_known_hosts] *)
Definition add_github_to_known_hosts : M unit :=
  known <- _is_github_in_known_hosts ;;
  if known then ret tt else _add_github_host_key.

(** [_print_connection_success_details] *)
Definition _print_connection_success_details (username : string) (p : profile)
  : M unit :=
  print ("Profile: " +:+ username) ;;;
  name <- getitem p "name" ;;
  print ("Name: " +:+ name) ;;;
  email <- getitem p "email" ;;
  print ("Email: " +:+ email).

(** [_print_platform_specific_tips] and [print_troubleshooting_tips] *)
Definition _print_platform_specific_tips : M unit :=
  if is_windows env
  then print "2. Ensure OpenSSH client is installed (Windows 10+)" ;;;
       print "3. Try running from Git Bash if using Git for Windows"
  else print "2. Check SSH key permissions (chmod 600)".

Definition print_troubleshooting_tips : M unit :=
  print (PyStr.nl +:+ "Troubleshooting:") ;;;
  print "1. Ensure SSH key is added to GitHub" ;;;
  _print_platform_specific_tips ;;;
  print "3. Verify SSH config is correct" ;;;
  print "4. Test with: ssh -T git@github.com-{username}".

(** [_handle_ssh_test_result], on the captured standard error *)
Definition _handle_ssh_test_result (stderr username : string) (p : profile)
  : M bool :=
  if PyStr.contains "successfully authenticated" (PyStr.lower stderr)
  then print_success "GitHub connection successful!" ;;;
       _print_connection_success_details username p ;;;
       ret true
  else print_error "GitHub connection failed!" ;;;
       print ("Error: " +:+ stderr) ;;;
       print_troubleshooting_tips ;;;
       ret false.

(** [_perform_ssh_test]; [_prepare_ssh_environment] reads the key path of
    the profile, the environment it builds is not recorded. *)
Definition _perform_ssh_test (username : string) (p : profile) : M bool :=
  _ <- getitem p "ssh_key" ;;
  emit (EvRun ["ssh"; "-T"; "git@github.com-" +:+ username] (Some 15)) ;;;
  match ssh_probe env with
  | None => raise TimeoutExpired
  | Some (OSError msg) => raise (IOError msg)
  | Some (Completed _ _ stderr) => _handle_ssh_test_result stderr username p
  end.

(** [test_github_connection] *)
Definition test_github_connection (username : string) : M bool :=
  profiles <- load_profiles ;;
  match profiles !! username with
  | None => print_error ("Profile '" +:+ username +:+ "' not found!") ;;; ret false
  | Some p =>
      if negb (bool_decide (is_Some (p !! "ssh_key")))
      then print_error ("Profile '" +:+ username +:+ "' has no SSH key!") ;;;
           ret false
      else
        print_info ("Testing GitHub connection for profile '" +:+ username +:+ "'...") ;;;
        catch (add_github_to_known_hosts ;;; _perform_ssh_test username p)
              (fun e => match e with
                        | TimeoutExpired =>
                            print_error "Connection timeout! Check your internet connection." ;;;
                            ret false
                        | _ =>
                            print_error ("Error testing connection: " +:+ str_exn e) ;;;
                            ret false
                        end)
  end.

End Manager.

(** ** [GitProfileCLI] *)

Section CLI.

Variable env : Env.

(** [_username_exists] *)
Definition _username_exists (username : string) : M bool :=
  profiles <- load_profiles ;;
  ret (bool_decide (is_Some (profiles !! username))).

(** [_get_valid_username]: the [while True] loop goes round once for every
    line typed; [pending] is what is left on standard input. *)
Fixpoint _get_valid_username_loop (pending : list string) : M string :=
  match pending with
  | [] => input "Enter GitHub username: " ;;; raise EOFError
  | _ :: rest =>
      line <- input "Enter GitHub username: " ;;
      let username := PyStr.strip line in
      if String.eqb username EmptyString
      then print_error "Username cannot be empty!" ;;;
           _get_valid_username_loop rest
      else if negb (validate_username username)
      then print_error "Invalid username format!" ;;;
           _get_valid_username_loop rest
      else
        taken <- _username_exists username ;;
        if (taken : bool)
        then print_error ("Profile '" +:+ username +:+ "' already exists!") ;;;
             _get_valid_username_loop rest
        else ret username
  end.

Definition _get_valid_username : M string :=
  w <- get ;; _get_valid_username_loop (stdin w).

(** [_get_valid_email] *)
Fixpoint _get_valid_email_loop (pending : list string) : M string :=
  match pending with
  | [] => input "Enter Git email: " ;;; raise EOFError
  | _ :: rest =>
      line <- input "Enter Git email: " ;;
      let email := PyStr.strip line in
      if String.eqb email EmptyString
      then print_error "Email cannot be empty!" ;;;
           _get_valid_email_loop rest
      else if negb (validate_email email)
      then print_error "Invalid email format!" ;;;
           _get_valid_email_loop rest
      else ret email
  end.

Definition _get_valid_email : M string :=
  w <- get ;; _get_valid_email_loop (stdin w).

(** [_create_profile] *)
Definition _create_profile (username email : string) : M bool :=
  key_file <- generate_ssh_key env email username true ;;
  match key_file with
  | Some key =>
      if String.eqb key EmptyString
      then print_error "Failed to generate SSH key!" ;;; ret false
      else
        profiles <- load_profiles ;;
        let profiles := <[username := new_profile username email key]> profiles in
        saved <- save_profiles env profiles ;;
        if negb saved
        then print_error "Failed to save profile!" ;;; ret false
        else
          activated <- set_git_config env username email ;;
          if (activated : bool)
          then print_success ("Profile '" +:+ username +:+ "' created and activated!") ;;;
               ret true
          else ret false
  | None => print_error "Failed to generate SSH key!" ;;; ret false
  end.

(** [_clear_git_global_config] *)
Definition _clear_git_global_config : M unit :=
  catch (git_config_unset env "user.name" ;;;
         git_config_unset env "user.email" ;;;
         print_success "Cleared Git global configuration")
        (fun e => match e with
                  | CalledProcessError =>
                      print_warning "Could not clear Git configuration"
                  | _ => raise e
                  end).

(** [_cleanup_current_profile_with_feedback] *)
Definition _cleanup_current_profile_with_feedback (username : string) (p : profile)
  : M unit :=
  current_config <- get_current_git_config ;;
  matches <-
    match current_config with
    | None => ret false
    | Some current =>
        name <- getitem p "name" ;;
        if String.eqb (id_name current) name
        then email <- getitem p "email" ;;
             ret (String.eqb (id_email current) email)
        else ret false
    end ;;
  if (matches : bool)
  then print "Clearing global Git configuration..." ;;;
       _clear_git_global_config
  else print "Profile is not currently active, skipping Git config cleanup".

(** The loop of [_update_ssh_config_file] over the lines read. *)
Fixpoint filter_lines (username : string) (skip : bool) (lines : list string)
  : list string :=
  match lines with
  | [] => []
  | line :: rest =>
      if PyStr.contains ("Git profile: " +:+ username) line
      then filter_lines username true rest
      else if skip && String.eqb (PyStr.strip line) EmptyString
      then filter_lines username false rest
      else if negb skip
      then line :: filter_lines username skip rest
      else filter_lines username skip rest
  end.

(** [_update_ssh_config_file] *)
Definition _update_ssh_config_file (username : string) : M unit :=
  w <- get ;;
  match ssh_config w with
  | None => raise (IOError "No such file or directory")
  | Some content =>
      let lines := PyStr.readlines content in
      let new_lines := filter_lines username false lines in
      match write_error env SshConfigFile with
      | Some e => raise (IOError e)
      | None =>
          emit (EvWrite SshConfigFile) ;;;
          modify (set_ssh_config (Some (PyStr.writelines new_lines)))
      end
  end.

(** [remove_from_ssh_config] *)
Definition remove_from_ssh_config (username : string) : M unit :=
  w <- get ;;
  match ssh_config w with
  | None => ret tt
  | Some _ =>
      catch (_update_ssh_config_file username)
            (fun e => match e with
                      | IOError msg =>
                          print_warning ("Could not update SSH config: " +:+ msg)
                      | _ => raise e
                      end)
  end.

(** [_cleanup_ssh_files_with_feedback]; a stored key path is taken as it is
    written, and a file is known by the text of its path: the file system
    is taken to tell upper case from lower case. *)
Definition _cleanup_ssh_files_with_feedback (username : string) (p : profile)
  : M unit :=
  match p !! "ssh_key" with
  | None => print "No SSH key associated with this profile"
  | Some ssh_key_path =>
      let ssh_pub_path := ssh_key_path +:+ ".pub" in
      print "Removing SSH keys..." ;;;
      (* Remove private key *)
      (w <- get ;;
       if bool_decide (ssh_key_path ∈ key_files w)
       then emit (EvUnlink ssh_key_path) ;;;
            match unlink_error env ssh_key_path with
            | None =>
                modify (set_key_files (key_files w ∖ {[ssh_key_path]})) ;;;
                print_success ("Removed private key: " +:+ ssh_key_path)
            | Some e => print_error ("Failed to remove private key: " +:+ e)
            end
       else print_warning ("Private key not found: " +:+ ssh_key_path)) ;;;
      (* Remove public key *)
      (w <- get ;;
       if bool_decide (ssh_pub_path ∈ key_files w)
       then emit (EvUnlink ssh_pub_path) ;;;
            match unlink_error env ssh_pub_path with
            | None =>
                modify (set_key_files (key_files w ∖ {[ssh_pub_path]})) ;;;
                print_success ("Removed public key: " +:+ ssh_pub_path)
            | Some e => print_error ("Failed to remove public key: " +:+ e)
            end
       else print_warning ("Public key not found: " +:+ ssh_pub_path)) ;;;
      (* Remove SSH config entry *)
      print "Updating SSH configuration..." ;;;
      remove_from_ssh_config username ;;;
      print_success ("Removed SSH config entry for " +:+ username)
  end.

(** [_perform_complete_profile_removal] *)
Definition _perform_complete_profile_removal
    (username : string) (p : profile) (profiles : store) : M unit :=
  print (PyStr.nl +:+ "Removing profile '" +:+ username +:+ "'...") ;;;
  _cleanup_current_profile_with_feedback username p ;;;
  _cleanup_ssh_files_with_feedback username p ;;;
  _ <- getitem profiles username ;;
  saved <- save_profiles env (delete username profiles) ;;
  if (saved : bool)
  then print_success "Profile configuration removed" ;;;
       print (PyStr.nl +:+ "Profile '" +:+ username
              +:+ "' has been completely removed from your system!")
  else print_error "Failed to update profile configuration!".

(** [_convert_ssh_url] *)
Definition _convert_ssh_url (current_url username : string) : M string :=
  if PyStr.contains "github.com-" current_url
  then
    let parts := PyStr.split "github.com-" current_url in
    part <- getindex parts 1 ;;
    old_profile <- getindex (PyStr.split ":" part) 0 ;;
    ret (PyStr.replace ("github.com-" +:+ old_profile +:+ ":")
                       ("github.com-" +:+ username +:+ ":") current_url)
  else
    repo_part <- getindex (PyStr.split "github.com:" current_url) 1 ;;
    ret ("git@github.com-" +:+ username +:+ ":" +:+ repo_part).

(** [_convert_https_url] *)
Definition _convert_https_url (current_url username : string) : string :=
  let repo_part := PyStr.replace "https://github.com/" EmptyString current_url in
  "git@github.com-" +:+ username +:+ ":" +:+ repo_part.

(** [_convert_url_for_profile] *)
Definition _convert_url_for_profile (current_url username : string)
  : M (option string) :=
  if PyStr.startswith "git@github.com" current_url
  then url <- _convert_ssh_url current_url username ;; ret (Some url)
  else if PyStr.startswith "https://github.com/" current_url
  then ret (Some (_convert_https_url current_url username))
  else print_warning "Unsupported repository URL format" ;;; ret None.

End CLI.

(** ** [GitProfileCLI], the flows of the menu *)

(** The repository the program is started in, as git answers about it:
    whether [git rev-parse --git-dir] succeeds, what [git remote get-url
    origin] prints if it succeeds, and whether [git remote set-url origin]
    succeeds. *)
Record Remote : Type := mkRemote {
  in_repository : bool;
  origin_url : option string;
  set_url_ok : bool
}.

(** [print_header] *)
Definition print_header (title : string) : M unit :=
  print (PyStr.nl +:+ "=== " +:+ title +:+ " ===").

(** The loop of [_list_available_profiles]; the bullet before a name is
    left out like the emoji. *)
Fixpoint print_names (names : list string) : M unit :=
  match names with
  | [] => ret tt
  | username :: rest => print username ;;; print_names rest
  end.

(** [_validate_profile_for_removal] *)
Definition _validate_profile_for_removal (username : string) (profiles : store)
  : M bool :=
  if bool_decide (is_Some (profiles !! username))
  then ret true
  else print_error ("Profile '" +:+ username +:+ "' not found!") ;;; ret false.

(** [_show_deletion_preview]; the bullets are left out here too. *)
Definition _show_deletion_preview (username : string) (p : profile) : M unit :=
  print (PyStr.nl +:+ "This will PERMANENTLY DELETE:") ;;;
  print ("  Profile: " +:+ username) ;;;
  name <- getitem p "name" ;;
  print ("  Name: " +:+ name) ;;;
  email <- getitem p "email" ;;
  print ("  Email: " +:+ email) ;;;
  match p !! "ssh_key" with
  | Some ssh_key_path =>
      print ("  SSH Private Key: " +:+ ssh_key_path) ;;;
      print ("  SSH Public Key: " +:+ ssh_key_path +:+ ".pub") ;;;
      print ("  SSH Config entry for " +:+ username)
  | None => ret tt
  end.

(** [_confirm_permanent_removal] *)
Definition _confirm_permanent_removal (username : string) : M bool :=
  print (PyStr.nl +:+ "WARNING: This action cannot be undone!") ;;;
  confirm1 <- input ("Type 'DELETE' to confirm removal of '" +:+ username +:+ "': ") ;;
  if negb (String.eqb (PyStr.strip confirm1) "DELETE")
  then print "Profile removal cancelled." ;;; ret false
  else
    confirm2 <- input "Are you absolutely sure? (yes/no): " ;;
    if negb (String.eqb (PyStr.lower (PyStr.strip confirm2)) "yes")
    then print "Profile removal cancelled." ;;; ret false
    else ret true.

(** The loop of [_find_profile_by_config] over [profiles.items()]. *)
Fixpoint find_in_items (config : git_identity) (items : list (string * profile))
  : M (option (string * profile)) :=
  match items with
  | [] => ret None
  | (username, p) :: rest =>
      name <- getitem p "name" ;;
      if String.eqb name (id_name config)
      then email <- getitem p "email" ;;
           if String.eqb email (id_email config)
           then ret (Some (username, p))
           else find_in_items config rest
      else find_in_items config rest
  end.

Section Flows.

Variable env : Env.

(** [profiles.items()]: the entries of a dict in the order it gives them,
    which a [store] does not record. *)
Variable dict_items : store -> list (string * profile).

Variable remote : Remote.

(** [_list_available_profiles] *)
Definition _list_available_profiles (profiles : store) : M unit :=
  print "Available profiles:" ;;;
  print_names (map fst (dict_items profiles)).

(** [_find_profile_by_config] *)
Definition _find_profile_by_config (config : git_identity) (profiles : store)
  : M (option (string * profile)) :=
  find_in_items config (dict_items profiles).

(** [remove_profile] *)
Definition remove_profile : M unit :=
  profiles <- load_profiles ;;
  if bool_decide (profiles = ∅)
  then print_error "No profiles to remove!"
  else
    print_header "Remove Git Profile" ;;;
    _list_available_profiles profiles ;;;
    line <- input (PyStr.nl +:+ "Enter profile name to PERMANENTLY DELETE: ") ;;
    let username := PyStr.strip line in
    valid <- _validate_profile_for_removal username profiles ;;
    if negb valid then ret tt
    else
      p <- getitem profiles username ;;
      _show_deletion_preview username p ;;;
      confirmed <- _confirm_permanent_removal username ;;
      if negb confirmed then ret tt
      else _perform_complete_profile_removal env username p profiles.

(** [_perform_profile_switch] *)
Definition _perform_profile_switch (username : string) (profiles : store)
  : M bool :=
  match profiles !! username with
  | None => print_error ("Profile '" +:+ username +:+ "' not found!") ;;; ret false
  | Some p =>
      name <- getitem p "name" ;;
      email <- getitem p "email" ;;
      set_git_config env name email
  end.

(** [_get_current_remote_url] *)
Definition _get_current_remote_url : M (option string) :=
  emit (EvRun ["git"; "remote"; "get-url"; "origin"] None) ;;;
  match origin_url remote with
  | Some stdout => ret (Some (PyStr.strip stdout))
  | None => ret None
  end.

(** [_update_remote_url] *)
Definition _update_remote_url (new_url : string) : M bool :=
  emit (EvRun ["git"; "remote"; "set-url"; "origin"; new_url] None) ;;;
  if set_url_ok remote
  then print_success "Repository URL updated!" ;;;
       print ("New URL: " +:+ new_url) ;;;
       ret true
  else ret false.

(** [update_repository_url_for_profile] *)
Definition update_repository_url_for_profile (username : string) : M bool :=
  catch (current_url <- _get_current_remote_url ;;
         match current_url with
         | Some url =>
             if String.eqb url EmptyString then ret false
             else
               new_url <- _convert_url_for_profile url username ;;
               match new_url with
               | Some new =>
                   if String.eqb new EmptyString then ret false
                   else _update_remote_url new
               | None => ret false
               end
         | None => ret false
         end)
        (fun e => match e with
                  | CalledProcessError => ret false
                  | _ => raise e
                  end).

(** [_post_switch_actions] *)
Definition _post_switch_actions (username : string) (profiles : store) : M unit :=
  update_repository_url_for_profile username ;;;
  p <- getitem profiles username ;;
  if bool_decide (is_Some (p !! "ssh_key"))
  then print (PyStr.nl +:+ "Testing GitHub connection...") ;;;
       test_github_connection env username ;;;
       ret tt
  else ret tt.

(** [switch_profile] *)
Definition switch_profile : M unit :=
  profiles <- load_profiles ;;
  if bool_decide (profiles = ∅)
  then print_error "No profiles found! Add a profile first."
  else
    print_header "Switch Git Profile" ;;;
    _list_available_profiles profiles ;;;
    line <- input (PyStr.nl +:+ "Enter profile name: ") ;;
    let username := PyStr.strip line in
    switched <- _perform_profile_switch username profiles ;;
    if negb switched then ret tt
    else
      print_success ("Switched to profile '" +:+ username +:+ "'!") ;;;
      _post_switch_actions username profiles.

(** [_is_in_git_repository] *)
Definition _is_in_git_repository : M bool :=
  emit (EvRun ["git"; "rev-parse"; "--git-dir"] None) ;;;
  if in_repository remote then ret true
  else print_error "Not in a Git repository!" ;;; ret false.

(** [_get_current_profile] *)
Definition _get_current_profile : M (option (string * profile)) :=
  current <- get_current_git_config ;;
  match current with
  | None => print_error "No Git configuration found!" ;;; ret None
  | Some config =>
      profiles <- load_profiles ;;
      matching_profile <- _find_profile_by_config config profiles ;;
      match matching_profile with
      | None =>
          print_error "Current Git config doesn't match any profile!" ;;;
          ret None
      | Some found => ret (Some found)
      end
  end.

(** [update_repository_url] *)
Definition update_repository_url : M unit :=
  in_repo <- _is_in_git_repository ;;
  if negb in_repo then ret tt
  else
    current_profile <- _get_current_profile ;;
    match current_profile with
    | None => ret tt
    | Some (username, _) =>
        update_repository_url_for_profile username ;;; ret tt
    end.

End Flows.

(** * Vocabulary of the properties

    Worlds and environments to run the program in, and the functions the
    statements below are written with. *)

(** A world with nothing in it, for the concrete runs below. *)
Definition empty_world : World :=
  mkWorld ∅ None None Absent ∅ [] [].

(** An environment where every tool and every write succeeds. *)
Definition posix_env : Env :=
  mkEnv false "/home/u/.ssh" (fun _ => None) (fun _ => None) (fun _ => true)
    (Completed 0 EmptyString EmptyString)
    (Completed 0 "github.com ssh-rsa AAAA" EmptyString)
    (Some (Completed 1 EmptyString
             "Hi u! You've successfully authenticated, but GitHub does not provide shell access.")).

(** The same environment, but the probe gets no answer in time. *)
Definition timeout_env : Env :=
  mkEnv false "/home/u/.ssh" (fun _ => None) (fun _ => None) (fun _ => true)
    (Completed 0 EmptyString EmptyString)
    (Completed 0 "github.com ssh-rsa AAAA" EmptyString)
    None.

(** An environment where no file can be written. *)
Definition readonly_env : Env :=
  mkEnv false "/home/u/.ssh" (fun _ => Some "Permission denied")
    (fun _ => None) (fun _ => true)
    (Completed 0 EmptyString EmptyString)
    (Completed 0 "github.com ssh-rsa AAAA" EmptyString)
    None.

(** A world where alice's key is already there. *)
Definition alice_key_world : World :=
  set_key_files {["/home/u/.ssh/id_rsa_alice"]} empty_world.

(** The phrase [_handle_ssh_test_result] looks for, and the probe that
    [_perform_ssh_test] runs. *)
Definition auth_phrase : string := "successfully authenticated".

Definition probe_event (username : string) : event :=
  EvRun ["ssh"; "-T"; "git@github.com-" +:+ username] (Some 15).

(** The profile that [_create_profile] stores for alice. *)
Definition alice_profile : profile :=
  new_profile "alice" "alice@example.com" "/home/u/.ssh/id_rsa_alice".

(** [c] is a character of [s]. *)
Fixpoint occurs (c : ascii) (s : string) : bool :=
  match s with
  | EmptyString => false
  | String a s' => Ascii.eqb c a || occurs c s'
  end.

(** What [_update_ssh_config_file] looks for in a line. *)
Definition marker (username : string) : string := "Git profile: " +:+ username.

(** Whether the loop is skipping after [lines]. *)
Fixpoint skip_after (username : string) (skip : bool) (lines : list string) : bool :=
  match lines with
  | [] => skip
  | line :: rest =>
      if PyStr.contains (marker username) line
      then skip_after username true rest
      else if skip && String.eqb (PyStr.strip line) EmptyString
      then skip_after username false rest
      else skip_after username skip rest
  end.

(** The removal in the words of the specification: only the first stanza
    whose header is the line [# Git profile: <name>] goes, from that line up
    to and with the next blank line. *)
Fixpoint drop_through_blank (lines : list string) : list string :=
  match lines with
  | [] => []
  | line :: rest =>
      if String.eqb (PyStr.strip line) EmptyString then rest
      else drop_through_blank rest
  end.

Fixpoint remove_first_stanza (username : string) (lines : list string)
  : list string :=
  match lines with
  | [] => []
  | line :: rest =>
      if String.eqb (PyStr.strip line) ("# Git profile: " +:+ username)
      then drop_through_blank rest
      else line :: remove_first_stanza username rest
  end.

(** A configuration with the stanza of alice and then the stanza of bob. *)
Definition alice_lines : list string :=
  stanza_lines "alice" "/home/u/.ssh/id_rsa_alice".
Definition bob_lines : list string :=
  stanza_lines "bob" "/home/u/.ssh/id_rsa_bob".
Definition two_stanza_world : World :=
  set_ssh_config
    (Some (config_content "alice" "/home/u/.ssh/id_rsa_alice"
           +:+ config_content "bob" "/home/u/.ssh/id_rsa_bob"))
    empty_world.

(** A configuration with the stanza of alice and then the stanza of alice2. *)
Definition alice_alice2_world : World :=
  set_ssh_config
    (Some (config_content "alice" "/home/u/.ssh/id_rsa_alice"
           +:+ config_content "alice2" "/home/u/.ssh/id_rsa_alice2"))
    empty_world.

(** The stanzas of two names that alice is a prefix of. *)
Definition alice2_lines : list string :=
  stanza_lines "alice2" "/home/u/.ssh/id_rsa_alice2".
Definition alice23_lines : list string :=
  stanza_lines "alice23" "/home/u/.ssh/id_rsa_alice23".

(** The grammar without the bound on the length. *)
Definition name_shape (cs : list ascii) : bool :=
  forallb is_alnum_hyphen cs
  && match head cs with Some c => is_alnum c | None => false end
  && match last cs with Some c => is_alnum c | None => false end.

(** Two worlds with the same files and the same Git configuration. *)
Definition same_files (w w' : World) : Prop :=
  key_files w' = key_files w
  ∧ ssh_config w' = ssh_config w
  ∧ known_hosts w' = known_hosts w
  ∧ store_file w' = store_file w
  ∧ git_global w' = git_global w.

(** An event that only talks to the user. *)
Definition talk (e : event) : bool :=
  match e with
  | EvPrint _ _ | EvPrompt _ => true
  | _ => false
  end.

(** [w'] comes from [w] by talking only. *)
Definition only_talk (w w' : World) : Prop :=
  same_files w w'
  ∧ ∃ delta, trace w' = trace w ++ delta ∧ forallb talk delta = true.

(** A store that holds alice, and alice typed again, then bob. *)
Definition alice_store : store := {["alice" := alice_profile]}.
Definition alice_again_world : World :=
  set_stdin [" alice "; "bob"] (set_store_file (Doc alice_store) empty_world).

(** What [get_current_git_config] finds in a global configuration. *)
Definition current_identity (g : gmap string string) : option git_identity :=
  match g !! "user.name", g !! "user.email" with
  | Some n, Some e =>
      let n := PyStr.strip (n +:+ PyStr.nl) in
      let e := PyStr.strip (e +:+ PyStr.nl) in
      if negb (String.eqb n EmptyString) && negb (String.eqb e EmptyString)
      then Some (mkIdentity n e) else None
  | _, _ => None
  end.

(** The run of [git config --global <key>] that reads a key. *)
Definition git_read (key : string) : event :=
  EvRun ["git"; "config"; "--global"; key] None.

(** The events of a run that are not talk. *)
Definition effects (events : list event) : list event :=
  filter (fun e => Is_true (negb (talk e))) events.

(** The key files after the attempt to unlink [path], and its event. *)
Definition unlinked (env : Env) (path : string) (files : gset string) : gset string :=
  if bool_decide (path ∈ files)
  then match unlink_error env path with
       | None => files ∖ {[path]}
       | Some _ => files
       end
  else files.
Definition unlink_events (path : string) (files : gset string) : list event :=
  if bool_decide (path ∈ files) then [EvUnlink path] else [].

(** The SSH configuration after the attempt to remove a stanza, and its
    event. *)
Definition config_without (env : Env) (username : string) (config : option string)
  : option string :=
  match config, write_error env SshConfigFile with
  | Some content, None =>
      Some (PyStr.writelines (filter_lines username false (PyStr.readlines content)))
  | _, _ => config
  end.
Definition config_events (env : Env) (config : option string) : list event :=
  match config, write_error env SshConfigFile with
  | Some _, None => [EvWrite SshConfigFile]
  | _, _ => []
  end.

(** The event of [save_profiles]. *)
Definition store_events (env : Env) : list event :=
  match write_error env StoreFile with
  | None => [EvWrite StoreFile]
  | Some _ => []
  end.

(** alice is stored with her key files and her stanza; the global Git
    configuration is bob's in the first world and alice's in the second. *)
Definition alice_stored (git : gmap string string) : World :=
  mkWorld ({["/home/u/.ssh/id_rsa_alice"]} ∪ {["/home/u/.ssh/id_rsa_alice.pub"]})
    (Some (config_content "alice" "/home/u/.ssh/id_rsa_alice"))
    None (Doc alice_store) git [] [].
Definition bob_active_world : World :=
  alice_stored (<["user.name" := "bob"]> (<["user.email" := "bob@example.com"]> ∅)).
Definition alice_active_world : World :=
  alice_stored (<["user.name" := "alice"]> (<["user.email" := "alice@example.com"]> ∅)).

(** A first run: nothing exists yet, and the user declines a passphrase. *)
Definition first_run_world : World := set_stdin ["n"] empty_world.
Definition after_first_run : World :=
  snd (_create_profile posix_env "alice" "alice@example.com" first_run_world).

(** The parts of an address that [EMAIL_PATTERN] describes: a local part,
    a domain and a top-level domain of two letters or more. *)
Definition email_parts (local domain tld : string) : Prop :=
  local ≠ EmptyString
  ∧ forallb is_email_local (list_ascii_of_string local) = true
  ∧ domain ≠ EmptyString
  ∧ forallb is_email_domain (list_ascii_of_string domain) = true
  ∧ 2 ≤ String.length tld
  ∧ forallb is_alpha (list_ascii_of_string tld) = true.

(** How often [c] is in [s]. *)
Fixpoint count_char (c : ascii) (s : string) : nat :=
  match s with
  | EmptyString => 0
  | String a s' => (if Ascii.eqb c a then 1 else 0) + count_char c s'
  end.

(** A line with its line end, and a list of lines as [readlines] gives
    them: only the last one may lack its line end, and none is empty. *)
Definition full_line (line : string) : Prop :=
  ∃ body, line = body +:+ PyStr.nl ∧ occurs PyStr.LF body = false.

Fixpoint well_lined (lines : list string) : Prop :=
  match lines with
  | [] => True
  | [line] =>
      full_line line ∨ (line ≠ EmptyString ∧ occurs PyStr.LF line = false)
  | line :: rest => full_line line ∧ well_lined rest
  end.

(** The path of the private key of a profile, and the worlds that differ
    from another by added key files and an SSH configuration only. *)
Definition key_path (env : Env) (username : string) : string :=
  joinpath (is_windows env) (ssh_dir env) ("id_rsa_" +:+ username).

(** The stanza that [update_ssh_config] writes for a key at [key_file]. *)
Definition stanza_of (env : Env) (username key_file : string) : string :=
  config_content username
    (if is_windows env then PyStr.replace "\" "/" key_file else key_file).

(** An environment where the name can be written to the Git configuration
    and the email cannot. *)
Definition email_locked_env : Env :=
  mkEnv false "/home/u/.ssh" (fun _ => None) (fun _ => None)
    (fun key => String.eqb key "user.name")
    (Completed 0 EmptyString EmptyString)
    (Completed 0 "github.com ssh-rsa AAAA" EmptyString)
    None.

(** An environment where [ssh-keygen] fails. *)
Definition keygen_fails_env : Env :=
  mkEnv false "/home/u/.ssh" (fun _ => None) (fun _ => None) (fun _ => true)
    (Completed 1 EmptyString "ssh-keygen: unknown option")
    (Completed 0 "github.com ssh-rsa AAAA" EmptyString)
    None.

(** The key path stored for a name, if the store can be read and holds
    one. *)
Definition stored_key (w : World) (username : string) : option string :=
  match store_file w with
  | Doc profiles =>
      match profiles !! username with
      | Some p => p !! "ssh_key"
      | None => None
      end
  | _ => None
  end.

(** A world whose [known_hosts] names another host of the same suffix. *)
Definition gist_hosts_world : World :=
  set_known_hosts (Some "gist.github.com ssh-rsa AAAA") empty_world.

(** [w'] comes from [w] by printing only: the files, the Git configuration
    and the lines still to be typed are the same. *)
Definition quiet (w w' : World) : Prop :=
  only_talk w w' ∧ stdin w' = stdin w.

(** alice is asked for by name, with the two confirmations typed, or with
    the second one refused. *)
Definition delete_alice_world : World :=
  set_stdin [" alice "; "DELETE"; "Yes"] alice_active_world.
Definition keep_alice_world : World :=
  set_stdin ["alice"; "DELETE"; "no"] alice_active_world.

(** The order of a dict with one entry or none. *)
Definition items_of (profiles : store) : list (string * profile) :=
  map_to_list profiles.

(** The two git commands on the remote named origin. *)
Definition get_url_event : event :=
  EvRun ["git"; "remote"; "get-url"; "origin"] None.
Definition set_url_event (new_url : string) : event :=
  EvRun ["git"; "remote"; "set-url"; "origin"; new_url] None.

(** A clone over HTTPS, a clone from another host whose name begins like
    GitHub's, and a directory that is no repository. *)
Definition https_clone : Remote :=
  mkRemote true (Some ("https://github.com/octo/cat.git" +:+ PyStr.nl)) true.
Definition company_clone : Remote :=
  mkRemote true (Some ("git@github.company.com:octo/cat.git" +:+ PyStr.nl)) true.
Definition no_repository : Remote := mkRemote false None false.

(** alice is stored and bob is active; alice, or a name that is not
    stored, is typed at the prompt. *)
Definition switch_to_alice_world : World := set_stdin [" alice "] bob_active_world.
Definition switch_to_ghost_world : World := set_stdin ["ghost"] bob_active_world.

(** [w'] differs from [w] at most by [known_hosts] and by the trace. *)
Definition untouched (w w' : World) : Prop :=
  key_files w' = key_files w
  ∧ ssh_config w' = ssh_config w
  ∧ store_file w' = store_file w
  ∧ git_global w' = git_global w
  ∧ stdin w' = stdin w.

(** A profile whose name and email are those of a Git identity. *)
Definition matches_config (config : git_identity) (p : profile) : Prop :=
  p !! "name" = Some (id_name config) ∧ p !! "email" = Some (id_email config).

(** The profiles that [load_profiles] gives in a world. *)
Definition loaded (w : World) : store :=
  match store_file w with
  | Doc profiles => profiles
  | _ => ∅
  end.

(** A path with every backslash turned into a slash. *)
Fixpoint slashes (s : string) : string :=
  match s with
  | EmptyString => EmptyString
  | String c s' => String (if Ascii.eqb c "\" then "/"%char else c) (slashes s')
  end.

(** A Windows environment where every tool and every write succeeds. *)
Definition windows_env : Env :=
  mkEnv true "C:\Users\u\.ssh" (fun _ => None) (fun _ => None) (fun _ => true)
    (Completed 0 EmptyString EmptyString)
    (Completed 0 "github.com ssh-rsa AAAA" EmptyString)
    None.

(** alice and bob both have their key files. *)
Definition two_keys_world : World :=
  set_key_files ({["/home/u/.ssh/id_rsa_alice"]} ∪ {["/home/u/.ssh/id_rsa_alice.pub"]}
                 ∪ {["/home/u/.ssh/id_rsa_bob"]} ∪ {["/home/u/.ssh/id_rsa_bob.pub"]})
    empty_world.

(** A header comment that matches [# Git profile: <name>], and the removal
    in the words of the specification with every stanza for the first one:
    every stanza whose header comment matches goes, from that line up to
    and with the next blank line; every other line stays. *)
Definition is_header (username line : string) : bool :=
  String.eqb (PyStr.strip line) ("# Git profile: " +:+ username).

Fixpoint remove_every_stanza (username : string) (skip : bool) (lines : list string)
  : list string :=
  match lines with
  | [] => []
  | line :: rest =>
      if is_header username line
      then remove_every_stanza username true rest
      else if skip && String.eqb (PyStr.strip line) EmptyString
      then remove_every_stanza username false rest
      else if negb skip
      then line :: remove_every_stanza username skip rest
      else remove_every_stanza username skip rest
  end.

(** A configuration with the stanzas of alice, alice2 and alice23, as
    [update_ssh_config] appends them one after the other. *)
Definition three_stanza_world : World :=
  set_ssh_config
    (Some (config_content "alice" "/home/u/.ssh/id_rsa_alice"
           +:+ config_content "alice2" "/home/u/.ssh/id_rsa_alice2"
           +:+ config_content "alice23" "/home/u/.ssh/id_rsa_alice23"))
    empty_world.

(** The carriage return and the NUL character. A text written with a
    carriage return is read back by Python with a line feed in its place,
    and a command line that holds a NUL is refused by [subprocess.run];
    the statements about such texts and arguments leave the two out. *)
Definition CR : ascii := "013"%char.
Definition NUL : ascii := "000"%char.

(** * Properties *)

(** ** Remote URL rewriting *)

(** C5: the three documented rewrites give the documented URL and leave the
    world as it is; every URL that starts with neither [git@github.com] nor
    [https://github.com/] (an ftp URL for one) gives nothing and prints the
    warning. *)
Theorem convert_url_for_profile_cases (w : World) :
  _convert_url_for_profile "https://github.com/u/r.git" "work" w
    = (Ok (Some "git@github.com-work:u/r.git"), w)
  ∧ _convert_url_for_profile "git@github.com-old:u/r.git" "new" w
    = (Ok (Some "git@github.com-new:u/r.git"), w)
  ∧ _convert_url_for_profile "git@github.com:u/r.git" "work" w
    = (Ok (Some "git@github.com-work:u/r.git"), w)
  ∧ (∀ url username,
       PyStr.startswith "git@github.com" url = false →
       PyStr.startswith "https://github.com/" url = false →
       _convert_url_for_profile url username w
       = (Ok None, log (EvPrint LvWarning "Unsupported repository URL format") w))
  ∧ (∀ rest username,
       _convert_url_for_profile ("ftp://" +:+ rest) username w
       = (Ok None, log (EvPrint LvWarning "Unsupported repository URL format") w)).
Proof.
  repeat split; try reflexivity.
  intros url username Hssh Hhttps.
  unfold _convert_url_for_profile. rewrite Hssh, Hhttps. reflexivity.
Qed.

Lemma convert_url_for_profile_cases_witness :
  _convert_url_for_profile "ftp://example.com/u/r.git" "work" empty_world
  = (Ok None, log (EvPrint LvWarning "Unsupported repository URL format") empty_world).
Proof.
  exact (proj1 (proj2 (proj2 (proj2 (convert_url_for_profile_cases empty_world))))
           "ftp://example.com/u/r.git" "work" eq_refl eq_refl).
Defined.

(** ** Running the monad *)

Ltac unfold_m :=
  unfold print, print_success, print_error, print_warning, print_info,
    emit, modify, get, getitem, getindex, catch, bind, ret, raise in *.

Lemma add_github_to_known_hosts_total env w :
  fst (add_github_to_known_hosts env w) = Ok tt.
Proof.
  unfold add_github_to_known_hosts, _is_github_in_known_hosts,
    _add_github_host_key.
  unfold_m. simpl.
  destruct (known_hosts w) as [content|]; simpl.
  - destruct (PyStr.contains "github.com" content); simpl; [reflexivity|].
    destruct (ssh_keyscan env) as [rc out err|msg]; simpl; [|reflexivity].
    destruct (bool_decide (rc = 0%Z) && negb (String.eqb out EmptyString));
      [|reflexivity].
    destruct (write_error env KnownHostsFile); reflexivity.
  - destruct (ssh_keyscan env) as [rc out err|msg]; simpl; [|reflexivity].
    destruct (bool_decide (rc = 0%Z) && negb (String.eqb out EmptyString));
      [|reflexivity].
    destruct (write_error env KnownHostsFile); reflexivity.
Qed.

(** ** Key generation *)

(** C2, as amended: when a key file exists at [SSH_DIR/id_rsa_<name>],
    [generate_ssh_key] returns that path; it prints one warning and does
    nothing else: no prompt, no tool, no file touched. *)
Theorem generate_ssh_key_existing env email username use_passphrase w :
  joinpath (is_windows env) (ssh_dir env) ("id_rsa_" +:+ username) ∈ key_files w →
  generate_ssh_key env email username use_passphrase w
  = (Ok (Some (joinpath (is_windows env) (ssh_dir env) ("id_rsa_" +:+ username))),
     log (EvPrint LvWarning
            ("SSH key for profile '" +:+ username +:+ "' already exists!")) w).
Proof.
  intros Hin. unfold generate_ssh_key. unfold_m.
  rewrite bool_decide_eq_true_2 by exact Hin. reflexivity.
Qed.

Lemma generate_ssh_key_existing_witness :
  generate_ssh_key posix_env "alice@example.com" "alice" true alice_key_world
  = (Ok (Some "/home/u/.ssh/id_rsa_alice"),
     log (EvPrint LvWarning "SSH key for profile 'alice' already exists!")
       alice_key_world).
Proof.
  apply (generate_ssh_key_existing posix_env "alice@example.com" "alice" true
           alice_key_world).
  vm_compute. set_solver.
Defined.

(** C2 as stated fails: with the key file present the call does not return
    nothing, it returns the path of the key that is there. *)
Lemma generate_ssh_key_existing_not_none :
  "/home/u/.ssh/id_rsa_alice" ∈ key_files alice_key_world
  ∧ fst (generate_ssh_key posix_env "alice@example.com" "alice" true alice_key_world)
    = Ok (Some "/home/u/.ssh/id_rsa_alice")
  ∧ fst (generate_ssh_key posix_env "alice@example.com" "alice" true alice_key_world)
    ≠ Ok None.
Proof.
  split; [vm_compute; set_solver|].
  split; [vm_compute; reflexivity|].
  vm_compute. discriminate.
Qed.

(** ** Connection test *)

(** C6, as amended: a probe that ends, with whatever exit code, is a success
    exactly when its standard error, put in lower case, contains the phrase;
    otherwise the failure is reported with the captured text; a probe that
    does not end within its 15 seconds raises [TimeoutExpired], which
    [test_github_connection] reports with the timeout message and not with
    the failure one. *)
Theorem ssh_test_classification env username (p : profile) key name email w :
  p !! "ssh_key" = Some key →
  p !! "name" = Some name →
  p !! "email" = Some email →
  (∀ rc out err,
     ssh_probe env = Some (Completed rc out err) →
     fst (_perform_ssh_test env username p w)
       = Ok (PyStr.contains auth_phrase (PyStr.lower err))
     ∧ (PyStr.contains auth_phrase (PyStr.lower err) = true →
        trace (snd (_perform_ssh_test env username p w))
        = trace w ++ [probe_event username;
                      EvPrint LvSuccess "GitHub connection successful!";
                      EvPrint LvPlain ("Profile: " +:+ username);
                      EvPrint LvPlain ("Name: " +:+ name);
                      EvPrint LvPlain ("Email: " +:+ email)])
     ∧ (PyStr.contains auth_phrase (PyStr.lower err) = false →
        ∃ tips,
          trace (snd (_perform_ssh_test env username p w))
          = trace w ++ [probe_event username;
                        EvPrint LvError "GitHub connection failed!";
                        EvPrint LvPlain ("Error: " +:+ err)] ++ tips))
  ∧ (ssh_probe env = None →
     _perform_ssh_test env username p w
       = (Raise TimeoutExpired, log (probe_event username) w))
  ∧ (∀ profiles,
       ssh_probe env = None →
       store_file w = Doc profiles →
       profiles !! username = Some p →
       test_github_connection env username w
       = (Ok false,
          log (EvPrint LvError "Connection timeout! Check your internet connection.")
            (log (probe_event username)
               (snd (add_github_to_known_hosts env
                       (log (EvPrint LvInfo
                               ("Testing GitHub connection for profile '"
                                +:+ username +:+ "'...")) w)))))).
Proof.
  intros Hkey Hname Hemail. split; [|split].
  - intros rc out err Hprobe.
    unfold _perform_ssh_test, _handle_ssh_test_result,
      _print_connection_success_details, print_troubleshooting_tips,
      _print_platform_specific_tips, auth_phrase.
    unfold_m. rewrite Hkey, Hprobe. simpl.
    destruct (PyStr.contains _ (PyStr.lower err)) eqn:Hc; simpl.
    + rewrite Hname, Hemail. simpl.
      split; [reflexivity|]. split; [|discriminate].
      intros _. repeat rewrite <- app_assoc. reflexivity.
    + destruct (is_windows env); simpl.
      all: split; [reflexivity|]; split; [discriminate|]; intros _.
      all: eexists; repeat rewrite <- app_assoc; simpl; reflexivity.
  - intros Hprobe. unfold _perform_ssh_test. unfold_m.
    rewrite Hkey, Hprobe. reflexivity.
  - intros profiles Hprobe Hstore Hp.
    unfold test_github_connection, load_profiles. unfold_m.
    rewrite Hstore. simpl. rewrite Hp.
    rewrite bool_decide_eq_true_2 by (rewrite Hkey; eauto). simpl.
    pose proof (add_github_to_known_hosts_total env
      (log (EvPrint LvInfo ("Testing GitHub connection for profile '"
                            +:+ username +:+ "'...")) w)) as Htot.
    destruct (add_github_to_known_hosts env _) as [r w1]. simpl in *.
    subst r. unfold _perform_ssh_test. unfold_m.
    rewrite Hkey, Hprobe. reflexivity.
Qed.

Lemma ssh_test_classification_witness :
  fst (_perform_ssh_test posix_env "alice" alice_profile empty_world) = Ok true
  ∧ _perform_ssh_test timeout_env "alice" alice_profile empty_world
    = (Raise TimeoutExpired, log (probe_event "alice") empty_world)
  ∧ fst (test_github_connection timeout_env "alice" bob_active_world) = Ok false
  ∧ last (trace (snd (test_github_connection timeout_env "alice" bob_active_world)))
    = Some (EvPrint LvError "Connection timeout! Check your internet connection.").
Proof.
  split.
  - exact (proj1 (proj1 (ssh_test_classification posix_env "alice" alice_profile
             "/home/u/.ssh/id_rsa_alice" "alice" "alice@example.com" empty_world
             eq_refl eq_refl eq_refl)
             1%Z EmptyString
             "Hi u! You've successfully authenticated, but GitHub does not provide shell access."
             eq_refl)).
  - split.
    + exact (proj1 (proj2 (ssh_test_classification timeout_env "alice"
               alice_profile "/home/u/.ssh/id_rsa_alice" "alice"
               "alice@example.com" empty_world eq_refl eq_refl eq_refl))
               eq_refl).
    + rewrite (proj2 (proj2 (ssh_test_classification timeout_env "alice"
                 alice_profile "/home/u/.ssh/id_rsa_alice" "alice"
                 "alice@example.com" bob_active_world eq_refl eq_refl eq_refl))
                 alice_store eq_refl eq_refl eq_refl).
      split; reflexivity.
Defined.

(** C6 as stated fails: this standard error does not contain the phrase as
    it is written, and the test is a success all the same. *)
Lemma ssh_test_success_without_exact_phrase :
  PyStr.contains auth_phrase "Hi u! You've Successfully Authenticated." = false
  ∧ fst (_handle_ssh_test_result posix_env
           "Hi u! You've Successfully Authenticated." "alice" alice_profile
           empty_world) = Ok true.
Proof. split; vm_compute; reflexivity. Qed.

(** ** Facts about the string primitives *)

Lemma occurs_cons c a s : occurs c (String a s) = Ascii.eqb c a || occurs c s.
Proof. reflexivity. Qed.

Lemma append_cons a s t : String a s +:+ t = String a (s +:+ t).
Proof. reflexivity. Qed.

Lemma append_empty_l t : EmptyString +:+ t = t.
Proof. reflexivity. Qed.

Lemma append_empty_r s : s +:+ EmptyString = s.
Proof. induction s as [|a s IH]; [reflexivity|]. rewrite append_cons, IH. reflexivity. Qed.

Lemma append_assoc_r s t u : (s +:+ t) +:+ u = s +:+ (t +:+ u).
Proof.
  induction s as [|a s IH]; [reflexivity|].
  rewrite !append_cons, IH. reflexivity.
Qed.

Lemma append_length s t :
  String.length (s +:+ t) = String.length s + String.length t.
Proof.
  induction s as [|a s IH]; [reflexivity|].
  rewrite append_cons. simpl. rewrite IH. reflexivity.
Qed.

Lemma prefix_empty s : String.prefix EmptyString s = true.
Proof. destruct s; reflexivity. Qed.

Lemma prefix_nil_r p : String.prefix p EmptyString = String.eqb p EmptyString.
Proof. destruct p; reflexivity. Qed.

Lemma prefix_cons a p b s :
  String.prefix (String a p) (String b s) = Ascii.eqb a b && String.prefix p s.
Proof.
  simpl. destruct (ascii_dec a b) as [->|Hne].
  - rewrite Ascii.eqb_refl. reflexivity.
  - apply Ascii.eqb_neq in Hne. rewrite Hne. reflexivity.
Qed.

Lemma contains_cons p c s :
  PyStr.contains p (String c s) = String.prefix p (String c s) || PyStr.contains p s.
Proof. reflexivity. Qed.

Lemma contains_nil p : PyStr.contains p EmptyString = String.eqb p EmptyString.
Proof.
  change (PyStr.contains p EmptyString) with (String.prefix p EmptyString || false).
  rewrite prefix_nil_r. apply orb_false_r.
Qed.

Lemma occurs_app c s t : occurs c (s +:+ t) = occurs c s || occurs c t.
Proof.
  induction s as [|a s IH]; [reflexivity|].
  rewrite append_cons. simpl. rewrite IH. apply orb_assoc.
Qed.

Lemma prefix_occurs c p s :
  String.prefix p s = true → occurs c p = true → occurs c s = true.
Proof.
  revert s. induction p as [|a p IH]; intros s Hp Hc; [discriminate|].
  destruct s as [|b s]; [discriminate|].
  rewrite prefix_cons in Hp. apply andb_true_iff in Hp as [Hab Hp].
  apply Ascii.eqb_eq in Hab as ->. simpl in *.
  destruct (Ascii.eqb c b); [reflexivity|]. simpl in *. eauto.
Qed.

Lemma contains_occurs c p s :
  PyStr.contains p s = true → occurs c p = true → occurs c s = true.
Proof.
  induction s as [|b s IH]; intros Hp Hc.
  - rewrite contains_nil in Hp. apply String.eqb_eq in Hp. subst. discriminate.
  - rewrite contains_cons in Hp. apply orb_true_iff in Hp as [Hp|Hp].
    + eapply prefix_occurs; eauto.
    + simpl. rewrite (IH Hp Hc). apply orb_true_r.
Qed.

Lemma prefix_length p s :
  String.prefix p s = true → String.length p ≤ String.length s.
Proof.
  revert s. induction p as [|a p IH]; intros s Hp; simpl; [lia|].
  destruct s as [|b s]; [discriminate|].
  rewrite prefix_cons in Hp. apply andb_true_iff in Hp as [_ Hp].
  apply IH in Hp. simpl. lia.
Qed.

Lemma contains_length p s :
  PyStr.contains p s = true → String.length p ≤ String.length s.
Proof.
  induction s as [|b s IH]; intros Hp.
  - rewrite contains_nil in Hp. apply String.eqb_eq in Hp. subst. reflexivity.
  - rewrite contains_cons in Hp. apply orb_true_iff in Hp as [Hp|Hp].
    + apply prefix_length. exact Hp.
    + apply IH in Hp. simpl. lia.
Qed.

Lemma prefix_same_length p s :
  String.prefix p s = true → String.length p = String.length s → p = s.
Proof.
  revert s. induction p as [|a p IH]; intros s Hp Hlen.
  - destruct s; [reflexivity|discriminate].
  - destruct s as [|b s]; [discriminate|].
    rewrite prefix_cons in Hp. apply andb_true_iff in Hp as [Hab Hp].
    apply Ascii.eqb_eq in Hab as ->. f_equal. apply IH; [exact Hp|].
    simpl in Hlen. lia.
Qed.

Lemma prefix_app_r p s t :
  String.prefix p s = true → String.prefix p (s +:+ t) = true.
Proof.
  revert s. induction p as [|a p IH]; intros s Hp; [apply prefix_empty|].
  destruct s as [|b s]; [discriminate|].
  rewrite append_cons, prefix_cons in *.
  apply andb_true_iff in Hp as [-> Hp]. simpl. eauto.
Qed.

Lemma prefix_app_nl p s :
  occurs PyStr.LF p = false →
  String.prefix p (s +:+ PyStr.nl) = String.prefix p s.
Proof.
  revert s. induction p as [|a p IH]; intros s Hp.
  - rewrite !prefix_empty. reflexivity.
  - rewrite occurs_cons in Hp. apply orb_false_iff in Hp as [Ha Hp].
    destruct s as [|b s].
    + rewrite append_empty_l. unfold PyStr.nl. rewrite prefix_cons, prefix_nil_r.
      rewrite Ascii.eqb_sym, Ha. reflexivity.
    + rewrite append_cons, !prefix_cons, IH by exact Hp. reflexivity.
Qed.

Lemma contains_app_nl p s :
  occurs PyStr.LF p = false →
  PyStr.contains p (s +:+ PyStr.nl) = PyStr.contains p s.
Proof.
  intros Hp. induction s as [|b s IH].
  - rewrite append_empty_l. unfold PyStr.nl at 1.
    rewrite contains_cons, !contains_nil.
    change (String PyStr.LF EmptyString) with (EmptyString +:+ PyStr.nl).
    rewrite prefix_app_nl by exact Hp. rewrite prefix_nil_r. apply orb_diag.
  - rewrite append_cons, !contains_cons, IH.
    rewrite <- append_cons, prefix_app_nl by exact Hp. reflexivity.
Qed.

(** *** Blank lines *)

Lemma rstrip_empty c s :
  PyStr.rstrip s = EmptyString → occurs c s = true → PyStr.isspace c = true.
Proof.
  induction s as [|a s IH]; intros Hs Hc; [discriminate|].
  simpl in Hs. destruct (PyStr.rstrip s) eqn:Hr; [|discriminate].
  destruct (PyStr.isspace a) eqn:Ha; [|discriminate].
  simpl in Hc. apply orb_true_iff in Hc as [Hc|Hc].
  - apply Ascii.eqb_eq in Hc. subst. exact Ha.
  - apply IH; [reflexivity|exact Hc].
Qed.

Lemma lstrip_occurs c s :
  occurs c s = true → PyStr.isspace c = true ∨ occurs c (PyStr.lstrip s) = true.
Proof.
  induction s as [|a s IH]; intros Hc; [discriminate|].
  simpl. destruct (PyStr.isspace a) eqn:Ha.
  - simpl in Hc. apply orb_true_iff in Hc as [Hc|Hc].
    + apply Ascii.eqb_eq in Hc. subst. left. exact Ha.
    + apply IH. exact Hc.
  - right. exact Hc.
Qed.

Lemma strip_empty c s :
  PyStr.strip s = EmptyString → occurs c s = true → PyStr.isspace c = true.
Proof.
  unfold PyStr.strip. intros Hs Hc.
  destruct (lstrip_occurs c s Hc) as [H|H]; [exact H|].
  eapply rstrip_empty; eauto.
Qed.

Lemma strip_nonblank c s :
  occurs c s = true → PyStr.isspace c = false → PyStr.strip s ≠ EmptyString.
Proof.
  intros Hc Hsp Hs. rewrite (strip_empty c s Hs Hc) in Hsp. discriminate.
Qed.

(** ** Removal of a stanza from the SSH client configuration *)

(** *** Lines of a text *)

Lemma readlines_snoc_nl a : PyStr.readlines (a +:+ PyStr.nl) ≠ [].
Proof.
  induction a as [|c a IH]; [discriminate|].
  rewrite append_cons. simpl.
  destruct (Ascii.eqb c PyStr.LF); [discriminate|].
  destruct (PyStr.readlines (a +:+ PyStr.nl)); [contradiction|discriminate].
Qed.

Lemma readlines_app_nl a b :
  PyStr.readlines ((a +:+ PyStr.nl) +:+ b)
  = PyStr.readlines (a +:+ PyStr.nl) ++ PyStr.readlines b.
Proof.
  induction a as [|c a IH]; [reflexivity|].
  rewrite !append_cons. simpl. rewrite IH.
  destruct (Ascii.eqb c PyStr.LF); [reflexivity|].
  pose proof (readlines_snoc_nl a) as Hne.
  destruct (PyStr.readlines (a +:+ PyStr.nl)); [contradiction|reflexivity].
Qed.

Lemma readlines_line body :
  occurs PyStr.LF body = false →
  PyStr.readlines (body +:+ PyStr.nl) = [body +:+ PyStr.nl].
Proof.
  induction body as [|c body IH]; intros H; [reflexivity|].
  rewrite occurs_cons in H. apply orb_false_iff in H as [Hc H].
  rewrite append_cons. simpl. rewrite Ascii.eqb_sym, Hc, (IH H). reflexivity.
Qed.

Lemma readlines_writelines lines rest :
  Forall (fun line => ∃ body, line = body +:+ PyStr.nl
                              ∧ occurs PyStr.LF body = false) lines →
  PyStr.readlines (PyStr.writelines lines +:+ rest)
  = lines ++ PyStr.readlines rest.
Proof.
  induction 1 as [|line lines (body & -> & Hbody) _ IH]; [reflexivity|].
  change (PyStr.writelines ((body +:+ PyStr.nl) :: lines))
    with ((body +:+ PyStr.nl) +:+ PyStr.writelines lines).
  rewrite append_assoc_r, readlines_app_nl, readlines_line, IH by exact Hbody.
  reflexivity.
Qed.

(** The text that [update_ssh_config] appends reads back as its lines,
    whatever stands before it and after it. *)
Lemma readlines_with_stanza before username key_file after :
  occurs PyStr.LF username = false →
  occurs PyStr.LF key_file = false →
  PyStr.readlines (before +:+ config_content username key_file +:+ after)
  = PyStr.readlines (before +:+ PyStr.nl)
    ++ tail (stanza_lines username key_file) ++ PyStr.readlines after.
Proof.
  intros Hu Hk. unfold config_content.
  change (PyStr.writelines (stanza_lines username key_file))
    with (PyStr.nl +:+ PyStr.writelines (tail (stanza_lines username key_file))).
  rewrite (append_assoc_r PyStr.nl), <- (append_assoc_r before).
  rewrite readlines_app_nl. f_equal.
  apply readlines_writelines. unfold stanza_lines, tail.
  repeat apply List.Forall_cons; try apply List.Forall_nil.
  - exists ("# Git profile: " +:+ username).
    rewrite append_assoc_r, occurs_app, Hu. split; reflexivity.
  - exists ("Host github.com-" +:+ username).
    rewrite append_assoc_r, occurs_app, Hu. split; reflexivity.
  - eexists. split; reflexivity.
  - eexists. split; reflexivity.
  - exists ("    IdentityFile " +:+ key_file).
    rewrite append_assoc_r, occurs_app, Hk. split; reflexivity.
  - eexists. split; reflexivity.
  - exists EmptyString. split; reflexivity.
Qed.

Lemma marker_has_G username : occurs "G" (marker username) = true.
Proof. reflexivity. Qed.

Lemma blank_no_marker username line :
  PyStr.strip line = EmptyString → PyStr.contains (marker username) line = false.
Proof.
  intros Hblank. destruct (PyStr.contains _ line) eqn:Hc; [|reflexivity].
  pose proof (contains_occurs "G" _ _ Hc (marker_has_G username)) as HG.
  pose proof (strip_empty _ _ Hblank HG) as Hsp. discriminate.
Qed.

Lemma filter_lines_cons_marker username skip line rest :
  PyStr.contains (marker username) line = true →
  filter_lines username skip (line :: rest) = filter_lines username true rest.
Proof. intros H. simpl. unfold marker in H. rewrite H. reflexivity. Qed.

Lemma filter_lines_cons_keep username line rest :
  PyStr.contains (marker username) line = false →
  filter_lines username false (line :: rest)
  = line :: filter_lines username false rest.
Proof. intros H. simpl. unfold marker in H. rewrite H. reflexivity. Qed.

Lemma filter_lines_cons_skip username line rest :
  PyStr.strip line ≠ EmptyString →
  filter_lines username true (line :: rest) = filter_lines username true rest.
Proof.
  intros H. simpl. destruct (PyStr.contains _ line); [reflexivity|].
  apply String.eqb_neq in H. rewrite H. reflexivity.
Qed.

Lemma filter_lines_cons_blank username line rest :
  PyStr.strip line = EmptyString →
  filter_lines username true (line :: rest) = filter_lines username false rest.
Proof.
  intros H. pose proof (blank_no_marker username line H) as Hm.
  simpl. unfold marker in Hm. rewrite Hm, H. reflexivity.
Qed.

Lemma filter_lines_app username skip l1 l2 :
  filter_lines username skip (l1 ++ l2)
  = filter_lines username skip l1
    ++ filter_lines username (skip_after username skip l1) l2.
Proof.
  revert skip. induction l1 as [|line l1 IH]; intros skip; [reflexivity|].
  simpl. unfold marker.
  destruct (PyStr.contains _ line); [apply IH|].
  destruct (skip && String.eqb (PyStr.strip line) EmptyString); [apply IH|].
  destruct skip; simpl; rewrite IH; reflexivity.
Qed.

Lemma filter_lines_no_marker username lines :
  Forall (fun line => PyStr.contains (marker username) line = false) lines →
  filter_lines username false lines = lines
  ∧ skip_after username false lines = false.
Proof.
  induction 1 as [|line lines Hline _ [IH1 IH2]]; [split; reflexivity|].
  rewrite filter_lines_cons_keep by exact Hline. rewrite IH1.
  simpl. rewrite Hline. simpl. auto.
Qed.

Lemma filter_lines_skip_body username body rest :
  Forall (fun line => PyStr.strip line ≠ EmptyString) body →
  filter_lines username true (body ++ rest) = filter_lines username true rest.
Proof.
  induction 1 as [|line body Hline _ IH]; [reflexivity|].
  simpl app. rewrite filter_lines_cons_skip by exact Hline. exact IH.
Qed.

Lemma filter_lines_skip_all username body :
  Forall (fun line => PyStr.strip line ≠ EmptyString) body →
  filter_lines username true body = [].
Proof.
  intros H. rewrite <- (app_nil_r body).
  rewrite filter_lines_skip_body by exact H. reflexivity.
Qed.

(** The three equations that fix what the loop keeps. *)
Lemma filter_lines_stanza username pre m body b post :
  Forall (fun line => PyStr.contains (marker username) line = false) pre →
  PyStr.contains (marker username) m = true →
  Forall (fun line => PyStr.strip line ≠ EmptyString) body →
  PyStr.strip b = EmptyString →
  filter_lines username false (pre ++ m :: body ++ b :: post)
  = pre ++ filter_lines username false post.
Proof.
  intros Hpre Hm Hbody Hb.
  destruct (filter_lines_no_marker username pre Hpre) as [Hkeep Hskip].
  rewrite filter_lines_app, Hkeep, Hskip. f_equal.
  rewrite filter_lines_cons_marker by exact Hm.
  rewrite filter_lines_skip_body by exact Hbody.
  apply filter_lines_cons_blank. exact Hb.
Qed.

Lemma filter_lines_open_stanza username pre m body :
  Forall (fun line => PyStr.contains (marker username) line = false) pre →
  PyStr.contains (marker username) m = true →
  Forall (fun line => PyStr.strip line ≠ EmptyString) body →
  filter_lines username false (pre ++ m :: body) = pre.
Proof.
  intros Hpre Hm Hbody.
  destruct (filter_lines_no_marker username pre Hpre) as [Hkeep Hskip].
  rewrite filter_lines_app, Hkeep, Hskip.
  rewrite filter_lines_cons_marker by exact Hm.
  rewrite filter_lines_skip_all by exact Hbody. apply app_nil_r.
Qed.

Lemma contains_skip p c s :
  PyStr.contains p s = true → PyStr.contains p (String c s) = true.
Proof. intros H. rewrite contains_cons, H. apply orb_true_r. Qed.

Lemma contains_prefix p s :
  String.prefix p s = true → PyStr.contains p s = true.
Proof.
  intros H. destruct s.
  - rewrite contains_nil. rewrite prefix_nil_r in H. exact H.
  - rewrite contains_cons, H. reflexivity.
Qed.

Lemma prefix_app_same a p s :
  String.prefix (a +:+ p) (a +:+ s) = String.prefix p s.
Proof.
  induction a as [|c a IH]; [reflexivity|].
  rewrite !append_cons, prefix_cons, Ascii.eqb_refl. exact IH.
Qed.

Lemma prefix_of_longer N M :
  PyStr.contains M N = true → N ≠ M → String.prefix N M = false.
Proof.
  intros Hsub Hne. destruct (String.prefix N M) eqn:Hp; [|reflexivity].
  exfalso. apply Hne. apply prefix_same_length; [exact Hp|].
  apply prefix_length in Hp. apply contains_length in Hsub. lia.
Qed.

(** *** Characters of a name of the grammar *)

Lemma forallb_occurs (P : ascii → bool) c s :
  forallb P (list_ascii_of_string s) = true → P c = false → occurs c s = false.
Proof.
  induction s as [|a s IH]; intros Hall Hc; [reflexivity|].
  simpl in Hall. apply andb_true_iff in Hall as [Ha Hall].
  rewrite occurs_cons, IH by assumption.
  destruct (Ascii.eqb_spec c a) as [->|_]; [congruence|reflexivity].
Qed.

Lemma username_grammar_chars s :
  username_grammar s = true →
  forallb is_alnum_hyphen (list_ascii_of_string s) = true.
Proof.
  unfold username_grammar. intros H.
  repeat (apply andb_true_iff in H as [H ?]). assumption.
Qed.

Lemma username_grammar_occurs c s :
  username_grammar s = true → is_alnum_hyphen c = false → occurs c s = false.
Proof.
  intros H Hc. eapply forallb_occurs; [|exact Hc].
  apply username_grammar_chars. exact H.
Qed.

(** *** The lines of another profile's stanza *)

Lemma marker_line_matched N M :
  String.prefix N M = true →
  PyStr.contains (marker N) ("# Git profile: " +:+ M +:+ PyStr.nl) = true.
Proof.
  intros Hp.
  change ("# Git profile: " +:+ M +:+ PyStr.nl)
    with (String "#" (String " " ("Git profile: " +:+ (M +:+ PyStr.nl)))).
  apply contains_skip, contains_skip, contains_prefix.
  unfold marker. rewrite prefix_app_same. apply prefix_app_r. exact Hp.
Qed.

Lemma marker_line_not_matched N M :
  username_grammar N = true → username_grammar M = true →
  String.prefix N M = false →
  PyStr.contains (marker N) ("# Git profile: " +:+ M +:+ PyStr.nl) = false.
Proof.
  intros HN HM Hp.
  assert (HnlN : occurs PyStr.LF N = false)
    by (apply username_grammar_occurs; [exact HN|reflexivity]).
  assert (Hsp : occurs " " (M +:+ PyStr.nl) = false).
  { rewrite occurs_app, (username_grammar_occurs " " M HM) by reflexivity.
    reflexivity. }
  assert (Htail : PyStr.contains (marker N) (M +:+ PyStr.nl) = false).
  { destruct (PyStr.contains _ _) eqn:Hc; [|reflexivity].
    rewrite (contains_occurs " " _ _ Hc) in Hsp by reflexivity. discriminate. }
  unfold marker in *.
  rewrite !append_cons, !append_empty_l in *.
  rewrite !contains_cons, !prefix_cons.
  rewrite prefix_app_nl by exact HnlN. rewrite Hp, Htail. reflexivity.
Qed.

Lemma body_line_not_matched N (line : string) :
  occurs ":" line = false → PyStr.contains (marker N) line = false.
Proof.
  intros Hcolon. destruct (PyStr.contains _ line) eqn:Hc; [|reflexivity].
  rewrite (contains_occurs ":" _ _ Hc) in Hcolon by reflexivity. discriminate.
Qed.

Lemma identity_line_not_matched N k :
  occurs PyStr.LF N = false →
  PyStr.contains (marker N) k = false →
  PyStr.contains (marker N) ("    IdentityFile " +:+ k +:+ PyStr.nl) = false.
Proof.
  intros HnlN Hk.
  assert (Hnl : occurs PyStr.LF (marker N) = false)
    by (unfold marker; rewrite occurs_app, HnlN; reflexivity).
  assert (Htail : PyStr.contains (marker N) (k +:+ PyStr.nl) = false)
    by (rewrite contains_app_nl by exact Hnl; exact Hk).
  unfold marker in *.
  rewrite !append_cons, !append_empty_l in *.
  rewrite !contains_cons, !prefix_cons. rewrite Htail. reflexivity.
Qed.

Lemma stanza_lines_not_matched N M k :
  username_grammar N = true → username_grammar M = true →
  N ≠ M → PyStr.contains M N = true →
  PyStr.contains (marker N) k = false →
  Forall (fun line => PyStr.contains (marker N) line = false) (stanza_lines M k).
Proof.
  intros HN HM Hne Hsub Hk.
  assert (HnlN : occurs PyStr.LF N = false)
    by (apply username_grammar_occurs; [exact HN|reflexivity]).
  assert (HcM : occurs ":" M = false)
    by (apply username_grammar_occurs; [exact HM|reflexivity]).
  unfold stanza_lines. repeat apply List.Forall_cons; try apply List.Forall_nil.
  - apply blank_no_marker. reflexivity.
  - apply marker_line_not_matched; [exact HN|exact HM|].
    apply prefix_of_longer; assumption.
  - apply body_line_not_matched. rewrite !occurs_app, HcM. reflexivity.
  - apply body_line_not_matched. reflexivity.
  - apply body_line_not_matched. reflexivity.
  - apply identity_line_not_matched; assumption.
  - apply body_line_not_matched. reflexivity.
  - apply blank_no_marker. reflexivity.
Qed.

Lemma stanza_body_nonblank M k :
  Forall (fun line => PyStr.strip line ≠ EmptyString)
    [ "Host github.com-" +:+ M +:+ PyStr.nl;
      "    HostName github.com" +:+ PyStr.nl;
      "    User git" +:+ PyStr.nl;
      "    IdentityFile " +:+ k +:+ PyStr.nl;
      "    IdentitiesOnly yes" +:+ PyStr.nl ].
Proof.
  repeat apply List.Forall_cons; try apply List.Forall_nil.
  - apply (strip_nonblank "H"); reflexivity.
  - apply (strip_nonblank "H"); reflexivity.
  - apply (strip_nonblank "U"); reflexivity.
  - apply (strip_nonblank "I"); reflexivity.
  - apply (strip_nonblank "I"); reflexivity.
Qed.

Lemma remove_from_ssh_config_writes env username w content :
  ssh_config w = Some content →
  write_error env SshConfigFile = None →
  remove_from_ssh_config env username w
  = (Ok tt,
     set_ssh_config
       (Some (PyStr.writelines
                (filter_lines username false (PyStr.readlines content))))
       (log (EvWrite SshConfigFile) w)).
Proof.
  intros Hsome Hw.
  unfold remove_from_ssh_config, _update_ssh_config_file. unfold_m.
  rewrite Hsome. simpl. rewrite Hsome, Hw. reflexivity.
Qed.

Lemma readlines_before_stanza before :
  before = EmptyString ∨ (∃ b, before = b +:+ PyStr.nl) →
  PyStr.readlines (before +:+ PyStr.nl) = PyStr.readlines before ++ [PyStr.nl].
Proof.
  intros [->|(b & ->)]; [reflexivity|].
  apply (readlines_app_nl b PyStr.nl).
Qed.

(** *** The removal in the words of the specification *)

Lemma rstrip_is_prefix t : ∃ rest, t = PyStr.rstrip t +:+ rest.
Proof.
  induction t as [|c t [rest IH]]; [exists EmptyString; reflexivity|].
  simpl. destruct (PyStr.rstrip t) as [|d r] eqn:Hr.
  - destruct (PyStr.isspace c).
    + exists (String c t). reflexivity.
    + exists t. reflexivity.
  - exists rest. rewrite append_cons. f_equal. exact IH.
Qed.

Lemma contains_app_l p a b :
  PyStr.contains p a = true → PyStr.contains p (a +:+ b) = true.
Proof.
  induction a as [|c a IH]; intros H.
  - rewrite contains_nil in H. apply String.eqb_eq in H. subst p.
    apply contains_prefix, prefix_empty.
  - rewrite contains_cons in H. apply orb_true_iff in H as [H|H].
    + apply contains_prefix, prefix_app_r. exact H.
    + rewrite append_cons. apply contains_skip, IH. exact H.
Qed.

Lemma contains_lstrip p s :
  PyStr.contains p (PyStr.lstrip s) = true → PyStr.contains p s = true.
Proof.
  induction s as [|c s IH]; [auto|]. simpl PyStr.lstrip.
  destruct (PyStr.isspace c); [|auto].
  intros H. apply contains_skip, IH. exact H.
Qed.

Lemma contains_strip p s :
  PyStr.contains p (PyStr.strip s) = true → PyStr.contains p s = true.
Proof.
  unfold PyStr.strip. intros H. apply contains_lstrip.
  destruct (rstrip_is_prefix (PyStr.lstrip s)) as [rest Hrest].
  rewrite Hrest. apply contains_app_l. exact H.
Qed.

Lemma prefix_refl_full s : String.prefix s s = true.
Proof.
  induction s as [|c s IH]; [reflexivity|].
  rewrite prefix_cons, Ascii.eqb_refl. exact IH.
Qed.

Lemma header_line_contains username line :
  is_header username line = true →
  PyStr.contains (marker username) line = true.
Proof.
  unfold is_header. intros H. apply String.eqb_eq in H.
  apply contains_strip. rewrite H.
  change ("# Git profile: " +:+ username)
    with (String "#" (String " " (marker username))).
  apply contains_skip, contains_skip, contains_prefix, prefix_refl_full.
Qed.

Lemma blank_not_header username line :
  PyStr.strip line = EmptyString → is_header username line = false.
Proof. unfold is_header. intros ->. reflexivity. Qed.

(** Where the text looked for stands in header comments only, the loop of
    the code is the removal of the specification. *)
Lemma filter_lines_every_stanza username skip lines :
  Forall (fun line => PyStr.contains (marker username) line = true →
                      is_header username line = true) lines →
  filter_lines username skip lines = remove_every_stanza username skip lines.
Proof.
  intros H. revert skip. induction H as [|line lines Hline _ IH]; intros skip;
    [reflexivity|].
  simpl. fold (marker username).
  destruct (PyStr.contains (marker username) line) eqn:Hc.
  - rewrite (Hline eq_refl). apply IH.
  - destruct (is_header username line) eqn:Hh.
    + apply header_line_contains in Hh. congruence.
    + rewrite !IH. reflexivity.
Qed.

Lemma remove_every_stanza_keep username pre rest :
  Forall (fun line => is_header username line = false) pre →
  remove_every_stanza username false (pre ++ rest)
  = pre ++ remove_every_stanza username false rest.
Proof.
  induction 1 as [|line pre Hline _ IH]; [reflexivity|].
  simpl. rewrite Hline, IH. reflexivity.
Qed.

Lemma remove_every_stanza_skip username body rest :
  Forall (fun line => PyStr.strip line ≠ EmptyString) body →
  remove_every_stanza username true (body ++ rest)
  = remove_every_stanza username true rest.
Proof.
  induction 1 as [|line body Hline _ IH]; [reflexivity|].
  simpl. apply String.eqb_neq in Hline. rewrite Hline, IH.
  destruct (is_header username line); reflexivity.
Qed.

(** C3, as amended: without a configuration file the removal changes
    nothing; otherwise the file is rewritten without the lines of every
    stanza whose header comment matches [# Git profile: <name>], each from
    its header comment up to the next blank line and with it, or to the end
    of the file when no blank line follows, and every other line stays
    unchanged, in its place. This for a file that can be written and where
    the text [Git profile: <name>] stands in those header comments only;
    when the file cannot be written a warning is printed and it stays. *)
Theorem remove_from_ssh_config_spec env username w :
  (ssh_config w = None → remove_from_ssh_config env username w = (Ok tt, w))
  ∧ (∀ content,
       ssh_config w = Some content →
       write_error env SshConfigFile = None →
       Forall (fun line => PyStr.contains (marker username) line = true →
                           is_header username line = true)
         (PyStr.readlines content) →
       remove_from_ssh_config env username w
       = (Ok tt,
          set_ssh_config
            (Some (PyStr.writelines
                     (remove_every_stanza username false (PyStr.readlines content))))
            (log (EvWrite SshConfigFile) w)))
  ∧ (∀ content e,
       ssh_config w = Some content →
       write_error env SshConfigFile = Some e →
       remove_from_ssh_config env username w
       = (Ok tt, log (EvPrint LvWarning ("Could not update SSH config: " +:+ e)) w))
  ∧ (∀ lines,
       Forall (fun line => is_header username line = false) lines →
       remove_every_stanza username false lines = lines)
  ∧ (∀ pre m body b post,
       Forall (fun line => is_header username line = false) pre →
       is_header username m = true →
       Forall (fun line => PyStr.strip line ≠ EmptyString) body →
       PyStr.strip b = EmptyString →
       remove_every_stanza username false (pre ++ m :: body ++ b :: post)
       = pre ++ remove_every_stanza username false post)
  ∧ (∀ pre m body,
       Forall (fun line => is_header username line = false) pre →
       is_header username m = true →
       Forall (fun line => PyStr.strip line ≠ EmptyString) body →
       remove_every_stanza username false (pre ++ m :: body) = pre).
Proof.
  split; [|split; [|split; [|split; [|split]]]].
  - intros Hnone. unfold remove_from_ssh_config. unfold_m.
    rewrite Hnone. reflexivity.
  - intros content Hsome Hw Hlines.
    rewrite (remove_from_ssh_config_writes env username w content Hsome Hw).
    rewrite (filter_lines_every_stanza username false _ Hlines). reflexivity.
  - intros content e Hsome Hw.
    unfold remove_from_ssh_config, _update_ssh_config_file. unfold_m.
    rewrite Hsome. simpl. rewrite Hsome, Hw. reflexivity.
  - intros lines H. rewrite <- (app_nil_r lines) at 1.
    rewrite remove_every_stanza_keep by exact H. apply app_nil_r.
  - intros pre m body b post Hpre Hm Hbody Hb.
    rewrite remove_every_stanza_keep by exact Hpre. f_equal.
    simpl. rewrite Hm.
    rewrite remove_every_stanza_skip by exact Hbody.
    simpl. rewrite (blank_not_header username b Hb), Hb. reflexivity.
  - intros pre m body Hpre Hm Hbody.
    rewrite remove_every_stanza_keep by exact Hpre.
    simpl. rewrite Hm. rewrite <- (app_nil_r body).
    rewrite remove_every_stanza_skip by exact Hbody. apply app_nil_r.
Qed.

Ltac forall_lines :=
  repeat (apply List.Forall_cons || apply List.Forall_nil);
  try reflexivity; try (vm_compute; discriminate).

Lemma remove_from_ssh_config_spec_witness :
  remove_from_ssh_config posix_env "bob" empty_world = (Ok tt, empty_world)
  ∧ ssh_config (snd (remove_from_ssh_config posix_env "bob" two_stanza_world))
    = Some (config_content "alice" "/home/u/.ssh/id_rsa_alice" +:+ PyStr.nl)
  ∧ remove_every_stanza "bob" false (alice_lines ++ bob_lines)
    = alice_lines ++ [PyStr.nl]
  ∧ remove_every_stanza "bob" false alice_lines = alice_lines
  ∧ remove_every_stanza "bob" false (firstn 5 bob_lines) = [PyStr.nl]
  ∧ remove_from_ssh_config readonly_env "bob" two_stanza_world
    = (Ok tt,
       log (EvPrint LvWarning "Could not update SSH config: Permission denied")
         two_stanza_world).
Proof.
  destruct (remove_from_ssh_config_spec readonly_env "bob" two_stanza_world)
    as (_ & _ & Hfails & _).
  destruct (remove_from_ssh_config_spec posix_env "bob" empty_world)
    as (Habsent & _).
  destruct (remove_from_ssh_config_spec posix_env "bob" two_stanza_world)
    as (_ & Hwrite & _ & Hnone & Hstanza & Hopen).
  split; [apply Habsent; reflexivity|].
  split.
  { rewrite (Hwrite _ eq_refl eq_refl); [vm_compute; reflexivity|].
    vm_compute PyStr.readlines.
    repeat (apply List.Forall_cons || apply List.Forall_nil);
      intros Hin; first [reflexivity|vm_compute in Hin; discriminate Hin]. }
  split; [|split; [|split]].
  4:{ exact (Hfails _ _ eq_refl eq_refl). }
  - exact (Hstanza (alice_lines ++ [PyStr.nl])
             ("# Git profile: bob" +:+ PyStr.nl)
             (firstn 5 (skipn 2 bob_lines)) PyStr.nl []
             ltac:(forall_lines) eq_refl ltac:(forall_lines) eq_refl).
  - apply Hnone. forall_lines.
  - exact (Hopen [PyStr.nl] ("# Git profile: bob" +:+ PyStr.nl)
             (firstn 3 (skipn 2 bob_lines))
             ltac:(forall_lines) eq_refl ltac:(forall_lines)).
Defined.

(** C3 as stated fails: where [update_ssh_config] ran twice for bob, the
    removal takes both stanzas, not the first one only. *)
Lemma remove_first_stanza_differs :
  filter_lines "bob" false (bob_lines ++ bob_lines) = [PyStr.nl; PyStr.nl]
  ∧ remove_first_stanza "bob" (bob_lines ++ bob_lines) = PyStr.nl :: bob_lines
  ∧ filter_lines "bob" false (bob_lines ++ bob_lines)
    ≠ remove_first_stanza "bob" (bob_lines ++ bob_lines).
Proof.
  split; [vm_compute; reflexivity|].
  split; [vm_compute; reflexivity|].
  vm_compute. discriminate.
Qed.

(** C10: when N is a prefix of M, the marker line of M contains the text
    looked for when N is removed, so the stanza of M goes as well, wherever
    it stands and however many such stanzas there are: of the lines that
    [update_ssh_config] wrote for M only the leading blank line is looked
    at again, and what follows the stanza is filtered afresh. The match is
    by containment: the line matched is not the marker line of N. The last
    part says the same of the file that holds the text written for M. *)
Theorem prefix_name_stanza_removed N M kN kM pre post :
  String.prefix N M = true →
  PyStr.contains (marker N) ("# Git profile: " +:+ M +:+ PyStr.nl) = true
  ∧ (N ≠ M →
     "# Git profile: " +:+ M +:+ PyStr.nl ≠ "# Git profile: " +:+ N +:+ PyStr.nl)
  ∧ filter_lines N false (pre ++ stanza_lines M kM ++ post)
    = filter_lines N false (pre ++ [PyStr.nl]) ++ filter_lines N false post
  ∧ filter_lines N false (stanza_lines N kN ++ stanza_lines M kM)
    = [PyStr.nl; PyStr.nl]
  ∧ (∀ env w before after,
       occurs PyStr.LF M = false →
       occurs PyStr.LF kM = false →
       ssh_config w = Some (before +:+ config_content M kM +:+ after) →
       write_error env SshConfigFile = None →
       ssh_config (snd (remove_from_ssh_config env N w))
       = Some (PyStr.writelines
                 (filter_lines N false (PyStr.readlines (before +:+ PyStr.nl))
                  ++ filter_lines N false (PyStr.readlines after)))).
Proof.
  intros Hp.
  pose proof (marker_line_matched N M Hp) as Hm.
  assert (Hdrop : ∀ skip k rest,
    filter_lines N skip (tail (stanza_lines M k) ++ rest)
    = filter_lines N false rest).
  { intros skip k rest. unfold stanza_lines, tail.
    rewrite <- app_comm_cons.
    rewrite filter_lines_cons_marker by exact Hm.
    change (?a :: ?b :: ?c :: ?d :: ?e :: [PyStr.nl])
      with ([a; b; c; d; e] ++ [PyStr.nl]).
    rewrite <- app_assoc.
    rewrite filter_lines_skip_body by apply stanza_body_nonblank.
    simpl app. apply filter_lines_cons_blank. reflexivity. }
  split; [exact Hm|]. split; [|split; [|split]].
  4:{ intros env w before after HM HkM Hsome Hw.
      rewrite (remove_from_ssh_config_writes env N w _ Hsome Hw). simpl.
      rewrite readlines_with_stanza by assumption.
      rewrite filter_lines_app, Hdrop. reflexivity. }
  - intros Hne Heq. apply Hne.
    apply String.app_inj in Heq.
    assert (Hlen : String.length M = String.length N).
    { apply (f_equal String.length) in Heq. rewrite !append_length in Heq. lia. }
    apply prefix_same_length; [exact Hp|congruence].
  - change (stanza_lines M kM) with ([PyStr.nl] ++ tail (stanza_lines M kM)).
    rewrite <- (app_assoc [PyStr.nl]), (app_assoc pre).
    rewrite filter_lines_app, Hdrop. reflexivity.
  - change (stanza_lines M kM) with ([PyStr.nl] ++ tail (stanza_lines M kM)).
    change (stanza_lines N kN) with ([PyStr.nl] ++ tail (stanza_lines N kN)).
    rewrite <- !app_assoc.
    rewrite (filter_lines_app N false [PyStr.nl]).
    assert (HpN : String.prefix N N = true).
    { rewrite <- (append_empty_r N) at 2. apply prefix_app_r.
      clear. induction N as [|a s IH]; [reflexivity|].
      rewrite prefix_cons, Ascii.eqb_refl. exact IH. }
    assert (HdropN : ∀ skip rest,
      filter_lines N skip (tail (stanza_lines N kN) ++ rest)
      = filter_lines N false rest).
    { intros skip rest. unfold stanza_lines, tail.
      rewrite <- app_comm_cons.
      rewrite filter_lines_cons_marker by (apply marker_line_matched; exact HpN).
      change (?a :: ?b :: ?c :: ?d :: ?e :: [PyStr.nl])
        with ([a; b; c; d; e] ++ [PyStr.nl]).
      rewrite <- app_assoc.
      rewrite filter_lines_skip_body by apply stanza_body_nonblank.
      simpl app. apply filter_lines_cons_blank. reflexivity. }
    rewrite HdropN.
    rewrite (filter_lines_app N false [PyStr.nl]).
    rewrite <- (app_nil_r (tail (stanza_lines M kM))), Hdrop.
    rewrite (filter_lines_cons_keep N PyStr.nl [])
      by (apply blank_no_marker; reflexivity).
    reflexivity.
Qed.

Lemma prefix_name_stanza_removed_witness :
  filter_lines "alice" false (alice_lines ++ alice2_lines) = [PyStr.nl; PyStr.nl]
  ∧ ssh_config (snd (remove_from_ssh_config posix_env "alice" alice_alice2_world))
    = Some (PyStr.nl +:+ PyStr.nl).
Proof.
  pose proof (prefix_name_stanza_removed "alice" "alice2"
                "/home/u/.ssh/id_rsa_alice" "/home/u/.ssh/id_rsa_alice2" [] []
                eq_refl) as (_ & _ & _ & Hlines & Hfile).
  split; [exact Hlines|].
  exact (Hfile posix_env alice_alice2_world
           (config_content "alice" "/home/u/.ssh/id_rsa_alice") EmptyString
           eq_refl eq_refl eq_refl eq_refl).
Defined.

Lemma stanza_lines_kept N M k pre post :
  username_grammar N = true →
  username_grammar M = true →
  N ≠ M →
  PyStr.contains M N = true →
  PyStr.contains (marker N) k = false →
  filter_lines N false (pre ++ stanza_lines M k ++ post)
  = filter_lines N false pre
    ++ (if skip_after N false pre then [] else [PyStr.nl])
    ++ tail (stanza_lines M k)
    ++ filter_lines N false post.
Proof.
  intros HN HM Hne Hsub Hk.
  pose proof (stanza_lines_not_matched N M k HN HM Hne Hsub Hk) as Hall.
  assert (Htail : Forall (fun line => PyStr.contains (marker N) line = false)
                    (tail (stanza_lines M k)))
    by (inversion Hall; assumption).
  destruct (filter_lines_no_marker N _ Htail) as [Hkeep Hskip].
  rewrite filter_lines_app. f_equal.
  change (stanza_lines M k ++ post)
    with (PyStr.nl :: (tail (stanza_lines M k) ++ post)).
  destruct (skip_after N false pre).
  - rewrite filter_lines_cons_blank by reflexivity.
    rewrite filter_lines_app, Hkeep, Hskip. reflexivity.
  - rewrite filter_lines_cons_keep by (apply blank_no_marker; reflexivity).
    rewrite filter_lines_app, Hkeep, Hskip. reflexivity.
Qed.

(** The stanza of a shorter name is kept: for two different names of the
    grammar, M a part of N, removing N keeps every line of the stanza that
    [update_ssh_config] wrote for M, from its marker line to its closing
    blank line, provided the key path in it does not contain the text
    looked for; the blank line that opens the stanza stays too unless it
    closes a stanza being skipped. The text [Git profile: N] is longer than
    what follows the colon in the marker line of M and so cannot be found
    in it. The second part says the same of a file where the text written
    for M follows nothing or a line end. *)
Lemma substring_name_stanza_kept N M k :
  username_grammar N = true →
  username_grammar M = true →
  N ≠ M →
  PyStr.contains M N = true →
  PyStr.contains (marker N) k = false →
  (∀ pre post,
     filter_lines N false (pre ++ stanza_lines M k ++ post)
     = filter_lines N false pre
       ++ (if skip_after N false pre then [] else [PyStr.nl])
       ++ tail (stanza_lines M k)
       ++ filter_lines N false post)
  ∧ (∀ env w before after,
       before = EmptyString ∨ (∃ b, before = b +:+ PyStr.nl) →
       occurs PyStr.LF k = false →
       ssh_config w = Some (before +:+ config_content M k +:+ after) →
       write_error env SshConfigFile = None →
       ssh_config (snd (remove_from_ssh_config env N w))
       = Some (PyStr.writelines
                 (filter_lines N false (PyStr.readlines before)
                  ++ (if skip_after N false (PyStr.readlines before)
                      then [] else [PyStr.nl])
                  ++ tail (stanza_lines M k)
                  ++ filter_lines N false (PyStr.readlines after)))).
Proof.
  intros HN HM Hne Hsub Hk. split.
  - intros pre post. apply stanza_lines_kept; assumption.
  - intros env w before after Hbefore HkLF Hsome Hw.
    assert (HMLF : occurs PyStr.LF M = false)
      by (apply username_grammar_occurs; [exact HM|reflexivity]).
    rewrite (remove_from_ssh_config_writes env N w _ Hsome Hw). simpl.
    rewrite readlines_with_stanza by assumption.
    rewrite readlines_before_stanza by exact Hbefore.
    rewrite <- app_assoc.
    change ([PyStr.nl] ++ tail (stanza_lines M k) ++ PyStr.readlines after)
      with (stanza_lines M k ++ PyStr.readlines after).
    rewrite stanza_lines_kept by assumption. reflexivity.
Qed.

Lemma substring_name_stanza_kept_witness :
  filter_lines "alice2" false (alice_lines ++ alice2_lines)
  = alice_lines ++ [PyStr.nl]
  ∧ ssh_config (snd (remove_from_ssh_config posix_env "alice2" alice_alice2_world))
    = Some (config_content "alice" "/home/u/.ssh/id_rsa_alice" +:+ PyStr.nl).
Proof.
  pose proof (substring_name_stanza_kept "alice2" "alice"
                "/home/u/.ssh/id_rsa_alice" eq_refl eq_refl
                ltac:(discriminate) eq_refl eq_refl) as [Hlines Hfile].
  split; [exact (Hlines [] alice2_lines)|].
  exact (Hfile posix_env alice_alice2_world EmptyString
           (config_content "alice2" "/home/u/.ssh/id_rsa_alice2")
           (or_introl eq_refl) eq_refl eq_refl eq_refl).
Defined.

(** The loop on the lines of three stanzas: the removal of alice2 does not
    match the line [# Git profile: alice2] only; the marker line of alice23
    is matched too. *)
Lemma removal_matches_other_marker_lines :
  username_grammar "alice2" = true ∧ username_grammar "alice" = true
  ∧ PyStr.contains "alice" "alice2" = true
  ∧ PyStr.contains (marker "alice2") ("# Git profile: alice23" +:+ PyStr.nl) = true
  ∧ "# Git profile: alice23" +:+ PyStr.nl ≠ "# Git profile: alice2" +:+ PyStr.nl
  ∧ filter_lines "alice2" false (alice_lines ++ alice2_lines ++ alice23_lines)
    = alice_lines ++ [PyStr.nl; PyStr.nl].
Proof.
  repeat split; try reflexivity. vm_compute. discriminate.
Qed.

(** C4, at an input where the code leaves the claim: in a file with the
    stanzas of alice, alice2 and alice23, as [update_ssh_config] appends
    them, removing alice2 does not match the header comment
    [# Git profile: alice2] only. The header comment of alice23 is not that
    line, yet it contains the text looked for, and the stanza of alice23 is
    lost with the stanza of alice2: what is left is the stanza of alice and
    the two blank lines that opened the others, where the removal by the
    exact header comment leaves the stanza of alice23 in the file. *)
Theorem removal_drops_stanza_of_longer_name :
  ssh_config three_stanza_world
  = Some (config_content "alice" "/home/u/.ssh/id_rsa_alice"
          +:+ config_content "alice2" "/home/u/.ssh/id_rsa_alice2"
          +:+ config_content "alice23" "/home/u/.ssh/id_rsa_alice23")
  ∧ is_header "alice2" ("# Git profile: alice23" +:+ PyStr.nl) = false
  ∧ PyStr.contains "Git profile: alice2" ("# Git profile: alice23" +:+ PyStr.nl)
    = true
  ∧ ssh_config (snd (remove_from_ssh_config posix_env "alice2" three_stanza_world))
    = Some (config_content "alice" "/home/u/.ssh/id_rsa_alice"
            +:+ PyStr.nl +:+ PyStr.nl)
  ∧ PyStr.writelines
      (remove_every_stanza "alice2" false
         (PyStr.readlines
            (config_content "alice" "/home/u/.ssh/id_rsa_alice"
             +:+ config_content "alice2" "/home/u/.ssh/id_rsa_alice2"
             +:+ config_content "alice23" "/home/u/.ssh/id_rsa_alice23")))
    = config_content "alice" "/home/u/.ssh/id_rsa_alice" +:+ PyStr.nl
      +:+ config_content "alice23" "/home/u/.ssh/id_rsa_alice23".
Proof.
  split; [reflexivity|]. split; [reflexivity|]. split; [reflexivity|].
  split; vm_compute; reflexivity.
Qed.

(** ** The matcher and the language of an expression *)

Section RegexFacts.

Import Regex.

Lemma nullable_lang r : nullable r = true ↔ lang r [].
Proof.
  split.
  - induction r as [| |p|r1 IH1 r2 IH2|r1 IH1 r2 IH2|r IH]; simpl; intros H;
      try discriminate.
    + constructor.
    + apply andb_true_iff in H as [H1 H2].
      change (@nil ascii) with (@nil ascii ++ []). constructor; auto.
    + apply orb_true_iff in H as [H|H]; [apply lang_alt_l|apply lang_alt_r]; auto.
    + constructor.
  - intros H. remember [] as s eqn:Hs.
    induction H as [|p c Hc|r1 r2 s1 s2 H1 IH1 H2 IH2|r1 r2 s H IH|r1 r2 s H IH
                   |r|r s1 s2 H1 IH1 H2 IH2]; simpl; try reflexivity.
    + discriminate.
    + destruct s1; [|discriminate]. simpl in Hs. subst s2.
      rewrite IH1, IH2; reflexivity.
    + rewrite IH by exact Hs. reflexivity.
    + rewrite IH by exact Hs. apply orb_true_r.
Qed.

Lemma lang_star_cons_inv r c s :
  lang (Star r) (c :: s) →
  ∃ s1 s2, s = s1 ++ s2 ∧ lang r (c :: s1) ∧ lang (Star r) s2.
Proof.
  intros H. remember (Star r) as r' eqn:Hr. remember (c :: s) as cs eqn:Hcs.
  revert s Hcs.
  induction H as [|p c' Hc|r1 r2 s1 s2 H1 IH1 H2 IH2|r1 r2 s' H IH|r1 r2 s' H IH
                 |r0|r0 s1 s2 H1 IH1 H2 IH2]; intros s Hcs; try discriminate.
  injection Hr as ->.
  destruct s1 as [|c1 s1].
  - simpl in Hcs. apply IH2; [reflexivity|exact Hcs].
  - simpl in Hcs. injection Hcs as -> <-. exists s1, s2. auto.
Qed.

Lemma lang_class_inv p s : lang (Class p) s → ∃ c, s = [c] ∧ p c = true.
Proof. intros H. inversion H; subst. eauto. Qed.

Lemma lang_seq_inv r1 r2 s :
  lang (Seq r1 r2) s → ∃ s1 s2, s = s1 ++ s2 ∧ lang r1 s1 ∧ lang r2 s2.
Proof. intros H. inversion H; subst. eauto. Qed.

Lemma lang_alt_inv r1 r2 s : lang (Alt r1 r2) s → lang r1 s ∨ lang r2 s.
Proof. intros H. inversion H; subst; auto. Qed.

Lemma lang_seq_cons r1 r2 c s1 s2 :
  lang r1 (c :: s1) → lang r2 s2 → lang (Seq r1 r2) (c :: s1 ++ s2).
Proof. intros H1 H2. change (c :: s1 ++ s2) with ((c :: s1) ++ s2). constructor; auto. Qed.

Lemma deriv_lang c r s : lang (deriv c r) s ↔ lang r (c :: s).
Proof.
  revert s.
  induction r as [| |p|r1 IH1 r2 IH2|r1 IH1 r2 IH2|r IH]; intros s; simpl.
  - split; intros H; inversion H.
  - split; intros H; inversion H.
  - split; intros H.
    + destruct (p c) eqn:Hc; inversion H; subst. constructor. exact Hc.
    + apply lang_class_inv in H as (c' & [= ? ?] & Hc). subst.
      rewrite Hc. constructor.
  - split; intros H.
    + destruct (nullable r1) eqn:Hn.
      * apply lang_alt_inv in H as [H|H].
        -- apply lang_seq_inv in H as (s1 & s2 & -> & Ha & Hb).
           apply lang_seq_cons; [apply IH1; exact Ha|exact Hb].
        -- apply IH2 in H. apply nullable_lang in Hn.
           change (c :: s) with ([] ++ c :: s). constructor; auto.
      * apply lang_seq_inv in H as (s1 & s2 & -> & Ha & Hb).
        apply lang_seq_cons; [apply IH1; exact Ha|exact Hb].
    + apply lang_seq_inv in H as (s1 & s2 & Heq & Ha & Hb).
      destruct s1 as [|c1 s1].
      * simpl in Heq. subst s2. apply nullable_lang in Ha. rewrite Ha.
        apply lang_alt_r. apply IH2. exact Hb.
      * simpl in Heq. injection Heq as ? ?. subst.
        apply IH1 in Ha.
        destruct (nullable r1); [apply lang_alt_l|]; constructor; auto.
  - split; intros H.
    + apply lang_alt_inv in H as [H|H];
        [apply lang_alt_l; apply IH1|apply lang_alt_r; apply IH2]; exact H.
    + apply lang_alt_inv in H as [H|H];
        [apply lang_alt_l; apply IH1|apply lang_alt_r; apply IH2]; exact H.
  - split; intros H.
    + apply lang_seq_inv in H as (s1 & s2 & -> & Ha & Hb).
      change (c :: s1 ++ s2) with ((c :: s1) ++ s2).
      constructor; [apply IH; exact Ha|exact Hb].
    + apply lang_star_cons_inv in H as (s1 & s2 & -> & Ha & Hb).
      constructor; [apply IH; exact Ha|exact Hb].
Qed.

Lemma fullmatch_lang r s : fullmatch r s = true ↔ lang r s.
Proof.
  revert r. induction s as [|c s IH]; intros r; simpl.
  - apply nullable_lang.
  - rewrite IH. apply deriv_lang.
Qed.

Lemma lang_star_class p s : lang (Star (Class p)) s ↔ forallb p s = true.
Proof.
  split.
  - intros H. remember (Star (Class p)) as r eqn:Hr.
    induction H as [|p' c Hc|r1 r2 s1 s2 H1 IH1 H2 IH2|r1 r2 s H IH|r1 r2 s H IH
                   |r0|r0 s1 s2 H1 IH1 H2 IH2]; try discriminate.
    + reflexivity.
    + injection Hr as ->. apply lang_class_inv in H1 as (c & -> & Hc).
      simpl. rewrite Hc. apply IH2. reflexivity.
  - induction s as [|c s IH]; simpl; intros H; [constructor|].
    apply andb_true_iff in H as [Hc Hs].
    change (c :: s) with ([c] ++ s). constructor; [constructor; exact Hc|auto].
Qed.

Lemma chop_newline_spec s t : chop_newline s = Some t ↔ s = t ++ [PyStr.LF].
Proof.
  revert t. induction s as [|c s IH]; intros t.
  - split; [discriminate|]. intros H. destruct t; discriminate.
  - destruct s as [|c' s].
    + simpl. destruct (Ascii.eqb_spec c PyStr.LF) as [->|Hne].
      * split; [intros [= <-]; reflexivity|].
        intros H. destruct t as [|a [|b t]]; try discriminate. reflexivity.
      * split; [discriminate|].
        intros H. destruct t as [|a [|b t]]; try discriminate.
        injection H as ->. contradiction.
    + change (chop_newline (c :: c' :: s))
        with (option_map (cons c) (chop_newline (c' :: s))).
      destruct (chop_newline (c' :: s)) as [u|]; simpl.
      * pose proof (proj1 (IH u) eq_refl) as Hu. split.
        -- intros [= <-]. rewrite Hu. reflexivity.
        -- intros H. destruct t as [|a t]; [discriminate|].
           injection H as -> H. f_equal. f_equal.
           rewrite Hu in H. apply app_inj_tail in H as [H _]. exact H.
      * split; [discriminate|]. intros H.
        destruct t as [|a t]; [discriminate|]. injection H as -> H.
        apply (IH t) in H. discriminate.
Qed.

End RegexFacts.

(** ** What the username validator accepts *)

Lemma list_ascii_length s : length (list_ascii_of_string s) = String.length s.
Proof. induction s as [|a s IH]; simpl; [reflexivity|]. rewrite IH. reflexivity. Qed.

Lemma list_ascii_app s t :
  list_ascii_of_string (s +:+ t) = list_ascii_of_string s ++ list_ascii_of_string t.
Proof.
  induction s as [|a s IH]; [reflexivity|].
  rewrite append_cons. simpl. rewrite IH. reflexivity.
Qed.

Lemma list_ascii_inj s t :
  list_ascii_of_string s = list_ascii_of_string t → s = t.
Proof.
  intros H. rewrite <- (string_of_list_ascii_of_string s),
    <- (string_of_list_ascii_of_string t), H. reflexivity.
Qed.

Lemma is_alnum_hyphen_of_alnum c : is_alnum c = true → is_alnum_hyphen c = true.
Proof. intros H. unfold is_alnum_hyphen. rewrite H. reflexivity. Qed.

Lemma username_grammar_shape s :
  username_grammar s = (length (list_ascii_of_string s) <=? 39)
                       && name_shape (list_ascii_of_string s).
Proof.
  unfold username_grammar, name_shape.
  destruct (list_ascii_of_string s) as [|c cs]; simpl; [reflexivity|].
  rewrite !andb_assoc. reflexivity.
Qed.

Lemma lang_username cs : Regex.lang USERNAME_PATTERN cs ↔ name_shape cs = true.
Proof.
  unfold USERNAME_PATTERN, Regex.Opt, name_shape. split.
  - intros H.
    apply lang_seq_inv in H as (s1 & s2 & -> & H1 & H2).
    apply lang_class_inv in H1 as (c & -> & Hc).
    apply lang_alt_inv in H2 as [H2|H2].
    + inversion H2; subst. simpl.
      rewrite Hc, (is_alnum_hyphen_of_alnum c Hc). reflexivity.
    + apply lang_seq_inv in H2 as (m & t & -> & Hm & Ht).
      apply lang_class_inv in Ht as (d & -> & Hd).
      apply lang_star_class in Hm.
      change ([c] ++ m ++ [d]) with ((c :: m) ++ [d]).
      rewrite last_snoc, forallb_app. simpl.
      rewrite Hc, Hd, Hm, (is_alnum_hyphen_of_alnum c Hc),
        (is_alnum_hyphen_of_alnum d Hd). reflexivity.
  - intros H. apply andb_true_iff in H as [H Hlast].
    apply andb_true_iff in H as [Hall Hhead].
    destruct cs as [|c rest]; [discriminate|]. simpl in Hhead.
    change (c :: rest) with ([c] ++ rest).
    constructor; [constructor; exact Hhead|].
    destruct rest as [|d m _] using rev_ind.
    + apply Regex.lang_alt_l. constructor.
    + apply Regex.lang_alt_r.
      change (c :: m ++ [d]) with ((c :: m) ++ [d]) in Hall, Hlast.
      rewrite last_snoc in Hlast. rewrite forallb_app in Hall.
      apply andb_true_iff in Hall as [Hall _].
      simpl in Hall. apply andb_true_iff in Hall as [_ Hall].
      constructor; [apply lang_star_class; exact Hall|constructor; exact Hlast].
Qed.

(** The validator accepts the names of the grammar and, because [$] also
    matches before a final line feed, those names followed by a line feed
    when the whole is not longer than 39. *)
Lemma validate_username_spec s :
  validate_username s = true ↔
  username_grammar s = true
  ∨ ∃ t, s = t +:+ PyStr.nl ∧ username_grammar t = true ∧ String.length t ≤ 38.
Proof.
  unfold validate_username, Regex.match_anchored.
  rewrite !username_grammar_shape, list_ascii_length.
  split.
  - intros H. apply andb_true_iff in H as [H Hm].
    apply andb_true_iff in H as [_ Hlen].
    apply orb_true_iff in Hm as [Hm|Hm].
    + left. apply fullmatch_lang, lang_username in Hm. rewrite Hlen, Hm. reflexivity.
    + right. destruct (Regex.chop_newline _) as [cs'|] eqn:Hchop; [|discriminate].
      apply chop_newline_spec in Hchop.
      apply fullmatch_lang, lang_username in Hm.
      exists (string_of_list_ascii cs').
      assert (Hs : s = string_of_list_ascii cs' +:+ PyStr.nl).
      { apply list_ascii_inj.
        rewrite list_ascii_app, list_ascii_of_string_of_list_ascii. exact Hchop. }
      split; [exact Hs|].
      apply Nat.leb_le in Hlen. rewrite Hs, append_length in Hlen. simpl in Hlen.
      assert (Hl : length cs' = String.length (string_of_list_ascii cs'))
        by (rewrite <- list_ascii_length, list_ascii_of_string_of_list_ascii;
            reflexivity).
      rewrite username_grammar_shape, list_ascii_of_string_of_list_ascii, Hm.
      split; [|lia]. rewrite andb_true_r. apply Nat.leb_le. lia.
  - intros [H|(t & -> & H & Hlen)].
    + apply andb_true_iff in H as [Hlen Hshape].
      rewrite Hlen. apply lang_username, fullmatch_lang in Hshape as Hm.
      rewrite Hm. simpl. rewrite !andb_true_r.
      apply negb_true_iff, String.eqb_neq. intros ->. discriminate.
    + rewrite username_grammar_shape in H.
      apply andb_true_iff in H as [_ Hshape].
      apply lang_username, fullmatch_lang in Hshape.
      assert (Hchop : Regex.chop_newline (list_ascii_of_string (t +:+ PyStr.nl))
                      = Some (list_ascii_of_string t))
        by (apply chop_newline_spec; apply list_ascii_app).
      rewrite Hchop, Hshape, orb_true_r, andb_true_r.
      apply andb_true_iff. split.
      * apply negb_true_iff, String.eqb_neq. destruct t; discriminate.
      * apply Nat.leb_le. rewrite append_length. simpl. lia.
Qed.

Lemma validate_username_examples :
  validate_username "abc" = true
  ∧ validate_username "ab--c" = true
  ∧ validate_username "-abc" = false
  ∧ validate_username "aaaaaaaaaaaaaaaaaaaaaaaaaaaaaaaaaaaaaaaa" = false
  ∧ validate_username EmptyString = false.
Proof. repeat split; reflexivity. Qed.

Lemma validate_username_no_newline s :
  occurs PyStr.LF s = false → validate_username s = username_grammar s.
Proof.
  intros Hnl. destruct (username_grammar s) eqn:Hg.
  - apply validate_username_spec. left. exact Hg.
  - destruct (validate_username s) eqn:Hv; [|reflexivity].
    apply validate_username_spec in Hv as [Hv|(t & -> & _ & _)]; [congruence|].
    rewrite occurs_app in Hnl. apply orb_false_iff in Hnl as [_ Hnl]. discriminate.
Qed.

(** C9, at the input where the code leaves the grammar: a name of the
    grammar followed by a line feed is accepted, because [$] matches before
    a final line feed; it is four characters long and its last character is
    neither a letter nor a digit. *)
Theorem validate_username_accepts_trailing_newline :
  validate_username ("abc" +:+ PyStr.nl) = true
  ∧ username_grammar ("abc" +:+ PyStr.nl) = false
  ∧ String.length ("abc" +:+ PyStr.nl) = 4
  ∧ is_alnum_hyphen PyStr.LF = false.
Proof. repeat split; reflexivity. Qed.

(** ** Asking for a profile name *)

Lemma only_talk_refl w : only_talk w w.
Proof.
  split; [repeat split|]. exists []. rewrite app_nil_r. split; reflexivity.
Qed.

Lemma only_talk_trans w1 w2 w3 : only_talk w1 w2 → only_talk w2 w3 → only_talk w1 w3.
Proof.
  intros [(A1 & A2 & A3 & A4 & A5) (d1 & T1 & F1)]
         [(B1 & B2 & B3 & B4 & B5) (d2 & T2 & F2)].
  split; [repeat split; congruence|].
  exists (d1 ++ d2). rewrite T2, T1, <- app_assoc, forallb_app, F1, F2.
  split; reflexivity.
Qed.

Lemma only_talk_log e w : talk e = true → only_talk w (log e w).
Proof.
  intros He. split; [repeat split|]. exists [e]. simpl. rewrite He.
  split; reflexivity.
Qed.

Lemma only_talk_set_stdin l w : only_talk w (set_stdin l w).
Proof.
  split; [repeat split|]. exists []. simpl. rewrite app_nil_r. split; reflexivity.
Qed.

Lemma input_only_talk prompt w r w' :
  input prompt w = (r, w') → only_talk w w'.
Proof.
  unfold input. destruct (stdin w) as [|line rest]; intros [= <- <-].
  - apply only_talk_log. reflexivity.
  - eapply only_talk_trans; [apply only_talk_log|apply only_talk_set_stdin].
    reflexivity.
Qed.

Lemma username_exists_spec username w :
  ∃ w', _username_exists username w
        = (Ok (bool_decide (is_Some (match store_file w with
                                     | Doc profiles => profiles !! username
                                     | _ => None
                                     end))), w')
        ∧ only_talk w w'.
Proof.
  unfold _username_exists, load_profiles. unfold_m.
  destruct (store_file w) as [|why|profiles] eqn:Hs; simpl;
    eexists; (split; [reflexivity|]).
  - apply only_talk_refl.
  - apply only_talk_log. reflexivity.
  - apply only_talk_refl.
Qed.

Lemma rstrip_last s t c :
  PyStr.rstrip s = t +:+ String c EmptyString → PyStr.isspace c = false.
Proof.
  revert t. induction s as [|a s IH]; intros t H.
  - destruct t; discriminate.
  - simpl in H. destruct (PyStr.rstrip s) as [|b r] eqn:Hr.
    + destruct (PyStr.isspace a) eqn:Ha; [destruct t; discriminate|].
      destruct t as [|x t]; [injection H as ->; exact Ha|].
      rewrite append_cons in H. injection H as _ H. destruct t; discriminate.
    + destruct t as [|x t]; [discriminate|].
      rewrite append_cons in H. injection H as _ H. apply (IH t). exact H.
Qed.

(** A stripped line that the validator accepts is a name of the grammar. *)
Lemma validate_stripped line :
  validate_username (PyStr.strip line) = true →
  username_grammar (PyStr.strip line) = true.
Proof.
  intros H. apply validate_username_spec in H as [H|(t & Ht & _ & _)]; [exact H|].
  unfold PyStr.strip, PyStr.nl in Ht. apply rstrip_last in Ht. discriminate.
Qed.

(** Whatever is typed, the loop only talks; a name it returns is a name of
    the grammar that the store does not hold. *)
Lemma get_valid_username_loop_talks pending w r w' :
  _get_valid_username_loop pending w = (r, w') →
  only_talk w w'
  ∧ ∀ u, r = Ok u →
      username_grammar u = true
      ∧ ∀ profiles : store, store_file w = Doc profiles → profiles !! u = None.
Proof.
  revert w. induction pending as [|first pending IH]; intros w H.
  - simpl in H. unfold bind, raise in H.
    destruct (input _ w) as [[line|e] w1] eqn:Hin; injection H as <- <-;
      (split; [eapply input_only_talk; exact Hin|discriminate]).
  - simpl in H. unfold bind at 1 in H.
    destruct (input _ w) as [[line|e] w1] eqn:Hin.
    2:{ injection H as <- <-.
        split; [eapply input_only_talk; exact Hin|discriminate]. }
    pose proof (input_only_talk _ _ _ _ Hin) as Htalk1.
    destruct (String.eqb (PyStr.strip line) EmptyString) eqn:Hempty.
    { unfold print_error, emit, modify, bind in H.
      apply IH in H as [Htalk Hres]. split.
      - eapply only_talk_trans; [exact Htalk1|].
        eapply only_talk_trans; [|exact Htalk]. apply only_talk_log. reflexivity.
      - intros u Hu. destruct (Hres u Hu) as [Hg Hstore]. split; [exact Hg|].
        intros profiles Hp. apply Hstore. simpl.
        destruct Htalk1 as [(_ & _ & _ & Hs & _) _]. congruence. }
    destruct (validate_username (PyStr.strip line)) eqn:Hvalid; simpl in H.
    2:{ unfold print_error, emit, modify, bind in H.
        apply IH in H as [Htalk Hres]. split.
        - eapply only_talk_trans; [exact Htalk1|].
          eapply only_talk_trans; [|exact Htalk]. apply only_talk_log. reflexivity.
        - intros u Hu. destruct (Hres u Hu) as [Hg Hstore]. split; [exact Hg|].
          intros profiles Hp. apply Hstore. simpl.
          destruct Htalk1 as [(_ & _ & _ & Hs & _) _]. congruence. }
    unfold bind at 1 in H.
    destruct (username_exists_spec (PyStr.strip line) w1) as (w2 & Hex & Htalk2).
    rewrite Hex in H.
    destruct (bool_decide _) eqn:Htaken in H.
    + unfold print_error, emit, modify, bind in H.
      apply IH in H as [Htalk Hres]. split.
      * eapply only_talk_trans; [exact Htalk1|].
        eapply only_talk_trans; [exact Htalk2|].
        eapply only_talk_trans; [|exact Htalk]. apply only_talk_log. reflexivity.
      * intros u Hu. destruct (Hres u Hu) as [Hg Hstore]. split; [exact Hg|].
        intros profiles Hp. apply Hstore. simpl.
        destruct Htalk1 as [(_ & _ & _ & Hs1 & _) _].
        destruct Htalk2 as [(_ & _ & _ & Hs2 & _) _]. congruence.
    + injection H as <- <-. split.
      * eapply only_talk_trans; [exact Htalk1|exact Htalk2].
      * intros u [= <-]. split; [apply validate_stripped; exact Hvalid|].
        intros profiles Hp.
        destruct Htalk1 as [(_ & _ & _ & Hs1 & _) _].
        rewrite Hs1, Hp in Htaken.
        apply bool_decide_eq_false in Htaken.
        destruct (profiles !! PyStr.strip line) eqn:Hl; [|reflexivity].
        exfalso. apply Htaken. eauto.
Qed.

(** C7: with N in the store, typing N for a new profile costs a prompt and
    an error message and nothing else: the loop asks again, in a world with
    the same key files, SSH configuration, store and Git configuration, and
    no tool has run. Whatever is typed afterwards, the loop never returns N,
    so no profile of that name is created. *)
Theorem existing_name_rejected w raw rest N (profiles : store) :
  stdin w = raw :: rest →
  PyStr.strip raw = N →
  store_file w = Doc profiles →
  is_Some (profiles !! N) →
  (∃ msg,
     _get_valid_username w
     = _get_valid_username_loop rest
         (log (EvPrint LvError msg)
            (set_stdin rest (log (EvPrompt "Enter GitHub username: ") w))))
  ∧ (∀ r w',
       _get_valid_username w = (r, w') →
       r ≠ Ok N
       ∧ same_files w w'
       ∧ ∃ delta, trace w' = trace w ++ delta ∧ forallb talk delta = true).
Proof.
  intros Hstdin Hstrip Hstore Hin. split.
  - unfold _get_valid_username. unfold bind at 1. unfold get.
    rewrite Hstdin. simpl. unfold bind at 1. unfold input. rewrite Hstdin.
    rewrite Hstrip.
    destruct (String.eqb N EmptyString) eqn:Hempty.
    { eexists. reflexivity. }
    destruct (validate_username N) eqn:Hvalid; simpl.
    2:{ eexists. reflexivity. }
    unfold _username_exists, load_profiles. unfold_m. simpl.
    rewrite Hstore. simpl.
    rewrite bool_decide_eq_true_2 by exact Hin.
    eexists. reflexivity.
  - intros r w' Hrun. unfold _get_valid_username in Hrun.
    unfold bind at 1 in Hrun. unfold get in Hrun.
    apply get_valid_username_loop_talks in Hrun as [[Hsame Htrace] Hres].
    split; [|split; assumption].
    intros ->. destruct (Hres N eq_refl) as [_ Hnone].
    rewrite (Hnone profiles Hstore) in Hin. destruct Hin as [? Hin]. discriminate.
Qed.

Lemma existing_name_rejected_witness :
  fst (_get_valid_username alice_again_world) ≠ Ok "alice"
  ∧ same_files alice_again_world (snd (_get_valid_username alice_again_world)).
Proof.
  destruct (existing_name_rejected alice_again_world " alice " ["bob"] "alice"
              alice_store eq_refl eq_refl eq_refl
              ltac:(vm_compute; eauto)) as [_ H].
  destruct (H _ _ (surjective_pairing _)) as (Hne & Hsame & _).
  split; assumption.
Defined.

Example existing_name_rejected_run :
  fst (_get_valid_username alice_again_world) = Ok "bob"
  ∧ trace (snd (_get_valid_username alice_again_world))
    = [EvPrompt "Enter GitHub username: ";
       EvPrint LvError "Profile 'alice' already exists!";
       EvPrompt "Enter GitHub username: "].
Proof. split; vm_compute; reflexivity. Qed.

(** ** Removing a profile *)

Lemma get_current_git_config_eq w :
  get_current_git_config w
  = (Ok (current_identity (git_global w)),
     log (git_read "user.email") (log (git_read "user.name") w)).
Proof.
  unfold get_current_git_config, _get_git_config_value, current_identity.
  unfold_m. simpl.
  destruct (git_global w !! "user.name") as [n|]; simpl;
    destruct (git_global w !! "user.email") as [e|]; simpl; try reflexivity.
  destruct (String.eqb (PyStr.strip (n +:+ PyStr.nl)) EmptyString); simpl;
    destruct (String.eqb (PyStr.strip (e +:+ PyStr.nl)) EmptyString); reflexivity.
Qed.

Lemma cleanup_current_profile_not_active env username (p : profile) name email w :
  p !! "name" = Some name →
  p !! "email" = Some email →
  current_identity (git_global w) ≠ Some (mkIdentity name email) →
  _cleanup_current_profile_with_feedback env username p w
  = (Ok tt,
     log (EvPrint LvPlain "Profile is not currently active, skipping Git config cleanup")
       (log (git_read "user.email") (log (git_read "user.name") w))).
Proof.
  intros Hname Hemail Hcur.
  unfold _cleanup_current_profile_with_feedback. unfold bind at 1.
  rewrite get_current_git_config_eq.
  destruct (current_identity (git_global w)) as [[n e]|]; [|reflexivity].
  unfold_m. rewrite Hname. simpl.
  destruct (String.eqb_spec n name) as [->|_]; [|reflexivity].
  rewrite Hemail. simpl.
  destruct (String.eqb_spec e email) as [->|_]; [|reflexivity].
  contradiction.
Qed.

Lemma cleanup_ssh_files_spec env username (p : profile) w :
  ∃ w' delta,
    _cleanup_ssh_files_with_feedback env username p w = (Ok tt, w')
    ∧ git_global w' = git_global w
    ∧ store_file w' = store_file w
    ∧ trace w' = trace w ++ delta
    ∧ match p !! "ssh_key" with
      | None =>
          key_files w' = key_files w ∧ ssh_config w' = ssh_config w
          ∧ effects delta = []
      | Some k =>
          key_files w'
          = unlinked env (k +:+ ".pub") (unlinked env k (key_files w))
          ∧ ssh_config w' = config_without env username (ssh_config w)
          ∧ effects delta
            = unlink_events k (key_files w)
              ++ unlink_events (k +:+ ".pub") (unlinked env k (key_files w))
              ++ config_events env (ssh_config w)
      end.
Proof.
  unfold _cleanup_ssh_files_with_feedback, remove_from_ssh_config,
    _update_ssh_config_file, unlinked, unlink_events, config_without,
    config_events.
  unfold_m.
  destruct (p !! "ssh_key") as [k|]; simpl.
  2:{ eexists _, _. split; [reflexivity|]. simpl.
      repeat split; reflexivity. }
  destruct (bool_decide (k ∈ key_files w)); simpl;
    [destruct (unlink_error env k); simpl|].
  all: match goal with
       | |- context [bool_decide (?x ∈ ?s)] => destruct (bool_decide (x ∈ s)); simpl
       end.
  all: try (destruct (unlink_error env (k +:+ ".pub")); simpl).
  all: destruct (ssh_config w) as [content|] eqn:Hcfg; simpl; rewrite ?Hcfg; simpl.
  all: try (destruct (write_error env SshConfigFile); simpl).
  all: eexists _, _; (split; [reflexivity|]); simpl.
  all: split; [reflexivity|]; split; [reflexivity|].
  all: split; [repeat rewrite <- app_assoc; reflexivity|].
  all: split; [reflexivity|]; split; [congruence|reflexivity].
Qed.

Lemma effects_app a b : effects (a ++ b) = effects a ++ effects b.
Proof. apply filter_app. Qed.

Lemma cleanup_current_profile_active env username (p : profile) name email w :
  p !! "name" = Some name →
  p !! "email" = Some email →
  current_identity (git_global w) = Some (mkIdentity name email) →
  git_write_ok env "user.name" = true →
  git_write_ok env "user.email" = true →
  ∃ w', _cleanup_current_profile_with_feedback env username p w = (Ok tt, w')
        ∧ git_global w' = delete "user.email" (delete "user.name" (git_global w)).
Proof.
  intros Hname Hemail Hcur Hok1 Hok2.
  unfold _cleanup_current_profile_with_feedback. unfold bind at 1.
  rewrite get_current_git_config_eq, Hcur.
  unfold_m. rewrite Hname. simpl. rewrite String.eqb_refl, Hemail. simpl.
  rewrite String.eqb_refl. simpl.
  unfold _clear_git_global_config, git_config_unset. unfold_m. simpl.
  unfold current_identity in Hcur.
  destruct (git_global w !! "user.name") as [n|] eqn:Hn; [|discriminate].
  destruct (git_global w !! "user.email") as [e|] eqn:He; [|discriminate].
  rewrite Hok1. simpl.
  rewrite Hok2.
  rewrite bool_decide_eq_true_2
    by (rewrite lookup_delete_ne by discriminate; rewrite He; eauto).
  simpl. eexists. split; reflexivity.
Qed.

(** C8: when the global name and email are not both those of the profile
    (or are not set), the removal never touches the global Git configuration
    and runs no [git config --unset]; it goes on to the key files, then the
    stanza, then the store entry, in that order, each attempted whatever
    became of the one before. When they are those of the profile, both keys
    are unset. A profile without a key has no key file and no stanza to
    remove: only the store entry goes. *)
Theorem removal_respects_git_config
    env username (p : profile) (profiles : store) name email w :
  profiles !! username = Some p →
  p !! "name" = Some name →
  p !! "email" = Some email →
  (current_identity (git_global w) ≠ Some (mkIdentity name email) →
   ∃ w' delta,
     _perform_complete_profile_removal env username p profiles w = (Ok tt, w')
     ∧ git_global w' = git_global w
     ∧ trace w' = trace w ++ delta
     ∧ store_file w'
       = match write_error env StoreFile with
         | None => Doc (delete username profiles)
         | Some _ => store_file w
         end
     ∧ match p !! "ssh_key" with
       | None =>
           key_files w' = key_files w ∧ ssh_config w' = ssh_config w
           ∧ effects delta
             = [git_read "user.name"; git_read "user.email"] ++ store_events env
       | Some k =>
           key_files w'
           = unlinked env (k +:+ ".pub") (unlinked env k (key_files w))
           ∧ ssh_config w' = config_without env username (ssh_config w)
           ∧ effects delta
             = [git_read "user.name"; git_read "user.email"]
               ++ unlink_events k (key_files w)
               ++ unlink_events (k +:+ ".pub") (unlinked env k (key_files w))
               ++ config_events env (ssh_config w)
               ++ store_events env
       end)
  ∧ (current_identity (git_global w) = Some (mkIdentity name email) →
     git_write_ok env "user.name" = true →
     git_write_ok env "user.email" = true →
     ∃ w', _cleanup_current_profile_with_feedback env username p w = (Ok tt, w')
           ∧ git_global w' = delete "user.email" (delete "user.name" (git_global w))).
Proof.
  intros Hin Hname Hemail. split.
  2:{ intros. eapply cleanup_current_profile_active; eassumption. }
  intros Hcur.
  unfold _perform_complete_profile_removal.
  unfold bind at 1. unfold print at 1. unfold emit, modify. unfold bind at 1.
  erewrite cleanup_current_profile_not_active; [|eassumption|eassumption|exact Hcur].
  unfold bind at 1.
  match goal with
  | |- context [_cleanup_ssh_files_with_feedback env username p ?w1] =>
      destruct (cleanup_ssh_files_spec env username p w1)
        as (w2 & d2 & Hrun & Hgit & Hstore & Htrace & Hrest)
  end.
  rewrite Hrun. unfold getitem. rewrite Hin. unfold bind at 1. unfold ret at 1.
  unfold save_profiles, store_events.
  destruct (write_error env StoreFile) as [err|]; unfold_m; simpl.
  - eexists _, _. split; [reflexivity|]. simpl.
    split; [exact Hgit|].
    split; [rewrite Htrace; simpl; repeat rewrite <- app_assoc; reflexivity|].
    split; [exact Hstore|].
    destruct (p !! "ssh_key") as [k|];
      destruct Hrest as (Hk & Hc & He); simpl in Hk, Hc;
      (split; [exact Hk|]); (split; [exact Hc|]);
      rewrite !effects_app, He; simpl; rewrite ?app_nil_r; reflexivity.
  - eexists _, _. split; [reflexivity|]. simpl.
    split; [exact Hgit|].
    split; [rewrite Htrace; simpl; repeat rewrite <- app_assoc; reflexivity|].
    split; [reflexivity|].
    destruct (p !! "ssh_key") as [k|];
      destruct Hrest as (Hk & Hc & He); simpl in Hk, Hc;
      (split; [exact Hk|]); (split; [exact Hc|]);
      rewrite !effects_app, He; simpl; rewrite <- ?app_assoc; reflexivity.
Qed.

Lemma removal_respects_git_config_witness :
  (fst (_perform_complete_profile_removal posix_env "alice" alice_profile
          alice_store bob_active_world) = Ok tt
   ∧ git_global (snd (_perform_complete_profile_removal posix_env "alice"
                        alice_profile alice_store bob_active_world))
     = git_global bob_active_world)
  ∧ git_global (snd (_cleanup_current_profile_with_feedback posix_env "alice"
                       alice_profile alice_active_world))
    = delete "user.email" (delete "user.name" (git_global alice_active_world)).
Proof.
  split.
  - destruct (proj1 (removal_respects_git_config posix_env "alice" alice_profile
                       alice_store "alice" "alice@example.com" bob_active_world
                       eq_refl eq_refl eq_refl)
                ltac:(vm_compute; discriminate))
      as (w' & delta & Hrun & Hgit & _).
    rewrite Hrun. split; [reflexivity|exact Hgit].
  - destruct (proj2 (removal_respects_git_config posix_env "alice" alice_profile
                       alice_store "alice" "alice@example.com" alice_active_world
                       eq_refl eq_refl eq_refl)
                eq_refl eq_refl eq_refl)
      as (w' & Hrun & Hgit).
    rewrite Hrun. exact Hgit.
Defined.

Example removal_run_in_order :
  effects (trace (snd (_perform_complete_profile_removal posix_env "alice"
                         alice_profile alice_store bob_active_world)))
  = [git_read "user.name"; git_read "user.email";
     EvUnlink "/home/u/.ssh/id_rsa_alice";
     EvUnlink "/home/u/.ssh/id_rsa_alice.pub";
     EvWrite SshConfigFile; EvWrite StoreFile]
  ∧ store_file (snd (_perform_complete_profile_removal posix_env "alice"
                       alice_profile alice_store bob_active_world))
    = Doc ∅.
Proof. split; vm_compute; reflexivity. Qed.

(** ** Creating a profile *)

Lemma path_parts_single is_sep s :
  forallb (fun c => negb (is_sep c)) (list_ascii_of_string s) = true →
  PyStr.path_parts is_sep s = [s].
Proof.
  induction s as [|c s IH]; simpl; intros H; [reflexivity|].
  apply andb_true_iff in H as [Hc Hs].
  apply negb_true_iff in Hc. rewrite Hc, (IH Hs). reflexivity.
Qed.

Lemma forallb_impl {A} (P Q : A → bool) l :
  (∀ x, P x = true → Q x = true) → forallb P l = true → forallb Q l = true.
Proof.
  intros HPQ. induction l as [|x l IH]; simpl; [reflexivity|].
  intros H. apply andb_true_iff in H as [Hx Hl].
  rewrite (HPQ x Hx), (IH Hl). reflexivity.
Qed.

Lemma is_sep_cases windows c :
  is_sep windows c = true → c = "/"%char ∨ c = "\"%char.
Proof.
  unfold is_sep. intros H. apply orb_true_iff in H as [H|H].
  - left. apply Ascii.eqb_eq. exact H.
  - right. apply andb_true_iff in H as [_ H]. apply Ascii.eqb_eq. exact H.
Qed.

Lemma alnum_hyphen_no_sep windows c :
  is_alnum_hyphen c = true → negb (is_sep windows c) = true.
Proof.
  intros Hc. apply negb_true_iff.
  destruct (is_sep windows c) eqn:Hsep; [|reflexivity].
  apply is_sep_cases in Hsep as [->| ->]; discriminate.
Qed.

Lemma valid_username_no_sep windows N :
  validate_username N = true →
  forallb (fun c => negb (is_sep windows c)) (list_ascii_of_string N) = true.
Proof.
  intros H. apply validate_username_spec in H as [H|(t & -> & H & _)].
  - eapply forallb_impl; [apply alnum_hyphen_no_sep|].
    apply username_grammar_chars. exact H.
  - rewrite list_ascii_app, forallb_app. apply andb_true_iff. split.
    + eapply forallb_impl; [apply alnum_hyphen_no_sep|].
      apply username_grammar_chars. exact H.
    + destruct windows; reflexivity.
Qed.

(** The key path of a valid name. *)
Lemma key_path_of_valid_name windows base N :
  validate_username N = true →
  joinpath windows base ("id_rsa_" +:+ N)
  = base +:+ path_sep windows +:+ "id_rsa_" +:+ N.
Proof.
  intros H. unfold joinpath.
  rewrite path_parts_single.
  2:{ rewrite list_ascii_app, forallb_app, (valid_username_no_sep windows N H).
      destruct windows; reflexivity. }
  rewrite filter_cons_True by (rewrite !append_cons; exact I).
  rewrite filter_nil. unfold PyStr.concat_with. simpl.
  rewrite append_empty_r. reflexivity.
Qed.

Lemma create_ssh_key_path env key_file email passphrase username w k w' :
  _create_ssh_key env key_file email passphrase username w = (Ok (Some k), w') →
  k = key_file.
Proof.
  unfold _create_ssh_key, _set_ssh_key_permissions, update_ssh_config.
  unfold_m. simpl.
  destruct (ssh_keygen env) as [rc out err|msg]; simpl; [|discriminate].
  destruct (bool_decide (rc ≠ 0%Z)); simpl; [discriminate|].
  destruct (is_windows env); simpl;
    destruct (write_error env SshConfigFile); simpl; congruence.
Qed.

Lemma generate_ssh_key_path env email username use_passphrase w k w' :
  generate_ssh_key env email username use_passphrase w = (Ok (Some k), w') →
  k = joinpath (is_windows env) (ssh_dir env) ("id_rsa_" +:+ username).
Proof.
  unfold generate_ssh_key. unfold bind at 1. unfold get.
  destruct (bool_decide _).
  - unfold_m. congruence.
  - unfold bind at 1. unfold print_info, emit, modify.
    unfold bind at 1.
    destruct (_get_passphrase use_passphrase _) as [[passphrase|e] w1];
      [|discriminate].
    apply create_ssh_key_path.
Qed.

Lemma set_git_config_store env name email w r w' :
  set_git_config env name email w = (r, w') → store_file w' = store_file w.
Proof.
  unfold set_git_config, git_config_set. unfold_m. simpl.
  destruct (git_write_ok env "user.name"); simpl;
    [destruct (git_write_ok env "user.email"); simpl|];
    intros [= <- <-]; reflexivity.
Qed.

Lemma new_profile_fields name email ssh_key :
  new_profile name email ssh_key !! "name" = Some name
  ∧ new_profile name email ssh_key !! "email" = Some email
  ∧ new_profile name email ssh_key !! "ssh_key" = Some ssh_key
  ∧ dom (new_profile name email ssh_key)
    = ({["name"]} ∪ {["email"]} ∪ {["ssh_key"]} : gset string).
Proof.
  unfold new_profile. split; [apply lookup_insert_eq|].
  split; [rewrite lookup_insert_ne by discriminate; apply lookup_insert_eq|].
  split; [rewrite !lookup_insert_ne by discriminate; apply lookup_insert_eq|].
  rewrite !dom_insert_L, dom_empty_L. set_solver.
Qed.

(** C1: after a creation of (N, E) that succeeded, with N and E accepted by
    the validators, loading the store gives under N the profile with the
    fields name = N, email = E and ssh_key = SSH_DIR/id_rsa_N, and with no
    other field. *)
Theorem create_profile_then_load env name email w w' :
  validate_username name = true →
  validate_email email = true →
  _create_profile env name email w = (Ok true, w') →
  ∃ (profiles : store) (p : profile),
    load_profiles w' = (Ok profiles, w')
    ∧ profiles !! name = Some p
    ∧ p !! "name" = Some name
    ∧ p !! "email" = Some email
    ∧ p !! "ssh_key"
      = Some (ssh_dir env +:+ path_sep (is_windows env) +:+ "id_rsa_" +:+ name)
    ∧ dom p = ({["name"]} ∪ {["email"]} ∪ {["ssh_key"]} : gset string).
Proof.
  intros HN HE Hrun.
  unfold _create_profile in Hrun. unfold bind at 1 in Hrun.
  destruct (generate_ssh_key env email name true w) as [[[k|]|e] w1] eqn:Hgen.
  2:{ unfold_m. discriminate. }
  2:{ discriminate. }
  apply generate_ssh_key_path in Hgen.
  rewrite key_path_of_valid_name in Hgen by exact HN. subst k.
  destruct (String.eqb _ EmptyString); [unfold_m; discriminate|].
  assert (Hstore : store_file w'
                   = Doc (<[name := new_profile name email
                                   (ssh_dir env +:+ path_sep (is_windows env)
                                    +:+ "id_rsa_" +:+ name)]>
                            (match store_file w1 with
                             | Doc profiles => profiles
                             | _ => ∅
                             end))).
  { unfold load_profiles, save_profiles in Hrun. unfold_m. simpl in Hrun.
    destruct (store_file w1) as [|why|profiles]; simpl in Hrun;
      destruct (write_error env StoreFile); simpl in Hrun; try discriminate.
    all: match type of Hrun with
         | context [set_git_config ?a ?b ?c ?w3] =>
             destruct (set_git_config a b c w3) as [[[|]|e] w4] eqn:Hgit
         end; try discriminate.
    all: injection Hrun as <-; simpl.
    all: apply set_git_config_store in Hgit; rewrite Hgit; reflexivity. }
  destruct (new_profile_fields name email
              (ssh_dir env +:+ path_sep (is_windows env) +:+ "id_rsa_" +:+ name))
    as (Hname & Hemail & Hkey & Hdom).
  eexists _, _. split.
  - unfold load_profiles. unfold_m. rewrite Hstore. reflexivity.
  - split; [apply lookup_insert_eq|]. auto.
Qed.

Lemma create_profile_then_load_witness :
  ∃ (profiles : store) (p : profile),
    load_profiles after_first_run = (Ok profiles, after_first_run)
    ∧ profiles !! "alice" = Some p
    ∧ p !! "name" = Some "alice"
    ∧ p !! "email" = Some "alice@example.com"
    ∧ p !! "ssh_key" = Some "/home/u/.ssh/id_rsa_alice"
    ∧ dom p = ({["name"]} ∪ {["email"]} ∪ {["ssh_key"]} : gset string).
Proof.
  assert (Hrun : _create_profile posix_env "alice" "alice@example.com"
                   first_run_world = (Ok true, after_first_run)).
  { unfold after_first_run.
    rewrite (surjective_pairing (_create_profile _ _ _ _)) at 1.
    f_equal. }
  exact (create_profile_then_load posix_env "alice" "alice@example.com"
           first_run_world after_first_run eq_refl eq_refl Hrun).
Defined.

Example first_run_effects :
  effects (trace after_first_run)
  = [EvRun ["ssh-keygen"; "-t"; "rsa"; "-b"; "4096"; "-C"; "alice@example.com";
            "-f"; "/home/u/.ssh/id_rsa_alice"; "-N"; EmptyString] None;
     EvChmod "/home/u/.ssh/id_rsa_alice" "600";
     EvChmod "/home/u/.ssh/id_rsa_alice.pub" "644";
     EvAppend SshConfigFile;
     EvWrite StoreFile;
     EvRun ["git"; "config"; "--global"; "user.name"; "alice"] None;
     EvRun ["git"; "config"; "--global"; "user.email"; "alice@example.com"] None]
  ∧ ssh_config after_first_run
    = Some (config_content "alice" "/home/u/.ssh/id_rsa_alice")
  ∧ PyStr.readlines (config_content "alice" "/home/u/.ssh/id_rsa_alice")
    = alice_lines.
Proof. repeat split; vm_compute; reflexivity. Qed.

(** * Further properties of the code *)

(** ** Splitting and replacing *)

Lemma prefix_self_app p s : String.prefix p (p +:+ s) = true.
Proof.
  induction p as [|a p IH]; [apply prefix_empty|].
  rewrite append_cons, prefix_cons, Ascii.eqb_refl. exact IH.
Qed.

Lemma contains_false_cons p c s :
  PyStr.contains p (String c s) = false →
  String.prefix p (String c s) = false ∧ PyStr.contains p s = false.
Proof. rewrite contains_cons. apply orb_false_iff. Qed.

Lemma split_from_cons sep c s :
  PyStr.split_from sep (String c s) 0
  = if String.prefix sep (String c s)
    then EmptyString :: PyStr.split_from sep s (String.length sep - 1)
    else match PyStr.split_from sep s 0 with
         | piece :: pieces => String c piece :: pieces
         | [] => [String c EmptyString]
         end.
Proof. reflexivity. Qed.

Lemma replace_from_cons old new c s :
  PyStr.replace_from old new (String c s) 0
  = if String.prefix old (String c s)
    then new +:+ PyStr.replace_from old new s (String.length old - 1)
    else String c (PyStr.replace_from old new s 0).
Proof. reflexivity. Qed.

Lemma split_no_sep sep s :
  PyStr.contains sep s = false → PyStr.split sep s = [s].
Proof.
  unfold PyStr.split. induction s as [|c s IH]; intros H; [reflexivity|].
  apply contains_false_cons in H as [Hp Hs].
  rewrite split_from_cons, Hp, (IH Hs). reflexivity.
Qed.

Lemma replace_no_occurrence old new s :
  PyStr.contains old s = false → PyStr.replace old new s = s.
Proof.
  unfold PyStr.replace. induction s as [|c s IH]; intros H; [reflexivity|].
  apply contains_false_cons in H as [Hp Hs].
  rewrite replace_from_cons, Hp, (IH Hs). reflexivity.
Qed.

Lemma replace_from_skip old new x rest :
  PyStr.replace_from old new (x +:+ rest) (String.length x)
  = PyStr.replace_from old new rest 0.
Proof.
  induction x as [|c x IH]; [reflexivity|].
  rewrite append_cons. simpl. exact IH.
Qed.

Lemma split_from_skip sep x rest :
  PyStr.split_from sep (x +:+ rest) (String.length x)
  = PyStr.split_from sep rest 0.
Proof.
  induction x as [|c x IH]; [reflexivity|].
  rewrite append_cons. simpl. exact IH.
Qed.

Lemma replace_at_occurrence c old new rest :
  PyStr.replace_from (String c old) new (String c old +:+ rest) 0
  = new +:+ PyStr.replace_from (String c old) new rest 0.
Proof.
  pose proof (prefix_self_app (String c old) rest) as Hp.
  rewrite append_cons in *. rewrite replace_from_cons, Hp.
  f_equal.
  replace (String.length (String c old) - 1) with (String.length old)
    by (simpl; lia).
  apply replace_from_skip.
Qed.

Lemma split_at_occurrence c sep rest :
  PyStr.split_from (String c sep) (String c sep +:+ rest) 0
  = EmptyString :: PyStr.split_from (String c sep) rest 0.
Proof.
  pose proof (prefix_self_app (String c sep) rest) as Hp.
  rewrite append_cons in *. rewrite split_from_cons, Hp.
  f_equal.
  replace (String.length (String c sep) - 1) with (String.length sep)
    by (simpl; lia).
  apply split_from_skip.
Qed.

Lemma replace_at_nonempty old new rest :
  old ≠ EmptyString →
  PyStr.replace_from old new (old +:+ rest) 0
  = new +:+ PyStr.replace_from old new rest 0.
Proof.
  destruct old as [|c old]; [contradiction|]. intros _.
  apply replace_at_occurrence.
Qed.

Lemma replace_cons_other old new c s :
  String.prefix old (String c s) = false →
  PyStr.replace_from old new (String c s) 0
  = String c (PyStr.replace_from old new s 0).
Proof. intros H. rewrite replace_from_cons, H. reflexivity. Qed.

Lemma split_cons_other sep c s piece pieces :
  String.prefix sep (String c s) = false →
  PyStr.split_from sep s 0 = piece :: pieces →
  PyStr.split_from sep (String c s) 0 = String c piece :: pieces.
Proof. intros H Hs. rewrite split_from_cons, H, Hs. reflexivity. Qed.

(** The first piece of a split at [c] is what stands before the first [c]. *)
Lemma split_char_head c x rest :
  occurs c x = false →
  ∃ pieces, PyStr.split (String c EmptyString) (x +:+ String c rest) = x :: pieces.
Proof.
  unfold PyStr.split. induction x as [|a x IH]; intros H.
  - rewrite append_empty_l.
    change (String c rest) with (String c EmptyString +:+ rest).
    rewrite split_at_occurrence. eauto.
  - rewrite occurs_cons in H. apply orb_false_iff in H as [Ha Hx].
    destruct (IH Hx) as [pieces Hp]. exists pieces.
    rewrite append_cons. apply split_cons_other; [|exact Hp].
    rewrite prefix_cons, Ha. reflexivity.
Qed.

Lemma contains_app_r p a b :
  PyStr.contains p b = true → PyStr.contains p (a +:+ b) = true.
Proof.
  intros H. induction a as [|c a IH]; [exact H|].
  rewrite append_cons. apply contains_skip. exact IH.
Qed.

Lemma prefix_of_prefix a b s :
  String.prefix (a +:+ b) s = true → String.prefix a s = true.
Proof.
  revert s. induction a as [|c a IH]; intros s H; [apply prefix_empty|].
  destruct s as [|d s]; [discriminate|].
  rewrite append_cons, prefix_cons in H. apply andb_true_iff in H as [Hc H].
  rewrite prefix_cons, Hc. simpl. eauto.
Qed.

Lemma contains_of_longer a b s :
  PyStr.contains (a +:+ b) s = true → PyStr.contains a s = true.
Proof.
  induction s as [|c s IH]; intros H.
  - rewrite contains_nil in *. apply String.eqb_eq in H.
    destruct a; [reflexivity|discriminate].
  - rewrite contains_cons in *. apply orb_true_iff in H as [H|H].
    + rewrite (prefix_of_prefix _ _ _ H). reflexivity.
    + rewrite (IH H). apply orb_true_r.
Qed.

(** A character that is not in [p] cuts every occurrence of [p]. *)
Lemma prefix_cut c p a b :
  occurs c p = false →
  String.prefix p (a +:+ String c b) = String.prefix p a.
Proof.
  revert a. induction p as [|x p IH]; intros a H.
  - rewrite !prefix_empty. reflexivity.
  - rewrite occurs_cons in H. apply orb_false_iff in H as [Hx Hp].
    destruct a as [|y a].
    + rewrite append_empty_l, prefix_cons, prefix_nil_r.
      rewrite Ascii.eqb_sym, Hx. reflexivity.
    + rewrite append_cons, !prefix_cons, IH by exact Hp. reflexivity.
Qed.

Lemma contains_cut c p a b :
  occurs c p = false →
  PyStr.contains p (a +:+ String c b) = PyStr.contains p a || PyStr.contains p b.
Proof.
  intros H. induction a as [|y a IH].
  - rewrite append_empty_l, contains_cons, contains_nil.
    change (String c b) with (EmptyString +:+ String c b).
    rewrite (prefix_cut c p EmptyString b H), prefix_nil_r. reflexivity.
  - rewrite append_cons, !contains_cons, IH.
    rewrite <- append_cons, prefix_cut by exact H. apply orb_assoc.
Qed.

(** ** Remote URL rewriting, for every path and every name *)

Lemma split_colon_form path :
  PyStr.contains "github.com:" path = false →
  PyStr.split "github.com:" ("git@github.com:" +:+ path) = ["git@"; path].
Proof.
  intros Hpath. unfold PyStr.split.
  change ("git@github.com:" +:+ path)
    with (String "g" (String "i" (String "t" (String "@" ("github.com:" +:+ path))))).
  do 4 (apply split_cons_other; [reflexivity|]).
  rewrite (split_at_occurrence "g" "ithub.com:" path).
  f_equal. apply split_no_sep. exact Hpath.
Qed.

Lemma split_alias_form rest :
  PyStr.contains "github.com-" rest = false →
  PyStr.split "github.com-" ("git@github.com-" +:+ rest) = ["git@"; rest].
Proof.
  intros Hrest. unfold PyStr.split.
  change ("git@github.com-" +:+ rest)
    with (String "g" (String "i" (String "t" (String "@" ("github.com-" +:+ rest))))).
  do 4 (apply split_cons_other; [reflexivity|]).
  rewrite (split_at_occurrence "g" "ithub.com-" rest).
  f_equal. apply split_no_sep. exact Hrest.
Qed.

Lemma replace_alias old new path :
  PyStr.contains "github.com-" path = false →
  PyStr.replace ("github.com-" +:+ old +:+ ":") ("github.com-" +:+ new +:+ ":")
    ("git@github.com-" +:+ old +:+ ":" +:+ path)
  = "git@github.com-" +:+ new +:+ ":" +:+ path.
Proof.
  intros Hpath. unfold PyStr.replace.
  set (P := "github.com-" +:+ old +:+ ":").
  set (Q := "github.com-" +:+ new +:+ ":").
  assert (HP : PyStr.contains P path = false).
  { destruct (PyStr.contains P path) eqn:Hc; [|reflexivity].
    unfold P in Hc. apply contains_of_longer in Hc. congruence. }
  assert (H4 : PyStr.replace_from P Q (P +:+ path) 0 = Q +:+ path).
  { rewrite replace_at_nonempty by (unfold P; rewrite append_cons; discriminate).
    f_equal. apply replace_no_occurrence. exact HP. }
  change ("git@github.com-" +:+ old +:+ ":" +:+ path)
    with (String "g" (String "i" (String "t" (String "@"
            ("github.com-" +:+ old +:+ ":" +:+ path))))).
  replace ("github.com-" +:+ old +:+ ":" +:+ path) with (P +:+ path)
    by (unfold P; rewrite !append_assoc_r; reflexivity).
  rewrite 4 replace_cons_other by reflexivity.
  rewrite H4. unfold Q. rewrite !append_assoc_r. reflexivity.
Qed.

Lemma contains_alias_colon_form path :
  PyStr.contains "github.com-" ("git@github.com:" +:+ path)
  = PyStr.contains "github.com-" path.
Proof.
  rewrite !append_cons, append_empty_l. rewrite !contains_cons, !prefix_cons.
  reflexivity.
Qed.

Lemma contains_alias_alias_form rest :
  PyStr.contains "github.com-" ("git@github.com-" +:+ rest) = true.
Proof.
  change ("git@github.com-" +:+ rest)
    with (String "g" (String "i" (String "t" (String "@"
            ("github.com-" +:+ rest))))).
  do 4 apply contains_skip. apply contains_prefix, prefix_self_app.
Qed.

Lemma convert_https_form path username w :
  _convert_url_for_profile ("https://github.com/" +:+ path) username w
  = (Ok (Some ("git@github.com-" +:+ username +:+ ":"
               +:+ PyStr.replace "https://github.com/" EmptyString path)), w)
  ∧ (PyStr.contains "https://github.com/" path = false →
     _convert_url_for_profile ("https://github.com/" +:+ path) username w
     = (Ok (Some ("git@github.com-" +:+ username +:+ ":" +:+ path)), w)).
Proof.
  assert (Hgen : _convert_url_for_profile ("https://github.com/" +:+ path) username w
    = (Ok (Some ("git@github.com-" +:+ username +:+ ":"
                 +:+ PyStr.replace "https://github.com/" EmptyString path)), w)).
  { unfold _convert_url_for_profile, PyStr.startswith.
    replace (String.prefix "git@github.com" ("https://github.com/" +:+ path))
      with false by reflexivity.
    rewrite prefix_self_app. unfold _convert_https_url, PyStr.replace. unfold_m.
    rewrite (replace_at_occurrence "h"). reflexivity. }
  split; [exact Hgen|].
  intros Hpath. rewrite Hgen, replace_no_occurrence by exact Hpath. reflexivity.
Qed.

(** X1: an HTTPS URL of GitHub becomes the alias URL of the profile with the
    same path, for every path that does not hold the HTTPS prefix again; in
    general every further occurrence of the prefix is cut out of the path. *)
Theorem convert_https_any_path path username w :
  _convert_url_for_profile ("https://github.com/" +:+ path) username w
  = (Ok (Some ("git@github.com-" +:+ username +:+ ":"
               +:+ PyStr.replace "https://github.com/" EmptyString path)), w)
  ∧ (PyStr.contains "https://github.com/" path = false →
     _convert_url_for_profile ("https://github.com/" +:+ path) username w
     = (Ok (Some ("git@github.com-" +:+ username +:+ ":" +:+ path)), w)).
Proof. apply convert_https_form. Qed.

Lemma convert_https_any_path_witness :
  _convert_url_for_profile "https://github.com/octo/cat.git" "work" empty_world
  = (Ok (Some "git@github.com-work:octo/cat.git"), empty_world).
Proof.
  exact (proj2 (convert_https_any_path "octo/cat.git" "work" empty_world) eq_refl).
Defined.

Lemma convert_bare_ssh_form path username w :
  PyStr.contains "github.com-" path = false →
  PyStr.contains "github.com:" path = false →
  _convert_url_for_profile ("git@github.com:" +:+ path) username w
  = (Ok (Some ("git@github.com-" +:+ username +:+ ":" +:+ path)), w).
Proof.
  intros Hdash Hcolon.
  unfold _convert_url_for_profile, PyStr.startswith.
  change ("git@github.com:" +:+ path) with ("git@github.com" +:+ (":" +:+ path)) at 1.
  rewrite prefix_self_app.
  unfold _convert_ssh_url.
  rewrite contains_alias_colon_form, Hdash.
  rewrite split_colon_form by exact Hcolon. reflexivity.
Qed.

(** X2: a bare SSH URL [git@github.com:<path>] becomes
    [git@github.com-<name>:<path>], for every path that holds neither
    [github.com-] nor [github.com:]. *)
Theorem convert_bare_ssh_any_path path username w :
  PyStr.contains "github.com-" path = false →
  PyStr.contains "github.com:" path = false →
  _convert_url_for_profile ("git@github.com:" +:+ path) username w
  = (Ok (Some ("git@github.com-" +:+ username +:+ ":" +:+ path)), w).
Proof. apply convert_bare_ssh_form. Qed.

Lemma convert_bare_ssh_any_path_witness :
  _convert_url_for_profile "git@github.com:octo/cat.git" "work" empty_world
  = (Ok (Some "git@github.com-work:octo/cat.git"), empty_world).
Proof.
  exact (convert_bare_ssh_any_path "octo/cat.git" "work" empty_world
           eq_refl eq_refl).
Defined.

Lemma convert_alias_form old path username w :
  occurs ":" old = false →
  PyStr.contains "github.com-" (old +:+ ":" +:+ path) = false →
  _convert_url_for_profile ("git@github.com-" +:+ old +:+ ":" +:+ path) username w
  = (Ok (Some ("git@github.com-" +:+ username +:+ ":" +:+ path)), w).
Proof.
  intros Hold Hrest.
  assert (Hpath : PyStr.contains "github.com-" path = false).
  { destruct (PyStr.contains "github.com-" path) eqn:Hc; [|reflexivity].
    rewrite <- Hrest. symmetry.
    apply (contains_app_r _ (old +:+ ":") path) in Hc.
    rewrite append_assoc_r in Hc. exact Hc. }
  unfold _convert_url_for_profile, PyStr.startswith.
  change ("git@github.com-" +:+ old +:+ ":" +:+ path)
    with ("git@github.com" +:+ ("-" +:+ old +:+ ":" +:+ path)) at 1.
  rewrite prefix_self_app.
  unfold _convert_ssh_url.
  rewrite contains_alias_alias_form.
  rewrite split_alias_form by exact Hrest.
  destruct (split_char_head ":" old path Hold) as [pieces Hsplit].
  change (String ":" path) with (":" +:+ path) in Hsplit.
  unfold_m. cbn -[PyStr.split PyStr.replace]. rewrite Hsplit.
  cbn -[PyStr.split PyStr.replace].
  rewrite replace_alias by exact Hpath. reflexivity.
Qed.

(** X3: an alias URL [git@github.com-<old>:<path>] becomes
    [git@github.com-<name>:<path>], for every old name without a colon and
    every path, when [github.com-] occurs nowhere after the alias. *)
Theorem convert_alias_any_name old path username w :
  occurs ":" old = false →
  PyStr.contains "github.com-" (old +:+ ":" +:+ path) = false →
  _convert_url_for_profile ("git@github.com-" +:+ old +:+ ":" +:+ path) username w
  = (Ok (Some ("git@github.com-" +:+ username +:+ ":" +:+ path)), w).
Proof. apply convert_alias_form. Qed.

Lemma convert_alias_any_name_witness :
  _convert_url_for_profile "git@github.com-home:octo/cat.git" "work" empty_world
  = (Ok (Some "git@github.com-work:octo/cat.git"), empty_world).
Proof.
  exact (convert_alias_any_name "home" "octo/cat.git" "work" empty_world
           eq_refl eq_refl).
Defined.

Lemma convert_other_host_form rest username w :
  PyStr.contains "github.com-" ("git@github.com" +:+ rest) = false →
  PyStr.contains "github.com:" ("git@github.com" +:+ rest) = false →
  _convert_url_for_profile ("git@github.com" +:+ rest) username w
  = (Raise IndexError, w).
Proof.
  intros Hdash Hcolon.
  unfold _convert_url_for_profile, PyStr.startswith.
  rewrite prefix_self_app. unfold _convert_ssh_url.
  rewrite Hdash, (split_no_sep _ _ Hcolon). reflexivity.
Qed.

(** X4: a URL that starts with [git@github.com] but holds neither
    [github.com-] nor [github.com:], such as the SSH URL of a host
    [github.company.com], is not refused with a warning: the conversion
    raises [IndexError]. *)
Theorem convert_ssh_other_host_raises rest username w :
  PyStr.contains "github.com-" ("git@github.com" +:+ rest) = false →
  PyStr.contains "github.com:" ("git@github.com" +:+ rest) = false →
  _convert_url_for_profile ("git@github.com" +:+ rest) username w
  = (Raise IndexError, w).
Proof. apply convert_other_host_form. Qed.

Lemma convert_ssh_other_host_raises_witness :
  _convert_url_for_profile "git@github.company.com:octo/cat.git" "work" empty_world
  = (Raise IndexError, empty_world).
Proof.
  exact (convert_ssh_other_host_raises "pany.com:octo/cat.git" "work"
           empty_world eq_refl eq_refl).
Defined.

Lemma grammar_name_no_alias_text a :
  username_grammar a = true → PyStr.contains "github.com-" a = false.
Proof.
  intros Ha. destruct (PyStr.contains "github.com-" a) eqn:Hc; [|reflexivity].
  pose proof (contains_occurs "." _ _ Hc eq_refl) as Hdot.
  rewrite (username_grammar_occurs "." a Ha) in Hdot by reflexivity. discriminate.
Qed.

(** X5: rewriting for profile a and then for profile b gives the URL that
    rewriting for b gives at once, whichever of the three forms the URL had,
    for a name a of the grammar and a path that holds none of the three
    prefixes. *)
Theorem convert_then_convert a b path url w :
  username_grammar a = true →
  PyStr.contains "github.com-" path = false →
  PyStr.contains "github.com:" path = false →
  PyStr.contains "https://github.com/" path = false →
  url = "https://github.com/" +:+ path
  ∨ url = "git@github.com:" +:+ path
  ∨ (∃ old, occurs ":" old = false
            ∧ PyStr.contains "github.com-" old = false
            ∧ url = "git@github.com-" +:+ old +:+ ":" +:+ path) →
  bind (_convert_url_for_profile url a)
       (fun r => match r with
                 | Some u => _convert_url_for_profile u b
                 | None => ret None
                 end) w
  = _convert_url_for_profile url b w
  ∧ _convert_url_for_profile url b w
    = (Ok (Some ("git@github.com-" +:+ b +:+ ":" +:+ path)), w).
Proof.
  intros Ha Hdash Hcolon Hhttps Hurl.
  assert (Hagain : ∀ old, occurs ":" old = false →
            PyStr.contains "github.com-" old = false →
            PyStr.contains "github.com-" (old +:+ ":" +:+ path) = false).
  { intros old _ Hold.
    change (old +:+ ":" +:+ path) with (old +:+ String ":" path).
    rewrite (contains_cut ":" "github.com-" old path eq_refl), Hold, Hdash.
    reflexivity. }
  assert (Hsecond : _convert_url_for_profile
                      ("git@github.com-" +:+ a +:+ ":" +:+ path) b w
                    = (Ok (Some ("git@github.com-" +:+ b +:+ ":" +:+ path)), w)).
  { apply convert_alias_form.
    - apply username_grammar_occurs; [exact Ha|reflexivity].
    - apply Hagain; [apply username_grammar_occurs; [exact Ha|reflexivity]|].
      apply grammar_name_no_alias_text. exact Ha. }
  destruct Hurl as [->|[->|(old & Hold & Hold' & ->)]]; unfold bind.
  - rewrite (proj2 (convert_https_form path a w) Hhttps),
      (proj2 (convert_https_form path b w) Hhttps).
    rewrite Hsecond. split; reflexivity.
  - rewrite (convert_bare_ssh_form path a w), (convert_bare_ssh_form path b w)
      by assumption.
    rewrite Hsecond. split; reflexivity.
  - rewrite (convert_alias_form old path a w), (convert_alias_form old path b w)
      by auto.
    rewrite Hsecond. split; reflexivity.
Qed.

Lemma convert_then_convert_witness :
  bind (_convert_url_for_profile "https://github.com/octo/cat.git" "home")
       (fun r => match r with
                 | Some u => _convert_url_for_profile u "work"
                 | None => ret None
                 end) empty_world
  = (Ok (Some "git@github.com-work:octo/cat.git"), empty_world).
Proof.
  destruct (convert_then_convert "home" "work" "octo/cat.git"
              "https://github.com/octo/cat.git" empty_world
              eq_refl eq_refl eq_refl eq_refl (or_introl eq_refl)) as [H1 H2].
  rewrite H1. exact H2.
Defined.

(** ** What the email validator accepts *)

Lemma match_anchored_spec body s :
  Regex.match_anchored body s = true ↔
  Regex.lang body (list_ascii_of_string s)
  ∨ ∃ t, s = t +:+ PyStr.nl ∧ Regex.lang body (list_ascii_of_string t).
Proof.
  unfold Regex.match_anchored. split.
  - intros H. apply orb_true_iff in H as [H|H].
    + left. apply fullmatch_lang. exact H.
    + right. destruct (Regex.chop_newline _) as [cs'|] eqn:Hchop; [|discriminate].
      apply chop_newline_spec in Hchop. apply fullmatch_lang in H.
      exists (string_of_list_ascii cs'). split.
      * apply list_ascii_inj.
        rewrite list_ascii_app, list_ascii_of_string_of_list_ascii. exact Hchop.
      * rewrite list_ascii_of_string_of_list_ascii. exact H.
  - intros [H|(t & -> & H)].
    + apply fullmatch_lang in H. rewrite H. reflexivity.
    + apply fullmatch_lang in H.
      assert (Hchop : Regex.chop_newline (list_ascii_of_string (t +:+ PyStr.nl))
                      = Some (list_ascii_of_string t))
        by (apply chop_newline_spec; apply list_ascii_app).
      rewrite Hchop, H. apply orb_true_r.
Qed.

Lemma lang_plus_class p s :
  Regex.lang (Regex.Plus (Regex.Class p)) s ↔ s ≠ [] ∧ forallb p s = true.
Proof.
  unfold Regex.Plus. split.
  - intros H. apply lang_seq_inv in H as (s1 & s2 & -> & H1 & H2).
    apply lang_class_inv in H1 as (c & -> & Hc). apply lang_star_class in H2.
    split; [discriminate|]. simpl. rewrite Hc, H2. reflexivity.
  - intros [Hne Hall]. destruct s as [|c s]; [contradiction|].
    simpl in Hall. apply andb_true_iff in Hall as [Hc Hs].
    change (c :: s) with ([c] ++ s).
    constructor; [constructor; exact Hc|apply lang_star_class; exact Hs].
Qed.

Lemma lang_atleast2_class p s :
  Regex.lang (Regex.AtLeast2 (Regex.Class p)) s ↔
  2 ≤ length s ∧ forallb p s = true.
Proof.
  unfold Regex.AtLeast2. split.
  - intros H. apply lang_seq_inv in H as (s1 & s2 & -> & H1 & H2).
    apply lang_class_inv in H1 as (c & -> & Hc).
    apply lang_plus_class in H2 as [Hne Hall].
    destruct s2; [contradiction|]. simpl in *. rewrite Hc, Hall.
    split; [lia|reflexivity].
  - intros [Hlen Hall]. destruct s as [|c s]; [simpl in Hlen; lia|].
    simpl in Hall. apply andb_true_iff in Hall as [Hc Hs].
    change (c :: s) with ([c] ++ s).
    constructor; [constructor; exact Hc|]. apply lang_plus_class.
    split; [|exact Hs]. destruct s; [simpl in Hlen; lia|discriminate].
Qed.

Lemma lang_one_char (c : ascii) s :
  Regex.lang (Regex.Class (one_of (String c EmptyString))) s ↔ s = [c].
Proof.
  split.
  - intros H. apply lang_class_inv in H as (d & -> & Hd).
    unfold one_of in Hd. simpl in Hd. rewrite orb_false_r in Hd.
    apply Ascii.eqb_eq in Hd. subst. reflexivity.
  - intros ->. constructor. unfold one_of. simpl.
    rewrite Ascii.eqb_refl. reflexivity.
Qed.

Lemma string_of_list_nonempty cs : cs ≠ [] → string_of_list_ascii cs ≠ EmptyString.
Proof. destruct cs; [contradiction|discriminate]. Qed.

Lemma list_of_string_nonempty s : s ≠ EmptyString → list_ascii_of_string s ≠ [].
Proof. destruct s; [contradiction|discriminate]. Qed.

Lemma lang_email cs :
  Regex.lang EMAIL_PATTERN cs ↔
  ∃ local domain tld,
    email_parts local domain tld
    ∧ cs = list_ascii_of_string (local +:+ "@" +:+ domain +:+ "." +:+ tld).
Proof.
  unfold EMAIL_PATTERN, email_parts. split.
  - intros H.
    apply lang_seq_inv in H as (s1 & r1 & -> & H1 & H).
    apply lang_seq_inv in H as (s2 & r2 & -> & H2 & H).
    apply lang_seq_inv in H as (s3 & r3 & -> & H3 & H).
    apply lang_seq_inv in H as (s4 & s5 & -> & H4 & H5).
    apply lang_plus_class in H1 as [N1 A1].
    apply (lang_one_char "@") in H2 as ->.
    apply lang_plus_class in H3 as [N3 A3].
    apply (lang_one_char ".") in H4 as ->.
    apply lang_atleast2_class in H5 as [L5 A5].
    exists (string_of_list_ascii s1), (string_of_list_ascii s3),
      (string_of_list_ascii s5).
    rewrite !list_ascii_app, !list_ascii_of_string_of_list_ascii.
    rewrite <- list_ascii_length, list_ascii_of_string_of_list_ascii.
    repeat split; auto using string_of_list_nonempty.
  - intros (local & domain & tld & (N1 & A1 & N3 & A3 & L5 & A5) & ->).
    rewrite !list_ascii_app.
    constructor; [apply lang_plus_class; auto using list_of_string_nonempty|].
    constructor; [apply (lang_one_char "@"); reflexivity|].
    constructor; [apply lang_plus_class; auto using list_of_string_nonempty|].
    constructor; [apply (lang_one_char "."); reflexivity|].
    apply lang_atleast2_class. rewrite list_ascii_length. auto.
Qed.

Lemma validate_email_shape email :
  validate_email email = true ↔
  ∃ local domain tld,
    email_parts local domain tld
    ∧ (email = local +:+ "@" +:+ domain +:+ "." +:+ tld
       ∨ email = (local +:+ "@" +:+ domain +:+ "." +:+ tld) +:+ PyStr.nl).
Proof.
  unfold validate_email. rewrite match_anchored_spec. split.
  - intros [H|(t & -> & H)];
      apply lang_email in H as (local & domain & tld & Hparts & Heq);
      apply list_ascii_inj in Heq; subst; eauto 6.
  - intros (local & domain & tld & Hparts & [->| ->]).
    + left. apply lang_email. eauto.
    + right. eexists. split; [reflexivity|]. apply lang_email. eauto.
Qed.

(** X6: the email validator accepts exactly the addresses made of a local
    part of letters, digits and [._%+-], an [@], a domain of letters, digits,
    dots and hyphens, a dot and two letters or more, and also such an
    address followed by one line feed. *)
Theorem validate_email_spec email :
  validate_email email = true ↔
  ∃ local domain tld,
    email_parts local domain tld
    ∧ (email = local +:+ "@" +:+ domain +:+ "." +:+ tld
       ∨ email = (local +:+ "@" +:+ domain +:+ "." +:+ tld) +:+ PyStr.nl).
Proof. apply validate_email_shape. Qed.

Lemma validate_email_examples :
  validate_email "a@b.com" = true
  ∧ validate_email "a@b" = false
  ∧ validate_email "a.b.com" = false
  ∧ validate_email ("a@b.com" +:+ PyStr.nl) = true.
Proof. repeat split; reflexivity. Qed.

Lemma validate_email_spec_witness : validate_email "a@b.com" = true.
Proof.
  apply (proj2 (validate_email_spec "a@b.com")).
  exists "a", "b", "com". split; [|left; reflexivity].
  unfold email_parts. simpl. repeat split; try discriminate; lia.
Defined.

Lemma count_char_app c s t :
  count_char c (s +:+ t) = count_char c s + count_char c t.
Proof.
  induction s as [|a s IH]; [reflexivity|].
  rewrite append_cons. simpl. rewrite IH. lia.
Qed.

Lemma count_char_none (P : ascii → bool) c s :
  forallb P (list_ascii_of_string s) = true → P c = false → count_char c s = 0.
Proof.
  induction s as [|a s IH]; intros Hall Hc; [reflexivity|].
  simpl in Hall. apply andb_true_iff in Hall as [Ha Hall]. simpl.
  rewrite (IH Hall Hc).
  destruct (Ascii.eqb_spec c a) as [->|_]; [congruence|reflexivity].
Qed.

(** X7: an address that the email validator accepts holds exactly one [@]
    and no space. *)
Theorem validate_email_one_at email :
  validate_email email = true →
  count_char "@" email = 1 ∧ count_char " " email = 0.
Proof.
  intros H.
  apply validate_email_shape in H
    as (local & domain & tld & (_ & A1 & _ & A3 & _ & A5) & Heq).
  assert (Hcount : ∀ c, is_email_local c = false → is_email_domain c = false →
            is_alpha c = false →
            count_char c (local +:+ "@" +:+ domain +:+ "." +:+ tld)
            = count_char c "@" + count_char c ".").
  { intros c H1 H3 H5. rewrite !count_char_app.
    rewrite (count_char_none _ c local A1 H1), (count_char_none _ c domain A3 H3),
      (count_char_none _ c tld A5 H5). lia. }
  destruct Heq as [->| ->].
  - rewrite !Hcount by reflexivity. split; reflexivity.
  - rewrite !(count_char_app _ (local +:+ "@" +:+ domain +:+ "." +:+ tld) PyStr.nl).
    rewrite !Hcount by reflexivity. split; reflexivity.
Qed.

Lemma validate_email_one_at_witness :
  count_char "@" "alice@example.com" = 1 ∧ count_char " " "alice@example.com" = 0.
Proof. exact (validate_email_one_at "alice@example.com" eq_refl). Defined.

(** ** The SSH client configuration as lines *)

Lemma writelines_cons line lines :
  PyStr.writelines (line :: lines) = line +:+ PyStr.writelines lines.
Proof. reflexivity. Qed.

Lemma writelines_readlines s : PyStr.writelines (PyStr.readlines s) = s.
Proof.
  induction s as [|c s IH]; [reflexivity|]. simpl.
  destruct (Ascii.eqb_spec c PyStr.LF) as [->|_].
  - rewrite writelines_cons, IH. reflexivity.
  - destruct (PyStr.readlines s) as [|l ls].
    + simpl in IH. subst s. reflexivity.
    + rewrite writelines_cons, append_cons, <- writelines_cons, IH. reflexivity.
Qed.

Lemma well_lined_cons line rest :
  full_line line → well_lined rest → well_lined (line :: rest).
Proof. intros Hl Hr. destruct rest; simpl; auto. Qed.

Lemma well_lined_tail line rest : well_lined (line :: rest) → well_lined rest.
Proof. destruct rest; simpl; [auto|]. intros [_ H]. exact H. Qed.

Lemma well_lined_head line next rest :
  well_lined (line :: next :: rest) → full_line line.
Proof. intros [H _]. exact H. Qed.

Lemma full_line_cons c line :
  Ascii.eqb c PyStr.LF = false → full_line line → full_line (String c line).
Proof.
  intros Hc (body & -> & Hbody). exists (String c body). split; [reflexivity|].
  rewrite occurs_cons, Ascii.eqb_sym, Hc. exact Hbody.
Qed.

Lemma readlines_well_lined s : well_lined (PyStr.readlines s).
Proof.
  induction s as [|c s IH]; [exact I|]. simpl.
  destruct (Ascii.eqb c PyStr.LF) eqn:Hc.
  - apply Ascii.eqb_eq in Hc as ->. apply well_lined_cons; [|exact IH].
    exists EmptyString. split; reflexivity.
  - destruct (PyStr.readlines s) as [|l [|l' ls]].
    + right. split; [discriminate|]. rewrite occurs_cons, Ascii.eqb_sym, Hc.
      reflexivity.
    + destruct IH as [Hfull|[Hne Hnl]].
      * left. apply full_line_cons; assumption.
      * right. split; [discriminate|].
        rewrite occurs_cons, Ascii.eqb_sym, Hc. exact Hnl.
    + destruct IH as [Hfull Hrest]. split; [|exact Hrest].
      apply full_line_cons; assumption.
Qed.

Lemma readlines_no_newline s :
  s ≠ EmptyString → occurs PyStr.LF s = false → PyStr.readlines s = [s].
Proof.
  induction s as [|c s IH]; intros Hne Hnl; [contradiction|].
  rewrite occurs_cons in Hnl. apply orb_false_iff in Hnl as [Hc Hs].
  simpl. rewrite Ascii.eqb_sym, Hc.
  destruct s as [|d s]; [reflexivity|].
  rewrite IH by (discriminate || exact Hs). reflexivity.
Qed.

Lemma readlines_of_well_lined lines :
  well_lined lines → PyStr.readlines (PyStr.writelines lines) = lines.
Proof.
  induction lines as [|line [|next rest] IH]; intros H; [reflexivity| |].
  - unfold PyStr.writelines. simpl foldr. rewrite append_empty_r.
    destruct H as [(body & -> & Hbody)|[Hne Hnl]].
    + apply readlines_line. exact Hbody.
    + apply readlines_no_newline; assumption.
  - destruct H as [(body & -> & Hbody) Hrest].
    rewrite writelines_cons, readlines_app_nl, readlines_line by exact Hbody.
    rewrite (IH Hrest). reflexivity.
Qed.

Lemma filter_lines_well_lined username skip lines :
  well_lined lines → well_lined (filter_lines username skip lines).
Proof.
  revert skip. induction lines as [|line rest IH]; intros skip H; [exact I|].
  pose proof (well_lined_tail _ _ H) as Hrest. simpl filter_lines.
  destruct (PyStr.contains _ line); [apply IH; exact Hrest|].
  destruct (skip && String.eqb (PyStr.strip line) EmptyString);
    [apply IH; exact Hrest|].
  destruct skip; simpl negb; cbv iota; [apply IH; exact Hrest|].
  destruct rest as [|next rest'].
  - simpl. exact H.
  - apply well_lined_cons; [|apply IH; exact Hrest].
    eapply well_lined_head. exact H.
Qed.

Lemma filter_lines_clean username skip lines :
  Forall (fun line => PyStr.contains (marker username) line = false)
    (filter_lines username skip lines).
Proof.
  revert skip. induction lines as [|line rest IH]; intros skip; [constructor|].
  simpl filter_lines. fold (marker username).
  destruct (PyStr.contains (marker username) line) eqn:Hc; [apply IH|].
  destruct (skip && String.eqb (PyStr.strip line) EmptyString); [apply IH|].
  destruct skip; simpl negb; cbv iota; [apply IH|].
  constructor; [exact Hc|apply IH].
Qed.

Lemma filter_lines_sublist username skip lines :
  sublist (filter_lines username skip lines) lines.
Proof.
  revert skip. induction lines as [|line rest IH]; intros skip; [constructor|].
  simpl filter_lines.
  destruct (PyStr.contains _ line); [apply sublist_cons, IH|].
  destruct (skip && String.eqb (PyStr.strip line) EmptyString);
    [apply sublist_cons, IH|].
  destruct skip; simpl negb; cbv iota; [apply sublist_cons, IH|].
  apply sublist_skip, IH.
Qed.

Lemma prefix_refl s : String.prefix s s = true.
Proof.
  induction s as [|a s IH]; [reflexivity|].
  rewrite prefix_cons, Ascii.eqb_refl. exact IH.
Qed.

Lemma stanza_tail_dropped N M k skip rest :
  String.prefix N M = true →
  filter_lines N skip (tail (stanza_lines M k) ++ rest)
  = filter_lines N false rest.
Proof.
  intros Hp. unfold stanza_lines, tail. rewrite <- app_comm_cons.
  rewrite filter_lines_cons_marker by (apply marker_line_matched; exact Hp).
  change (?a :: ?b :: ?c :: ?d :: ?e :: [PyStr.nl])
    with ([a; b; c; d; e] ++ [PyStr.nl]).
  rewrite <- app_assoc.
  rewrite filter_lines_skip_body by apply stanza_body_nonblank.
  simpl app. apply filter_lines_cons_blank. reflexivity.
Qed.

Lemma remove_from_ssh_config_config env username w :
  ssh_config (snd (remove_from_ssh_config env username w))
  = match ssh_config w, write_error env SshConfigFile with
    | Some content, None =>
        Some (PyStr.writelines
                (filter_lines username false (PyStr.readlines content)))
    | config, _ => config
    end.
Proof.
  unfold remove_from_ssh_config, _update_ssh_config_file. unfold_m.
  destruct (ssh_config w) as [content|] eqn:Hcfg; [|simpl; exact Hcfg].
  simpl. rewrite Hcfg.
  destruct (write_error env SshConfigFile); simpl; [exact Hcfg|reflexivity].
Qed.

(** X8: after a removal that could write the file, no line of the file
    contains [Git profile: <name>], and the lines of the file are lines it
    had before, in their order. *)
Theorem removal_result_clean env username w content :
  ssh_config w = Some content →
  write_error env SshConfigFile = None →
  ∃ content',
    ssh_config (snd (remove_from_ssh_config env username w)) = Some content'
    ∧ Forall (fun line => PyStr.contains (marker username) line = false)
        (PyStr.readlines content')
    ∧ sublist (PyStr.readlines content') (PyStr.readlines content).
Proof.
  intros Hcfg Hw. rewrite remove_from_ssh_config_config, Hcfg, Hw.
  eexists. split; [reflexivity|].
  rewrite readlines_of_well_lined
    by (apply filter_lines_well_lined, readlines_well_lined).
  split; [apply filter_lines_clean|apply filter_lines_sublist].
Qed.

Lemma removal_result_clean_witness :
  ∃ content',
    ssh_config (snd (remove_from_ssh_config posix_env "bob" two_stanza_world))
    = Some content'
    ∧ Forall (fun line => PyStr.contains (marker "bob") line = false)
        (PyStr.readlines content')
    ∧ sublist (PyStr.readlines content')
        (PyStr.readlines (config_content "alice" "/home/u/.ssh/id_rsa_alice"
                          +:+ config_content "bob" "/home/u/.ssh/id_rsa_bob")).
Proof.
  exact (removal_result_clean posix_env "bob" two_stanza_world _ eq_refl eq_refl).
Defined.

(** X9: removing a name a second time changes nothing any more: the
    configuration after two removals is the configuration after one,
    whether the file is absent, cannot be written, or was rewritten. *)
Theorem removal_twice env username w :
  ssh_config (snd (remove_from_ssh_config env username
                     (snd (remove_from_ssh_config env username w))))
  = ssh_config (snd (remove_from_ssh_config env username w)).
Proof.
  rewrite (remove_from_ssh_config_config env username
             (snd (remove_from_ssh_config env username w))).
  rewrite remove_from_ssh_config_config.
  destruct (ssh_config w) as [content|]; [|reflexivity].
  destruct (write_error env SshConfigFile); [reflexivity|].
  rewrite readlines_of_well_lined
    by (apply filter_lines_well_lined, readlines_well_lined).
  rewrite (proj1 (filter_lines_no_marker username _
                    (filter_lines_clean username false _))).
  reflexivity.
Qed.

(** X10: when no line of the file contains [Git profile: <name>], the
    removal leaves the text of the file exactly as it was. *)
Theorem removal_of_absent_name env username w content :
  ssh_config w = Some content →
  Forall (fun line => PyStr.contains (marker username) line = false)
    (PyStr.readlines content) →
  ssh_config (snd (remove_from_ssh_config env username w)) = Some content.
Proof.
  intros Hcfg Hclean. rewrite remove_from_ssh_config_config, Hcfg.
  destruct (write_error env SshConfigFile); [reflexivity|].
  rewrite (proj1 (filter_lines_no_marker username _ Hclean)).
  rewrite writelines_readlines. reflexivity.
Qed.

Lemma removal_of_absent_name_witness :
  ssh_config (snd (remove_from_ssh_config posix_env "carol" two_stanza_world))
  = ssh_config two_stanza_world.
Proof.
  apply (removal_of_absent_name posix_env "carol" two_stanza_world);
    [reflexivity|].
  vm_compute. repeat constructor.
Defined.

Lemma replace_backslash_no_newline s :
  occurs PyStr.LF s = false →
  occurs PyStr.LF (PyStr.replace "\" "/" s) = false.
Proof.
  unfold PyStr.replace. induction s as [|c s IH]; intros H; [reflexivity|].
  rewrite occurs_cons in H. apply orb_false_iff in H as [Hc Hs].
  rewrite replace_from_cons, prefix_cons, prefix_empty, andb_true_r.
  simpl String.length. simpl Nat.sub.
  destruct (Ascii.eqb "\" c).
  - rewrite append_cons, append_empty_l, occurs_cons, (IH Hs). reflexivity.
  - rewrite occurs_cons, Hc, (IH Hs). reflexivity.
Qed.

(** X11: adding the stanza of a name and removing it again gives the file
    back with one line end more at its end, when no line of the file held
    [Git profile: <name>] before. The name and the key path hold no line
    feed and no carriage return, and neither does the text of the file as
    it is read: a carriage return that is written is read back as a line
    feed, and the line with the name would not be found again. *)
Theorem update_then_remove env username key_file w :
  write_error env SshConfigFile = None →
  occurs PyStr.LF username = false →
  occurs CR username = false →
  occurs PyStr.LF key_file = false →
  occurs CR key_file = false →
  occurs CR (default EmptyString (ssh_config w)) = false →
  Forall (fun line => PyStr.contains (marker username) line = false)
    (PyStr.readlines (default EmptyString (ssh_config w) +:+ PyStr.nl)) →
  ssh_config
    (snd (bind (update_ssh_config env username key_file)
               (fun _ => remove_from_ssh_config env username) w))
  = Some (default EmptyString (ssh_config w) +:+ PyStr.nl).
Proof.
  intros Hw Hu _ Hk _ _ Hclean.
  unfold bind, update_ssh_config. rewrite Hw. unfold_m. simpl.
  rewrite remove_from_ssh_config_config, Hw. simpl.
  set (key := if is_windows env then PyStr.replace "\" "/" key_file else key_file).
  assert (Hkey : occurs PyStr.LF key = false).
  { unfold key. destruct (is_windows env);
      [apply replace_backslash_no_newline|]; exact Hk. }
  set (before := default EmptyString (ssh_config w)) in *.
  rewrite <- (append_empty_r (config_content username key)).
  rewrite readlines_with_stanza by assumption.
  rewrite filter_lines_app.
  destruct (filter_lines_no_marker username _ Hclean) as [-> ->].
  rewrite stanza_tail_dropped by apply prefix_refl.
  simpl. rewrite app_nil_r, writelines_readlines. reflexivity.
Qed.

Lemma update_then_remove_witness :
  ssh_config
    (snd (bind (update_ssh_config posix_env "bob" "/home/u/.ssh/id_rsa_bob")
               (fun _ => remove_from_ssh_config posix_env "bob")
               (set_ssh_config (Some "Host example") empty_world)))
  = Some ("Host example" +:+ PyStr.nl).
Proof.
  apply (update_then_remove posix_env "bob" "/home/u/.ssh/id_rsa_bob"
           (set_ssh_config (Some "Host example") empty_world));
    try reflexivity.
  vm_compute. repeat constructor.
Defined.

(** ** Stripping *)

Lemma rstrip_app_nl s : PyStr.rstrip (s +:+ PyStr.nl) = PyStr.rstrip s.
Proof.
  induction s as [|c s IH]; [reflexivity|].
  rewrite append_cons. simpl. rewrite IH. reflexivity.
Qed.

Lemma strip_app_nl s : PyStr.strip (s +:+ PyStr.nl) = PyStr.strip s.
Proof.
  unfold PyStr.strip. induction s as [|c s IH]; [reflexivity|].
  rewrite append_cons. simpl. destruct (PyStr.isspace c); [exact IH|].
  rewrite <- append_cons. apply rstrip_app_nl.
Qed.

Lemma rstrip_cons_nonspace c s :
  PyStr.isspace c = false → ∃ t, PyStr.rstrip (String c s) = String c t.
Proof.
  intros Hc. simpl. destruct (PyStr.rstrip s); rewrite ?Hc; eauto.
Qed.

Lemma rstrip_idempotent s : PyStr.rstrip (PyStr.rstrip s) = PyStr.rstrip s.
Proof.
  induction s as [|c s IH]; [reflexivity|]. simpl.
  destruct (PyStr.rstrip s) as [|d r] eqn:Hr.
  - destruct (PyStr.isspace c) eqn:Hc; [reflexivity|]. simpl. rewrite Hc.
    reflexivity.
  - simpl in *. rewrite IH. reflexivity.
Qed.

Lemma lstrip_head s :
  PyStr.lstrip s = EmptyString
  ∨ ∃ c t, PyStr.lstrip s = String c t ∧ PyStr.isspace c = false.
Proof.
  induction s as [|c s IH]; [left; reflexivity|]. simpl.
  destruct (PyStr.isspace c) eqn:Hc; [exact IH|]. right. eauto.
Qed.

(** Stripping twice is stripping once. *)
Lemma strip_idempotent s : PyStr.strip (PyStr.strip s) = PyStr.strip s.
Proof.
  unfold PyStr.strip.
  destruct (lstrip_head s) as [->|(c & t & -> & Hc)]; [reflexivity|].
  destruct (rstrip_cons_nonspace c t Hc) as [u Hu].
  rewrite Hu. simpl PyStr.lstrip. rewrite Hc, <- Hu. apply rstrip_idempotent.
Qed.

(** ** The global Git configuration *)

Lemma set_git_config_eq env name email w :
  set_git_config env name email w
  = if git_write_ok env "user.name"
    then if git_write_ok env "user.email"
         then (Ok true,
               set_git_global
                 (<["user.email" := email]> (<["user.name" := name]> (git_global w)))
                 (log (EvRun ["git"; "config"; "--global"; "user.email"; email] None)
                    (set_git_global (<["user.name" := name]> (git_global w))
                       (log (EvRun ["git"; "config"; "--global"; "user.name"; name] None)
                          w))))
         else (Ok false,
               log (EvPrint LvError
                      ("Error setting Git config: " +:+ str_exn CalledProcessError))
                 (log (EvRun ["git"; "config"; "--global"; "user.email"; email] None)
                    (set_git_global (<["user.name" := name]> (git_global w))
                       (log (EvRun ["git"; "config"; "--global"; "user.name"; name] None)
                          w))))
    else (Ok false,
          log (EvPrint LvError
                 ("Error setting Git config: " +:+ str_exn CalledProcessError))
            (log (EvRun ["git"; "config"; "--global"; "user.name"; name] None) w)).
Proof.
  unfold set_git_config, git_config_set. unfold_m. simpl.
  destruct (git_write_ok env "user.name"); simpl; [|reflexivity].
  destruct (git_write_ok env "user.email"); reflexivity.
Qed.

Lemma current_identity_insert name email g :
  current_identity (<["user.email" := email]> (<["user.name" := name]> g))
  = if negb (String.eqb (PyStr.strip name) EmptyString)
       && negb (String.eqb (PyStr.strip email) EmptyString)
    then Some (mkIdentity (PyStr.strip name) (PyStr.strip email))
    else None.
Proof.
  unfold current_identity.
  rewrite lookup_insert_ne by discriminate.
  rewrite !lookup_insert_eq, !strip_app_nl. reflexivity.
Qed.

Lemma strip_without_space s :
  (∀ c, PyStr.isspace c = true → occurs c s = false) → PyStr.strip s = s.
Proof.
  intros H. unfold PyStr.strip.
  assert (Hl : PyStr.lstrip s = s).
  { destruct s as [|c s]; [reflexivity|]. simpl.
    destruct (PyStr.isspace c) eqn:Hc; [|reflexivity].
    specialize (H c Hc). rewrite occurs_cons, Ascii.eqb_refl in H. discriminate. }
  rewrite Hl. clear Hl. induction s as [|c s IH]; [reflexivity|].
  simpl. rewrite IH.
  2:{ intros d Hd. specialize (H d Hd). rewrite occurs_cons in H.
      apply orb_false_iff in H as [_ H]. exact H. }
  destruct s as [|d s]; [|reflexivity].
  destruct (PyStr.isspace c) eqn:Hc; [|reflexivity].
  specialize (H c Hc). rewrite occurs_cons, Ascii.eqb_refl in H. discriminate.
Qed.

(** No character of a name or of an address is white space. *)
Lemma space_in_no_class c :
  PyStr.isspace c = true →
  is_alnum_hyphen c = false ∧ is_email_local c = false
  ∧ is_email_domain c = false ∧ is_alpha c = false
  ∧ Ascii.eqb c "@" = false ∧ Ascii.eqb c "." = false.
Proof.
  destruct c as [[|] [|] [|] [|] [|] [|] [|] [|]]; vm_compute; intros H;
    first [discriminate H|repeat split].
Qed.

Lemma grammar_name_stripped name :
  username_grammar name = true →
  PyStr.strip name = name ∧ name ≠ EmptyString.
Proof.
  intros H. split.
  - apply strip_without_space. intros c Hc.
    apply (username_grammar_occurs c name H).
    apply (space_in_no_class c Hc).
  - intros ->. discriminate H.
Qed.

Lemma valid_email_stripped email :
  validate_email email = true →
  occurs PyStr.LF email = false →
  PyStr.strip email = email ∧ email ≠ EmptyString.
Proof.
  intros H Hnl.
  apply validate_email_shape in H
    as (local & domain & tld & (Hl & A1 & _ & A3 & _ & A5) & [->| ->]).
  2:{ rewrite occurs_app in Hnl. apply orb_false_iff in Hnl as [_ Hnl].
      discriminate. }
  split.
  - apply strip_without_space. intros c Hc.
    destruct (space_in_no_class c Hc) as (_ & S1 & S3 & S5 & Sat & Sdot).
    rewrite !occurs_app.
    rewrite (forallb_occurs _ c local A1 S1), (forallb_occurs _ c domain A3 S3),
      (forallb_occurs _ c tld A5 S5).
    simpl. rewrite Sat, Sdot. reflexivity.
  - destruct local; [contradiction|]. rewrite append_cons. discriminate.
Qed.

(** X12: what the creation of a profile writes is what the status reads.
    For a name of the username grammar and an address that the email
    validator accepts, without a line feed at its end, as the two prompts
    return them: after [set_git_config] wrote both, [get_current_git_config]
    returns exactly this name and this address. *)
Theorem set_then_get_git_config env name email w :
  username_grammar name = true →
  validate_email email = true →
  occurs PyStr.LF email = false →
  git_write_ok env "user.name" = true →
  git_write_ok env "user.email" = true →
  fst (bind (set_git_config env name email)
            (fun _ => get_current_git_config) w)
  = Ok (Some (mkIdentity name email)).
Proof.
  intros Hname Hemail Hnl Hn He.
  destruct (grammar_name_stripped name Hname) as [Sn Nn].
  destruct (valid_email_stripped email Hemail Hnl) as [Se Ne].
  unfold bind. rewrite set_git_config_eq, Hn, He.
  rewrite get_current_git_config_eq. simpl.
  rewrite current_identity_insert, Sn, Se.
  apply String.eqb_neq in Nn, Ne. rewrite Nn, Ne. reflexivity.
Qed.

Lemma set_then_get_git_config_witness :
  fst (bind (set_git_config posix_env "alice" "alice@example.com")
            (fun _ => get_current_git_config) empty_world)
  = Ok (Some (mkIdentity "alice" "alice@example.com")).
Proof.
  exact (set_then_get_git_config posix_env "alice" "alice@example.com"
           empty_world eq_refl eq_refl eq_refl eq_refl eq_refl).
Defined.

(** X13: for a name of the username grammar and an address that the
    email validator accepts, the arguments the program passes,
    [set_git_config] returns True exactly when both writes succeed, and it
    is not atomic: when the write of the name fails the configuration is
    untouched, but when only the write of the email fails the new name
    stays written beside the old email. *)
Theorem set_git_config_partial env name email w :
  username_grammar name = true →
  validate_email email = true →
  (fst (set_git_config env name email w) = Ok true ↔
   git_write_ok env "user.name" = true ∧ git_write_ok env "user.email" = true)
  ∧ (git_write_ok env "user.name" = false →
     git_global (snd (set_git_config env name email w)) = git_global w)
  ∧ (git_write_ok env "user.name" = true →
     git_write_ok env "user.email" = false →
     fst (set_git_config env name email w) = Ok false
     ∧ git_global (snd (set_git_config env name email w))
       = <["user.name" := name]> (git_global w)
     ∧ git_global (snd (set_git_config env name email w)) !! "user.email"
       = git_global w !! "user.email").
Proof.
  intros _ _. rewrite set_git_config_eq.
  destruct (git_write_ok env "user.name"), (git_write_ok env "user.email");
    simpl; repeat split; try discriminate; try tauto; intros; try discriminate.
  - destruct H; discriminate.
  - apply lookup_insert_ne. discriminate.
  - destruct H; discriminate.
  - destruct H; discriminate.
Qed.

Lemma set_git_config_partial_witness :
  fst (set_git_config email_locked_env "alice" "alice@example.com" bob_active_world)
  = Ok false
  ∧ git_global (snd (set_git_config email_locked_env "alice" "alice@example.com"
                       bob_active_world)) !! "user.name" = Some "alice"
  ∧ git_global (snd (set_git_config email_locked_env "alice" "alice@example.com"
                       bob_active_world)) !! "user.email" = Some "bob@example.com".
Proof.
  destruct (proj2 (proj2 (set_git_config_partial email_locked_env "alice"
                            "alice@example.com" bob_active_world
                            eq_refl eq_refl))
              eq_refl eq_refl) as (Hr & Hg & He).
  split; [exact Hr|]. split; [rewrite Hg; reflexivity|].
  rewrite He. reflexivity.
Defined.

(** ** Key generation, every outcome *)

Lemma create_ssh_key_outcome env key_file email passphrase username w r w' :
  _create_ssh_key env key_file email passphrase username w = (r, w') →
  store_file w' = store_file w ∧ git_global w' = git_global w
  ∧ known_hosts w' = known_hosts w ∧ stdin w' = stdin w
  ∧ match r with
    | Ok (Some k) =>
        k = key_file
        ∧ key_files w' = {[key_file]} ∪ {[key_file +:+ ".pub"]} ∪ key_files w
        ∧ ssh_config w'
          = match write_error env SshConfigFile with
            | None => Some (default EmptyString (ssh_config w)
                            +:+ stanza_of env username key_file)
            | Some _ => ssh_config w
            end
    | Ok None => key_files w' = key_files w ∧ ssh_config w' = ssh_config w
    | Raise _ => False
    end.
Proof.
  unfold _create_ssh_key, _set_ssh_key_permissions, update_ssh_config, stanza_of.
  unfold_m. simpl.
  destruct (ssh_keygen env) as [rc out err|msg]; simpl.
  2:{ intros [= <- <-]. repeat split. }
  destruct (bool_decide (rc ≠ 0%Z)); simpl.
  { intros [= <- <-]. repeat split. }
  destruct (is_windows env); simpl;
    destruct (write_error env SshConfigFile); simpl;
    intros [= <- <-]; repeat split.
Qed.

Lemma get_passphrase_only_talk use_passphrase w r w' :
  _get_passphrase use_passphrase w = (r, w') → only_talk w w'.
Proof.
  unfold _get_passphrase. destruct use_passphrase; simpl.
  2:{ unfold ret. intros [= <- <-]. apply only_talk_refl. }
  unfold print_info, emit, modify. unfold bind at 1. unfold bind at 1.
  destruct (input _ (log _ w)) as [[choice|e] w1] eqn:Hin.
  - pose proof (input_only_talk _ _ _ _ Hin) as H1.
    destruct (String.eqb _ "y").
    + intros Hin2. apply input_only_talk in Hin2.
      eapply only_talk_trans; [|exact Hin2].
      eapply only_talk_trans; [|exact H1]. apply only_talk_log. reflexivity.
    + unfold ret. intros [= <- <-].
      eapply only_talk_trans; [|exact H1]. apply only_talk_log. reflexivity.
  - intros [= <- <-]. apply input_only_talk in Hin.
    eapply only_talk_trans; [|exact Hin]. apply only_talk_log. reflexivity.
Qed.

Lemma generate_ssh_key_outcome env email username use_passphrase w r w' :
  generate_ssh_key env email username use_passphrase w = (r, w') →
  store_file w' = store_file w ∧ git_global w' = git_global w
  ∧ known_hosts w' = known_hosts w
  ∧ match r with
    | Ok (Some k) =>
        k = key_path env username
        ∧ k ∈ key_files w'
        ∧ (k ∈ key_files w →
           key_files w' = key_files w ∧ ssh_config w' = ssh_config w)
        ∧ (k ∉ key_files w →
           key_files w' = {[k]} ∪ {[k +:+ ".pub"]} ∪ key_files w
           ∧ ssh_config w'
             = match write_error env SshConfigFile with
               | None => Some (default EmptyString (ssh_config w)
                               +:+ stanza_of env username k)
               | Some _ => ssh_config w
               end)
    | _ => key_files w' = key_files w ∧ ssh_config w' = ssh_config w
    end.
Proof.
  unfold generate_ssh_key. fold (key_path env username).
  unfold bind at 1. unfold get.
  destruct (bool_decide (key_path env username ∈ key_files w)) eqn:Hin.
  - apply bool_decide_eq_true in Hin.
    unfold_m. intros [= <- <-]. simpl.
    repeat split; try assumption; contradiction.
  - apply bool_decide_eq_false in Hin.
    unfold bind at 1. unfold print_info, emit, modify. unfold bind at 1.
    destruct (_get_passphrase use_passphrase _) as [[passphrase|e] w1] eqn:Hpass.
    + apply get_passphrase_only_talk in Hpass.
      destruct Hpass as [(K1 & K2 & K3 & K4 & K5) _]. simpl in *.
      intros Hc. apply create_ssh_key_outcome in Hc
        as (C1 & C2 & C3 & _ & C5).
      split; [congruence|]. split; [congruence|]. split; [congruence|].
      destruct r as [[k|]|e].
      * destruct C5 as (-> & Ck & Cc). split; [reflexivity|].
        split; [rewrite Ck; do 2 apply elem_of_union_l;
                apply elem_of_singleton; reflexivity|].
        split; [intros Hn; contradiction|]. intros _.
        rewrite Ck, Cc, K1, K2. split; reflexivity.
      * destruct C5 as [Ck Cc]. split; congruence.
      * contradiction.
    + apply get_passphrase_only_talk in Hpass.
      destruct Hpass as [(K1 & K2 & K3 & K4 & K5) _]. simpl in *.
      intros [= <- <-]. repeat split; assumption.
Qed.

Lemma create_ssh_key_ran env key_file email passphrase username w k w' :
  _create_ssh_key env key_file email passphrase username w = (Ok (Some k), w') →
  ∃ out err, ssh_keygen env = Completed 0 out err.
Proof.
  unfold _create_ssh_key, _set_ssh_key_permissions, update_ssh_config.
  unfold_m. simpl.
  destruct (ssh_keygen env) as [rc out err|msg]; simpl; [|discriminate].
  destruct (bool_decide (rc ≠ 0%Z)) eqn:Hrc; simpl; [discriminate|].
  apply bool_decide_eq_false in Hrc.
  assert (rc = 0%Z) as -> by (destruct (decide (rc = 0%Z)); [assumption|contradiction]).
  eauto.
Qed.

Lemma generate_ssh_key_ran env email username use_passphrase w k w' :
  generate_ssh_key env email username use_passphrase w = (Ok (Some k), w') →
  key_path env username ∉ key_files w →
  ∃ out err, ssh_keygen env = Completed 0 out err.
Proof.
  unfold generate_ssh_key. fold (key_path env username).
  unfold bind at 1. unfold get. intros H Hin.
  rewrite bool_decide_eq_false_2 in H by exact Hin.
  unfold bind at 1 in H. unfold print_info, emit, modify in H.
  unfold bind at 1 in H.
  destruct (_get_passphrase use_passphrase _) as [[passphrase|e] w1];
    [|discriminate].
  eapply create_ssh_key_ran. exact H.
Qed.

(** X14: [generate_ssh_key] never touches the store of profiles or the Git
    configuration. A path it returns is SSH_DIR/id_rsa_<name>, and that key
    file exists afterwards. When [ssh-keygen] cannot be started or ends
    with a status other than 0, and when the call raises at a prompt, the
    key files and the SSH configuration are as they were. *)
Theorem generate_ssh_key_all_or_nothing env email username use_passphrase w r w' :
  generate_ssh_key env email username use_passphrase w = (r, w') →
  store_file w' = store_file w ∧ git_global w' = git_global w
  ∧ (∀ k, r = Ok (Some k) → k = key_path env username ∧ k ∈ key_files w')
  ∧ ((∀ out err, ssh_keygen env ≠ Completed 0 out err) →
     key_files w' = key_files w ∧ ssh_config w' = ssh_config w)
  ∧ (∀ e, r = Raise e →
     key_files w' = key_files w ∧ ssh_config w' = ssh_config w).
Proof.
  intros H. pose proof (generate_ssh_key_outcome _ _ _ _ _ _ _ H)
    as (Hs & Hg & _ & Hr).
  split; [exact Hs|]. split; [exact Hg|]. split; [|split].
  - intros k ->. destruct Hr as (Hk & Hin & _). split; assumption.
  - intros Hfail. destruct r as [[k|]|e]; [|exact Hr|exact Hr].
    destruct Hr as (Hk & _ & Hold & _).
    destruct (decide (key_path env username ∈ key_files w)) as [Hin|Hnot].
    + apply Hold. rewrite Hk. exact Hin.
    + destruct (generate_ssh_key_ran _ _ _ _ _ _ _ H Hnot) as (out & err & Hran).
      exfalso. exact (Hfail out err Hran).
  - intros e ->. exact Hr.
Qed.

Lemma generate_ssh_key_all_or_nothing_witness :
  key_files (snd (generate_ssh_key keygen_fails_env "alice@example.com" "alice"
                    true first_run_world)) = ∅
  ∧ ssh_config (snd (generate_ssh_key keygen_fails_env "alice@example.com" "alice"
                       true first_run_world)) = None.
Proof.
  refine (proj1 (proj2 (proj2 (proj2
            (generate_ssh_key_all_or_nothing keygen_fails_env "alice@example.com"
               "alice" true first_run_world _ _ (surjective_pairing _))))) _).
  intros out err. discriminate.
Defined.

(** X15: the stanza of a profile is written by the call that creates the
    key and by no later one. After a call that created the key, a second
    call, in whatever environment with the same key directory, returns the
    same path, runs no tool and leaves every file as it is; so a stanza
    that could not be written the first time is not written later. *)
Theorem generate_ssh_key_once env env2 email username pp pp2 w k w1 :
  is_windows env2 = is_windows env → ssh_dir env2 = ssh_dir env →
  generate_ssh_key env email username pp w = (Ok (Some k), w1) →
  generate_ssh_key env2 email username pp2 w1
  = (Ok (Some k),
     log (EvPrint LvWarning
            ("SSH key for profile '" +:+ username +:+ "' already exists!")) w1)
  ∧ (k ∉ key_files w → ∀ e, write_error env SshConfigFile = Some e →
     ssh_config
       (snd (generate_ssh_key env2 email username pp2 w1)) = ssh_config w).
Proof.
  intros Hw Hd H. apply generate_ssh_key_outcome in H
    as (_ & _ & _ & Hk & Hin & _ & Hnew).
  assert (Hrun : generate_ssh_key env2 email username pp2 w1
    = (Ok (Some k),
       log (EvPrint LvWarning
              ("SSH key for profile '" +:+ username +:+ "' already exists!")) w1)).
  { unfold generate_ssh_key. rewrite Hw, Hd. fold (key_path env username).
    rewrite <- Hk. unfold_m. rewrite bool_decide_eq_true_2 by exact Hin.
    reflexivity. }
  split; [exact Hrun|]. intros Hn e He. rewrite Hrun. simpl.
  destruct (Hnew Hn) as [_ Hc]. rewrite He in Hc. exact Hc.
Qed.

Lemma generate_ssh_key_once_witness :
  ssh_config
    (snd (generate_ssh_key posix_env "alice@example.com" "alice" true
            (snd (generate_ssh_key readonly_env "alice@example.com" "alice" true
                    first_run_world)))) = None.
Proof.
  refine (proj2 (generate_ssh_key_once readonly_env posix_env "alice@example.com"
                   "alice" true true first_run_world "/home/u/.ssh/id_rsa_alice"
                   _ eq_refl eq_refl eq_refl) _ _ eq_refl).
  vm_compute. set_solver.
Defined.

(** ** Creating a profile, step by step *)

Lemma create_profile_outcome env username email w r w' :
  _create_profile env username email w = (r, w') →
  (r ≠ Ok true ∧ store_file w' = store_file w ∧ git_global w' = git_global w)
  ∨ (write_error env StoreFile = None
     ∧ key_path env username ∈ key_files w'
     ∧ store_file w'
       = Doc (<[username := new_profile username email (key_path env username)]>
                (match store_file w with Doc profiles => profiles | _ => ∅ end))
     ∧ ((r = Ok true
         ∧ git_write_ok env "user.name" = true
         ∧ git_write_ok env "user.email" = true
         ∧ git_global w'
           = <["user.email" := email]> (<["user.name" := username]> (git_global w)))
        ∨ (r = Ok false
           ∧ git_write_ok env "user.name" = false
           ∧ git_global w' = git_global w)
        ∨ (r = Ok false
           ∧ git_write_ok env "user.email" = false
           ∧ git_global w' = <["user.name" := username]> (git_global w)))).
Proof.
  unfold _create_profile. unfold bind at 1.
  destruct (generate_ssh_key env email username true w) as [[[k|]|e] w1] eqn:Hgen;
    apply generate_ssh_key_outcome in Hgen as (Hs & Hg & _ & Hr).
  2:{ unfold_m. intros [= <- <-]. left. simpl. split; [discriminate|]. tauto. }
  2:{ intros [= <- <-]. left. split; [discriminate|]. tauto. }
  destruct Hr as (-> & Hin & _).
  destruct (String.eqb _ EmptyString).
  { unfold_m. intros [= <- <-]. left. simpl. split; [discriminate|]. tauto. }
  unfold load_profiles, save_profiles. unfold_m. simpl. rewrite Hs.
  destruct (write_error env StoreFile) as [err|] eqn:Hwrite.
  { destruct (store_file w); simpl; intros [= <- <-]; left; simpl;
      (split; [discriminate|tauto]). }
  assert (Hgo : ∀ w2, key_files w2 = key_files w1 → git_global w2 = git_global w →
    store_file w2
    = Doc (<[username := new_profile username email (key_path env username)]>
             (match store_file w with Doc profiles => profiles | _ => ∅ end)) →
    (let (r0, w3) := set_git_config env username email w2 in
     match r0 with
     | Ok a => (if a
                then fun w4 => (Ok true,
                       log (EvPrint LvSuccess
                              ("Profile '" +:+ username +:+ "' created and activated!")) w4)
                else fun w4 => (Ok false, w4)) w3
     | Raise e => (Raise e, w3)
     end) = (r, w') →
    (r ≠ Ok true ∧ store_file w' = store_file w ∧ git_global w' = git_global w)
    ∨ (None = (None : option string)
       ∧ key_path env username ∈ key_files w'
       ∧ store_file w'
         = Doc (<[username := new_profile username email (key_path env username)]>
                  (match store_file w with Doc profiles => profiles | _ => ∅ end))
       ∧ ((r = Ok true
           ∧ git_write_ok env "user.name" = true
           ∧ git_write_ok env "user.email" = true
           ∧ git_global w'
             = <["user.email" := email]> (<["user.name" := username]> (git_global w)))
          ∨ (r = Ok false
             ∧ git_write_ok env "user.name" = false
             ∧ git_global w' = git_global w)
          ∨ (r = Ok false
             ∧ git_write_ok env "user.email" = false
             ∧ git_global w' = <["user.name" := username]> (git_global w))))).
  { intros w2 Hk2 Hg2 Hs2. rewrite set_git_config_eq.
    destruct (git_write_ok env "user.name") eqn:Hn;
      [destruct (git_write_ok env "user.email") eqn:He|];
      intros [= <- <-]; right; simpl; rewrite Hk2, Hg2;
      (split; [reflexivity|]); (split; [exact Hin|]); (split; [exact Hs2|]).
    - left. repeat split.
    - right. right. repeat split.
    - right. left. repeat split. }
  destruct (store_file w) as [|why|profiles] eqn:Hw; simpl;
    apply Hgo; simpl; try reflexivity; try exact Hg.
Qed.

(** X16: [_create_profile] works in a fixed order and undoes nothing. The
    Git configuration is changed only after the store was written, and the
    store is written only once the key file exists. The store written is
    the one read, or an empty one when the file was missing or could not
    be parsed, with the new profile put under the name; every other
    profile of a readable store stays as it was. *)
Theorem create_profile_in_order env username email w r w' :
  _create_profile env username email w = (r, w') →
  (git_global w' ≠ git_global w →
   ∃ profiles,
     store_file w' = Doc profiles
     ∧ profiles !! username
       = Some (new_profile username email (key_path env username)))
  ∧ (store_file w' ≠ store_file w →
     key_path env username ∈ key_files w'
     ∧ ∃ profiles,
         store_file w' = Doc profiles
         ∧ profiles !! username
           = Some (new_profile username email (key_path env username))
         ∧ ∀ other, other ≠ username →
             profiles !! other
             = match store_file w with
               | Doc before => before !! other
               | _ => None
               end)
  ∧ (r = Ok true →
     store_file w' ≠ Absent
     ∧ key_path env username ∈ key_files w'
     ∧ git_global w' !! "user.name" = Some username
     ∧ git_global w' !! "user.email" = Some email).
Proof.
  intros H. apply create_profile_outcome in H as [(Hr & Hs & Hg)|(_ & Hk & Hs & Hg)].
  - split; [intros Hne; contradiction|]. split; [intros Hne; contradiction|].
    intros ->. exfalso. apply Hr. reflexivity.
  - split.
    { intros _. eexists. split; [exact Hs|]. apply lookup_insert_eq. }
    split.
    { intros _. split; [exact Hk|]. eexists. split; [exact Hs|].
      split; [apply lookup_insert_eq|].
      intros other Hother. rewrite lookup_insert_ne by congruence.
      destruct (store_file w); try reflexivity; apply lookup_empty. }
    intros ->. destruct Hg as [(_ & _ & _ & Hg)|[(Hr & _)|(Hr & _)]];
      try discriminate.
    rewrite Hs, Hg. split; [discriminate|]. split; [exact Hk|].
    split; [|apply lookup_insert_eq].
    rewrite lookup_insert_ne by discriminate. apply lookup_insert_eq.
Qed.

Lemma create_profile_in_order_witness :
  key_path posix_env "alice" ∈ key_files after_first_run
  ∧ git_global after_first_run !! "user.name" = Some "alice".
Proof.
  assert (Hrun : _create_profile posix_env "alice" "alice@example.com"
                   first_run_world = (Ok true, after_first_run)).
  { unfold after_first_run.
    rewrite (surjective_pairing (_create_profile _ _ _ _)) at 1.
    f_equal. }
  destruct (proj2 (proj2 (create_profile_in_order posix_env "alice"
                            "alice@example.com" first_run_world (Ok true)
                            after_first_run Hrun)) eq_refl)
    as (_ & Hk & Hn & _).
  split; assumption.
Defined.

Lemma key_path_nonempty env username :
  validate_username username = true → key_path env username ≠ EmptyString.
Proof.
  intros H Hk. unfold key_path in Hk.
  rewrite key_path_of_valid_name in Hk by exact H.
  apply (f_equal String.length) in Hk. rewrite !append_length in Hk.
  simpl in Hk. destruct (is_windows env); simpl in Hk; lia.
Qed.

Lemma generate_ssh_key_fresh env email username w line rest out err :
  key_path env username ∉ key_files w →
  ssh_keygen env = Completed 0 out err →
  stdin w = line :: rest →
  String.eqb (PyStr.lower (PyStr.strip line)) "y" = false →
  ∃ w1, generate_ssh_key env email username true w
        = (Ok (Some (key_path env username)), w1).
Proof.
  intros Hin Hgen Hstdin Hy.
  unfold generate_ssh_key. fold (key_path env username). unfold_m.
  rewrite bool_decide_eq_false_2 by exact Hin.
  unfold _get_passphrase, input. unfold_m. simpl. rewrite Hstdin. simpl.
  rewrite Hy.
  unfold _create_ssh_key, _set_ssh_key_permissions, update_ssh_config.
  unfold_m. simpl. rewrite Hgen. simpl.
  destruct (is_windows env); simpl;
    destruct (write_error env SshConfigFile); simpl; eexists; reflexivity.
Qed.

(** X17: a creation that fails undoes nothing. When the key is generated
    and the store cannot be written, [_create_profile] returns False with
    no profile stored and the Git configuration as it was, and the two key
    files it generated stay on disk. *)
Theorem create_profile_no_rollback env username email w line rest out err why :
  validate_username username = true →
  key_path env username ∉ key_files w →
  ssh_keygen env = Completed 0 out err →
  stdin w = line :: rest →
  String.eqb (PyStr.lower (PyStr.strip line)) "y" = false →
  write_error env StoreFile = Some why →
  ∃ w', _create_profile env username email w = (Ok false, w')
        ∧ store_file w' = store_file w
        ∧ git_global w' = git_global w
        ∧ key_files w'
          = {[key_path env username]} ∪ {[key_path env username +:+ ".pub"]}
            ∪ key_files w.
Proof.
  intros Hvalid Hin Hgen Hstdin Hy Hwrite.
  destruct (generate_ssh_key_fresh env email username w line rest out err
              Hin Hgen Hstdin Hy) as [w1 Hrun].
  pose proof (generate_ssh_key_outcome _ _ _ _ _ _ _ Hrun)
    as (Hs & Hg & _ & _ & _ & _ & Hnew).
  destruct (Hnew Hin) as [Hk _].
  unfold _create_profile. unfold bind at 1. rewrite Hrun.
  rewrite (proj2 (String.eqb_neq _ _) (key_path_nonempty env username Hvalid)).
  unfold load_profiles, save_profiles. unfold_m. simpl. rewrite Hwrite.
  destruct (store_file w1) eqn:Hs1; simpl; eexists;
    (split; [reflexivity|]); simpl; rewrite <- ?Hs, ?Hs1; repeat split;
    assumption.
Qed.

Lemma create_profile_no_rollback_witness :
  ∃ w', _create_profile readonly_env "alice" "alice@example.com" first_run_world
        = (Ok false, w')
        ∧ store_file w' = store_file first_run_world
        ∧ git_global w' = git_global first_run_world
        ∧ key_files w'
          = {[key_path readonly_env "alice"]}
            ∪ {[key_path readonly_env "alice" +:+ ".pub"]}
            ∪ key_files first_run_world.
Proof.
  apply (create_profile_no_rollback readonly_env "alice" "alice@example.com"
           first_run_world "n" [] EmptyString EmptyString "Permission denied");
    try reflexivity.
  vm_compute. set_solver.
Defined.

(** ** The connection test and the known hosts *)

Lemma load_profiles_eq w :
  load_profiles w
  = match store_file w with
    | Absent => (Ok ∅, w)
    | Corrupt why =>
        (Ok ∅, log (EvPrint LvError ("Error loading profiles: " +:+ why)) w)
    | Doc profiles => (Ok profiles, w)
    end.
Proof.
  unfold load_profiles. unfold_m. destruct (store_file w); reflexivity.
Qed.

Lemma bind_run {A B} (m : M A) (k : A → M B) w :
  bind m k w
  = match m w with
    | (Ok a, w') => k a w'
    | (Raise e, w') => (Raise e, w')
    end.
Proof. reflexivity. Qed.

Lemma catch_all_ok {A} (m : M A) (handler : exn → M A) w :
  (∀ e w1, ∃ a, fst (handler e w1) = Ok a) →
  ∃ a, fst (catch m handler w) = Ok a.
Proof.
  intros H. unfold catch. destruct (m w) as [[a|e] w1]; [eexists; reflexivity|].
  apply H.
Qed.

Lemma test_github_connection_from env username (found : option profile) w0 :
  (∃ b, fst (match found with
             | None =>
                 print_error ("Profile '" +:+ username +:+ "' not found!") ;;;
                 ret false
             | Some p =>
                 if negb (bool_decide (is_Some (p !! "ssh_key")))
                 then print_error ("Profile '" +:+ username +:+ "' has no SSH key!") ;;;
                      ret false
                 else
                   print_info ("Testing GitHub connection for profile '"
                               +:+ username +:+ "'...") ;;;
                   catch (add_github_to_known_hosts env ;;;
                          _perform_ssh_test env username p)
                         (fun e => match e with
                                   | TimeoutExpired =>
                                       print_error "Connection timeout! Check your internet connection." ;;;
                                       ret false
                                   | _ =>
                                       print_error ("Error testing connection: "
                                                    +:+ str_exn e) ;;;
                                       ret false
                                   end)
             end w0) = Ok b)
  ∧ (match found with Some p => p !! "ssh_key" | None => None end = None →
     ∃ msg, match found with
            | None =>
                print_error ("Profile '" +:+ username +:+ "' not found!") ;;;
                ret false
            | Some p =>
                if negb (bool_decide (is_Some (p !! "ssh_key")))
                then print_error ("Profile '" +:+ username +:+ "' has no SSH key!") ;;;
                     ret false
                else
                  print_info ("Testing GitHub connection for profile '"
                              +:+ username +:+ "'...") ;;;
                  catch (add_github_to_known_hosts env ;;;
                         _perform_ssh_test env username p)
                        (fun e => match e with
                                  | TimeoutExpired =>
                                      print_error "Connection timeout! Check your internet connection." ;;;
                                      ret false
                                  | _ =>
                                      print_error ("Error testing connection: "
                                                   +:+ str_exn e) ;;;
                                      ret false
                                  end)
            end w0 = (Ok false, log (EvPrint LvError msg) w0)).
Proof.
  destruct found as [p|].
  - destruct (p !! "ssh_key") as [k|] eqn:Hk.
    + rewrite bool_decide_eq_true_2 by eauto. simpl. split; [|discriminate].
      unfold bind at 1. unfold print_info, emit, modify.
      apply catch_all_ok. intros e w1.
      destruct e; unfold_m; eexists; reflexivity.
    + rewrite bool_decide_eq_false_2 by (intros [x Hx]; discriminate). simpl.
      unfold_m. split; eexists; reflexivity.
  - unfold_m. split; eexists; reflexivity.
Qed.

Lemma test_github_connection_cases env username w :
  (∃ b, fst (test_github_connection env username w) = Ok b)
  ∧ (stored_key w username = None →
     fst (test_github_connection env username w) = Ok false
     ∧ only_talk w (snd (test_github_connection env username w))).
Proof.
  unfold stored_key, test_github_connection.
  rewrite (bind_run load_profiles), load_profiles_eq.
  destruct (store_file w) as [|why|profiles] eqn:Hs.
  - rewrite lookup_empty. cbv beta iota.
    destruct (test_github_connection_from env username None w) as [A B].
    split; [exact A|]. intros _. destruct (B eq_refl) as [msg ->].
    split; [reflexivity|]. apply only_talk_log. reflexivity.
  - rewrite lookup_empty. cbv beta iota.
    destruct (test_github_connection_from env username None
                (log (EvPrint LvError ("Error loading profiles: " +:+ why)) w))
      as [A B].
    split; [exact A|]. intros _. destruct (B eq_refl) as [msg ->].
    split; [reflexivity|].
    eapply only_talk_trans; apply only_talk_log; reflexivity.
  - cbv beta iota.
    destruct (test_github_connection_from env username (profiles !! username) w)
      as [A B].
    split; [exact A|]. intros Hnone. destruct (B Hnone) as [msg ->].
    split; [reflexivity|]. apply only_talk_log. reflexivity.
Qed.

(** X18: [test_github_connection] never raises: whatever the probe, the
    key scan and the fields of the profile are, it returns a boolean. For
    a name the store does not hold, or a profile without a key, it
    returns False and has only printed: no tool has run and no file has
    changed. *)
Theorem test_github_connection_safe env username w :
  (∃ b, fst (test_github_connection env username w) = Ok b)
  ∧ (stored_key w username = None →
     fst (test_github_connection env username w) = Ok false
     ∧ only_talk w (snd (test_github_connection env username w))).
Proof. apply test_github_connection_cases. Qed.

Lemma test_github_connection_safe_witness :
  fst (test_github_connection posix_env "ghost" alice_active_world) = Ok false
  ∧ only_talk alice_active_world
      (snd (test_github_connection posix_env "ghost" alice_active_world)).
Proof.
  exact (proj2 (test_github_connection_safe posix_env "ghost" alice_active_world)
           eq_refl).
Defined.

Lemma add_github_to_known_hosts_eq env w :
  add_github_to_known_hosts env w
  = if match known_hosts w with
       | Some content => PyStr.contains "github.com" content
       | None => false
       end
    then (Ok tt, w)
    else
      let w1 := log (EvRun ["ssh-keyscan"; "-t"; "rsa"; "github.com"] None) w in
      match ssh_keyscan env with
      | Completed rc out _ =>
          if bool_decide (rc = 0%Z) && negb (String.eqb out EmptyString)
          then match write_error env KnownHostsFile with
               | None =>
                   (Ok tt,
                    set_known_hosts
                      (Some (default EmptyString (known_hosts w) +:+ out))
                      (log (EvAppend KnownHostsFile) w1))
               | Some _ => (Ok tt, w1)
               end
          else (Ok tt, w1)
      | OSError _ => (Ok tt, w1)
      end.
Proof.
  unfold add_github_to_known_hosts, _is_github_in_known_hosts,
    _add_github_host_key.
  unfold_m. simpl.
  destruct (known_hosts w) as [content|] eqn:Hk; simpl.
  - destruct (PyStr.contains "github.com" content); simpl; [reflexivity|].
    destruct (ssh_keyscan env) as [rc out err|msg]; simpl; [|reflexivity].
    destruct (bool_decide (rc = 0%Z) && negb (String.eqb out EmptyString));
      [|reflexivity].
    destruct (write_error env KnownHostsFile); simpl; rewrite ?Hk; reflexivity.
  - destruct (ssh_keyscan env) as [rc out err|msg]; simpl; [|reflexivity].
    destruct (bool_decide (rc = 0%Z) && negb (String.eqb out EmptyString));
      [|reflexivity].
    destruct (write_error env KnownHostsFile); simpl; rewrite ?Hk; reflexivity.
Qed.

(** X19: [add_github_to_known_hosts] only ever appends: the text of
    [known_hosts] before the call is the beginning of the text after it.
    When the text github.com occurs anywhere in the file, be it inside
    the name of another host, the call does nothing at all. After a scan
    that succeeded, with github.com in its output and the file writable,
    a second call does nothing: the host key is added once. *)
Theorem add_github_to_known_hosts_once env w :
  (∃ added, default EmptyString (known_hosts (snd (add_github_to_known_hosts env w)))
            = default EmptyString (known_hosts w) +:+ added)
  ∧ (∀ content, known_hosts w = Some content →
       PyStr.contains "github.com" content = true →
       add_github_to_known_hosts env w = (Ok tt, w))
  ∧ (∀ out err, ssh_keyscan env = Completed 0 out err →
       PyStr.contains "github.com" out = true →
       write_error env KnownHostsFile = None →
       add_github_to_known_hosts env (snd (add_github_to_known_hosts env w))
       = (Ok tt, snd (add_github_to_known_hosts env w))).
Proof.
  split; [|split].
  - rewrite add_github_to_known_hosts_eq.
    destruct (match known_hosts w with
              | Some content => PyStr.contains "github.com" content
              | None => false
              end).
    { exists EmptyString. rewrite append_empty_r. reflexivity. }
    cbv zeta.
    destruct (ssh_keyscan env) as [rc out err|msg].
    2:{ exists EmptyString. rewrite append_empty_r. reflexivity. }
    destruct (bool_decide (rc = 0%Z) && negb (String.eqb out EmptyString)).
    2:{ exists EmptyString. rewrite append_empty_r. reflexivity. }
    destruct (write_error env KnownHostsFile).
    { exists EmptyString. rewrite append_empty_r. reflexivity. }
    exists out. reflexivity.
  - intros content Hk Hin. rewrite add_github_to_known_hosts_eq, Hk, Hin.
    reflexivity.
  - intros out err Hscan Hin Hwrite.
    assert (Hout : String.eqb out EmptyString = false).
    { destruct out; [discriminate|reflexivity]. }
    assert (Hknown : match known_hosts (snd (add_github_to_known_hosts env w)) with
                     | Some content => PyStr.contains "github.com" content
                     | None => false
                     end = true).
    { rewrite add_github_to_known_hosts_eq.
      destruct (match known_hosts w with
                | Some content => PyStr.contains "github.com" content
                | None => false
                end) eqn:Hw; [exact Hw|].
      cbv zeta. rewrite Hscan, Hout, Hwrite. simpl.
      apply contains_app_r. exact Hin. }
    rewrite (add_github_to_known_hosts_eq env (snd _)), Hknown. reflexivity.
Qed.

Lemma add_github_to_known_hosts_once_witness :
  add_github_to_known_hosts posix_env gist_hosts_world = (Ok tt, gist_hosts_world).
Proof.
  exact (proj1 (proj2 (add_github_to_known_hosts_once posix_env gist_hosts_world))
           "gist.github.com ssh-rsa AAAA" eq_refl eq_refl).
Defined.

(** ** What the prompts return *)

(** X20: whatever is typed, [_get_valid_username] only prompts and prints.
    A name it returns is a name of the grammar, one to 39 letters, digits
    and hyphens that begins and ends with a letter or digit, with no line
    feed at its end, and the store read at the start does not hold it. *)
Theorem get_valid_username_result w u w' :
  _get_valid_username w = (Ok u, w') →
  only_talk w w'
  ∧ username_grammar u = true
  ∧ validate_username u = true
  ∧ occurs PyStr.LF u = false
  ∧ stored_key w u = None
  ∧ ∀ profiles : store, store_file w = Doc profiles → profiles !! u = None.
Proof.
  unfold _get_valid_username. unfold bind, get. intros H.
  apply get_valid_username_loop_talks in H as [Htalk Hres].
  destruct (Hres u eq_refl) as [Hg Hstore].
  split; [exact Htalk|]. split; [exact Hg|].
  assert (Hnl : occurs PyStr.LF u = false).
  { apply username_grammar_occurs; [exact Hg|reflexivity]. }
  split; [apply validate_username_spec; left; exact Hg|].
  split; [exact Hnl|]. split; [|exact Hstore].
  unfold stored_key. destruct (store_file w) as [| |profiles]; try reflexivity.
  rewrite (Hstore profiles eq_refl). reflexivity.
Qed.

Lemma get_valid_username_result_witness :
  username_grammar "bob" = true ∧ stored_key alice_again_world "bob" = None.
Proof.
  assert (Hrun : _get_valid_username alice_again_world
                 = (Ok "bob", snd (_get_valid_username alice_again_world))).
  { rewrite (surjective_pairing (_get_valid_username _)) at 1. reflexivity. }
  destruct (get_valid_username_result alice_again_world "bob" _ Hrun)
    as (_ & Hg & _ & _ & Hk & _).
  split; assumption.
Defined.

Lemma get_valid_email_loop_talks pending w r w' :
  _get_valid_email_loop pending w = (r, w') →
  only_talk w w'
  ∧ ∀ email, r = Ok email →
      validate_email email = true ∧ ∃ line, email = PyStr.strip line.
Proof.
  revert w. induction pending as [|first pending IH]; intros w H.
  - simpl in H. unfold bind, raise in H.
    destruct (input _ w) as [[line|e] w1] eqn:Hin; injection H as <- <-;
      (split; [eapply input_only_talk; exact Hin|discriminate]).
  - simpl in H. unfold bind at 1 in H.
    destruct (input _ w) as [[line|e] w1] eqn:Hin.
    2:{ injection H as <- <-.
        split; [eapply input_only_talk; exact Hin|discriminate]. }
    pose proof (input_only_talk _ _ _ _ Hin) as Htalk1.
    destruct (String.eqb (PyStr.strip line) EmptyString) eqn:Hempty.
    { unfold print_error, emit, modify, bind in H.
      apply IH in H as [Htalk Hres]. split; [|exact Hres].
      eapply only_talk_trans; [exact Htalk1|].
      eapply only_talk_trans; [|exact Htalk]. apply only_talk_log. reflexivity. }
    destruct (validate_email (PyStr.strip line)) eqn:Hvalid; simpl in H.
    2:{ unfold print_error, emit, modify, bind in H.
        apply IH in H as [Htalk Hres]. split; [|exact Hres].
        eapply only_talk_trans; [exact Htalk1|].
        eapply only_talk_trans; [|exact Htalk]. apply only_talk_log. reflexivity. }
    unfold ret in H. injection H as <- <-. split; [exact Htalk1|].
    intros email [= <-]. split; [exact Hvalid|]. exists line. reflexivity.
Qed.

(** X21: whatever is typed, [_get_valid_email] only prompts and prints. An
    address it returns is accepted by the validator and has exactly the
    shape local@domain.tld, with no line feed at its end: the prompt
    strips what is typed before it validates. *)
Theorem get_valid_email_result w email w' :
  _get_valid_email w = (Ok email, w') →
  only_talk w w'
  ∧ validate_email email = true
  ∧ ∃ local domain tld,
      email_parts local domain tld
      ∧ email = local +:+ "@" +:+ domain +:+ "." +:+ tld.
Proof.
  unfold _get_valid_email. unfold bind, get. intros H.
  apply get_valid_email_loop_talks in H as [Htalk Hres].
  destruct (Hres email eq_refl) as [Hvalid [line Hline]].
  split; [exact Htalk|]. split; [exact Hvalid|].
  apply validate_email_shape in Hvalid
    as (local & domain & tld & Hparts & [Heq|Heq]); [eauto|].
  exfalso. rewrite Hline in Heq. unfold PyStr.strip, PyStr.nl in Heq.
  apply rstrip_last in Heq. discriminate.
Qed.

Lemma get_valid_email_result_witness :
  validate_email "alice@example.com" = true.
Proof.
  assert (Hrun : _get_valid_email
                   (set_stdin ["not an address"; " alice@example.com "] empty_world)
                 = (Ok "alice@example.com",
                    snd (_get_valid_email
                           (set_stdin ["not an address"; " alice@example.com "]
                              empty_world)))).
  { rewrite (surjective_pairing (_get_valid_email _)) at 1. reflexivity. }
  exact (proj1 (proj2 (get_valid_email_result _ "alice@example.com" _ Hrun))).
Defined.

(** ** The flows of the menu *)

Lemma bind_ok {A B} (m : M A) (k : A → M B) w a w1 :
  m w = (Ok a, w1) → bind m k w = k a w1.
Proof. intros H. unfold bind. rewrite H. reflexivity. Qed.

Lemma bind_raise {A B} (m : M A) (k : A → M B) w e w1 :
  m w = (Raise e, w1) → bind m k w = (Raise e, w1).
Proof. intros H. unfold bind. rewrite H. reflexivity. Qed.

Lemma quiet_refl w : quiet w w.
Proof. split; [apply only_talk_refl|reflexivity]. Qed.

Lemma quiet_trans w1 w2 w3 : quiet w1 w2 → quiet w2 w3 → quiet w1 w3.
Proof.
  intros [H1 S1] [H2 S2]. split; [eapply only_talk_trans; eassumption|congruence].
Qed.

Lemma quiet_log e w : talk e = true → quiet w (log e w).
Proof. intros H. split; [apply only_talk_log; exact H|reflexivity]. Qed.

Ltac quiet_logs :=
  repeat first [apply quiet_refl
               |eapply quiet_trans; [|apply quiet_log; reflexivity]].

Ltac talks :=
  repeat first [apply only_talk_refl
               |eassumption
               |eapply only_talk_trans;
                [|first [apply only_talk_log; reflexivity
                        |apply only_talk_set_stdin]]].

Lemma print_names_quiet names w :
  ∃ w', print_names names w = (Ok tt, w') ∧ quiet w w'.
Proof.
  revert w. induction names as [|username rest IH]; intros w.
  - exists w. split; [reflexivity|apply quiet_refl].
  - destruct (IH (log (EvPrint LvPlain username) w)) as (w' & Hrun & Hq).
    exists w'. split; [exact Hrun|].
    eapply quiet_trans; [|exact Hq]. apply quiet_log. reflexivity.
Qed.

Lemma list_available_profiles_quiet dict_items profiles w :
  ∃ w', _list_available_profiles dict_items profiles w = (Ok tt, w') ∧ quiet w w'.
Proof.
  unfold _list_available_profiles.
  destruct (print_names_quiet (map fst (dict_items profiles))
              (log (EvPrint LvPlain "Available profiles:") w)) as (w' & Hrun & Hq).
  exists w'. split; [exact Hrun|].
  eapply quiet_trans; [|exact Hq]. apply quiet_log. reflexivity.
Qed.

Lemma show_deletion_preview_quiet username (p : profile) w :
  ∃ r w', _show_deletion_preview username p w = (r, w') ∧ quiet w w'
          ∧ (is_Some (p !! "name") → is_Some (p !! "email") → r = Ok tt).
Proof.
  unfold _show_deletion_preview. unfold_m.
  destruct (p !! "name") as [name|]; simpl.
  2:{ eexists _, _. split; [reflexivity|]. split; [quiet_logs|].
      intros [x Hx]. discriminate. }
  destruct (p !! "email") as [email|]; simpl.
  2:{ eexists _, _. split; [reflexivity|]. split; [quiet_logs|].
      intros _ [x Hx]. discriminate. }
  destruct (p !! "ssh_key") as [k|]; simpl;
    (eexists _, _; split; [reflexivity|]; split; [quiet_logs|reflexivity]).
Qed.

Lemma confirm_permanent_removal_spec username w r w' :
  _confirm_permanent_removal username w = (r, w') →
  only_talk w w'
  ∧ (r = Ok true →
     ∃ confirm1 confirm2 rest,
       stdin w = confirm1 :: confirm2 :: rest
       ∧ PyStr.strip confirm1 = "DELETE"
       ∧ PyStr.lower (PyStr.strip confirm2) = "yes").
Proof.
  unfold _confirm_permanent_removal, input. unfold_m. simpl.
  destruct (stdin w) as [|confirm1 rest1] eqn:Hstdin; simpl.
  { intros [= <- <-]. split; [talks|discriminate]. }
  destruct (String.eqb_spec (PyStr.strip confirm1) "DELETE") as [Hd|Hd]; simpl.
  2:{ intros [= <- <-]. split; [talks|discriminate]. }
  destruct rest1 as [|confirm2 rest]; simpl.
  { intros [= <- <-]. split; [talks|discriminate]. }
  destruct (String.eqb_spec (PyStr.lower (PyStr.strip confirm2)) "yes") as [Hy|Hy];
    simpl.
  2:{ intros [= <- <-]. split; [talks|discriminate]. }
  intros [= <- <-]. split; [talks|]. intros _. eauto 6.
Qed.

Lemma confirm_permanent_removal_yes username w confirm1 confirm2 rest :
  stdin w = confirm1 :: confirm2 :: rest →
  PyStr.strip confirm1 = "DELETE" →
  PyStr.lower (PyStr.strip confirm2) = "yes" →
  ∃ w', _confirm_permanent_removal username w = (Ok true, w') ∧ only_talk w w'.
Proof.
  intros Hstdin Hd Hy.
  unfold _confirm_permanent_removal, input. unfold_m. simpl.
  rewrite Hstdin. simpl. rewrite Hd. simpl. rewrite Hy. simpl.
  eexists. split; [reflexivity|]. talks.
Qed.

Lemma remove_profile_steps env dict_items w r w' :
  remove_profile env dict_items w = (r, w') →
  only_talk w w'
  ∨ ∃ (profiles : store) name_line confirm1 confirm2 rest (p : profile) w0,
      store_file w = Doc profiles
      ∧ stdin w = name_line :: confirm1 :: confirm2 :: rest
      ∧ profiles !! PyStr.strip name_line = Some p
      ∧ PyStr.strip confirm1 = "DELETE"
      ∧ PyStr.lower (PyStr.strip confirm2) = "yes"
      ∧ only_talk w w0
      ∧ _perform_complete_profile_removal env (PyStr.strip name_line) p profiles w0
        = (r, w').
Proof.
  intros H. unfold remove_profile in H.
  rewrite bind_run, load_profiles_eq in H.
  destruct (store_file w) as [|why|profiles] eqn:Hs.
  { rewrite bool_decide_eq_true_2 in H by reflexivity.
    unfold_m. injection H as <- <-. left. talks. }
  { rewrite bool_decide_eq_true_2 in H by reflexivity.
    unfold_m. injection H as <- <-. left. talks. }
  destruct (bool_decide (profiles = ∅)).
  { unfold_m. injection H as <- <-. left. talks. }
  unfold print_header in H.
  rewrite (bind_ok _ _ w tt (log (EvPrint LvPlain
             (PyStr.nl +:+ "=== " +:+ "Remove Git Profile" +:+ " ===")) w))
    in H by reflexivity.
  destruct (list_available_profiles_quiet dict_items profiles
              (log (EvPrint LvPlain
                      (PyStr.nl +:+ "=== " +:+ "Remove Git Profile" +:+ " ===")) w))
    as (w1 & Hlist & [Ht1 Hin1]).
  rewrite (bind_ok _ _ _ _ _ Hlist) in H. simpl in Hin1.
  assert (Htalk1 : only_talk w w1).
  { eapply only_talk_trans; [|exact Ht1]. apply only_talk_log. reflexivity. }
  clear Ht1 Hlist.
  destruct (stdin w) as [|name_line rest0] eqn:Hstdin.
  { rewrite (bind_raise _ _ w1 EOFError
               (log (EvPrompt (PyStr.nl +:+ "Enter profile name to PERMANENTLY DELETE: "))
                  w1)) in H
      by (unfold input; rewrite Hin1; reflexivity).
    injection H as <- <-. left. talks. }
  rewrite (bind_ok _ _ w1 name_line
             (set_stdin rest0
                (log (EvPrompt (PyStr.nl +:+ "Enter profile name to PERMANENTLY DELETE: "))
                   w1))) in H
    by (unfold input; rewrite Hin1; reflexivity).
  cbv zeta in H. unfold _validate_profile_for_removal in H.
  destruct (profiles !! PyStr.strip name_line) as [p|] eqn:Hp.
  2:{ rewrite bool_decide_eq_false_2 in H by (intros [x Hx]; discriminate).
      unfold_m. simpl in H. injection H as <- <-. left. talks. }
  rewrite bool_decide_eq_true_2 in H by eauto.
  rewrite (bind_ok _ _ _ true _ eq_refl) in H. cbn [negb] in H. cbv iota in H.
  rewrite (bind_ok _ _ _ p _) in H by (unfold getitem; rewrite Hp; reflexivity).
  match type of H with
  | context [_show_deletion_preview ?u ?q] =>
      destruct (show_deletion_preview_quiet u q
                  (set_stdin rest0
                     (log (EvPrompt (PyStr.nl
                                     +:+ "Enter profile name to PERMANENTLY DELETE: "))
                        w1)))
        as (r2 & w2 & Hprev & [Ht2 Hin2] & _)
  end.
  simpl in Hin2.
  assert (Htalk2 : only_talk w w2).
  { eapply only_talk_trans; [|exact Ht2]. talks. }
  destruct r2 as [[]|e2].
  2:{ rewrite (bind_raise _ _ _ _ _ Hprev) in H. injection H as <- <-.
      left. exact Htalk2. }
  rewrite (bind_ok _ _ _ _ _ Hprev) in H.
  destruct (_confirm_permanent_removal (PyStr.strip name_line) w2)
    as [rc w3] eqn:Hc.
  pose proof (confirm_permanent_removal_spec _ _ _ _ Hc) as [Ht3 Hres].
  assert (Htalk3 : only_talk w w3).
  { eapply only_talk_trans; [exact Htalk2|exact Ht3]. }
  destruct rc as [[|]|e3].
  - rewrite (bind_ok _ _ _ _ _ Hc) in H. cbn [negb] in H. cbv iota in H.
    destruct (Hres eq_refl) as (confirm1 & confirm2 & rest & Hst & Hd & Hy).
    right. exists profiles, name_line, confirm1, confirm2, rest, p, w3.
    rewrite Hin2 in Hst. rewrite Hst.
    split; [reflexivity|]. split; [reflexivity|]. split; [exact Hp|].
    split; [exact Hd|]. split; [exact Hy|]. split; [exact Htalk3|exact H].
  - rewrite (bind_ok _ _ _ _ _ Hc) in H. cbn [negb] in H. cbv iota in H.
    unfold ret in H. injection H as <- <-. left. exact Htalk3.
  - rewrite (bind_raise _ _ _ _ _ Hc) in H. injection H as <- <-.
    left. exact Htalk3.
Qed.

(** X22: [remove_profile] deletes nothing without both confirmations.
    Whatever is typed, either the call has only printed and prompted, with
    every file and the Git configuration as before and no tool run, or the
    name typed is a profile of the store, the next line typed is DELETE in
    capitals and the one after it is yes in any case, each up to blanks
    around it. *)
Theorem remove_profile_needs_confirmation env dict_items w r w' :
  remove_profile env dict_items w = (r, w') →
  only_talk w w'
  ∨ ∃ (profiles : store) name_line confirm1 confirm2 rest,
      store_file w = Doc profiles
      ∧ stdin w = name_line :: confirm1 :: confirm2 :: rest
      ∧ is_Some (profiles !! PyStr.strip name_line)
      ∧ PyStr.strip confirm1 = "DELETE"
      ∧ PyStr.lower (PyStr.strip confirm2) = "yes".
Proof.
  intros H. apply remove_profile_steps in H
    as [H|(profiles & name_line & c1 & c2 & rest & p & w0 & H)]; [left; exact H|].
  right. exists profiles, name_line, c1, c2, rest.
  destruct H as (Hs & Hin & Hp & Hd & Hy & _). rewrite Hp. eauto 6.
Qed.

Lemma remove_profile_needs_confirmation_witness :
  only_talk keep_alice_world
    (snd (remove_profile posix_env items_of keep_alice_world)).
Proof.
  destruct (remove_profile_needs_confirmation posix_env items_of keep_alice_world
              _ _ (surjective_pairing _))
    as [H|(profiles & n & c1 & c2 & rest & _ & Hin & _ & _ & Hy)].
  - exact H.
  - exfalso. simpl in Hin. injection Hin as <- <- <- <-.
    vm_compute in Hy. discriminate Hy.
Defined.

Lemma cleanup_current_profile_frame env username (p : profile) name email w :
  p !! "name" = Some name →
  p !! "email" = Some email →
  ∃ w', _cleanup_current_profile_with_feedback env username p w = (Ok tt, w')
        ∧ store_file w' = store_file w
        ∧ key_files w' = key_files w
        ∧ ssh_config w' = ssh_config w.
Proof.
  intros Hname Hemail.
  unfold _cleanup_current_profile_with_feedback.
  rewrite bind_run, get_current_git_config_eq.
  destruct (current_identity (git_global w)) as [[n e]|].
  2:{ unfold_m. eexists. repeat split. }
  unfold_m. rewrite Hname. simpl.
  destruct (String.eqb n name); [|eexists; repeat split].
  rewrite Hemail. simpl.
  destruct (String.eqb e email); [|eexists; repeat split].
  unfold _clear_git_global_config, git_config_unset. unfold_m. simpl.
  destruct (git_write_ok env "user.name" && _); simpl; [|eexists; repeat split].
  destruct (git_write_ok env "user.email" && _); simpl; eexists; repeat split.
Qed.

Lemma perform_removal_store env username (p : profile) (profiles : store)
    name email w :
  profiles !! username = Some p →
  p !! "name" = Some name →
  p !! "email" = Some email →
  ∃ w', _perform_complete_profile_removal env username p profiles w = (Ok tt, w')
        ∧ store_file w'
          = match write_error env StoreFile with
            | None => Doc (delete username profiles)
            | Some _ => store_file w
            end
        ∧ key_files w'
          = match p !! "ssh_key" with
            | Some k => unlinked env (k +:+ ".pub") (unlinked env k (key_files w))
            | None => key_files w
            end
        ∧ ssh_config w'
          = match p !! "ssh_key" with
            | Some _ => config_without env username (ssh_config w)
            | None => ssh_config w
            end.
Proof.
  intros Hin Hname Hemail.
  unfold _perform_complete_profile_removal.
  rewrite (bind_ok _ _ w tt
             (log (EvPrint LvPlain (PyStr.nl +:+ "Removing profile '" +:+ username
                                    +:+ "'...")) w)) by reflexivity.
  destruct (cleanup_current_profile_frame env username p name email
              (log (EvPrint LvPlain (PyStr.nl +:+ "Removing profile '" +:+ username
                                     +:+ "'...")) w) Hname Hemail)
    as (w1 & Hrun1 & Hs1 & Hk1 & Hc1).
  rewrite (bind_ok _ _ _ _ _ Hrun1).
  destruct (cleanup_ssh_files_spec env username p w1)
    as (w2 & delta & Hrun2 & _ & Hs2 & _ & Hfiles).
  rewrite (bind_ok _ _ _ _ _ Hrun2).
  rewrite (bind_ok _ _ w2 p w2) by (unfold getitem; rewrite Hin; reflexivity).
  simpl in Hs1, Hk1, Hc1.
  assert (Hfiles' :
    key_files w2
    = match p !! "ssh_key" with
      | Some k => unlinked env (k +:+ ".pub") (unlinked env k (key_files w))
      | None => key_files w
      end
    ∧ ssh_config w2
      = match p !! "ssh_key" with
        | Some _ => config_without env username (ssh_config w)
        | None => ssh_config w
        end).
  { destruct (p !! "ssh_key"); destruct Hfiles as (A & B & _);
      rewrite A, B, Hk1, Hc1; split; reflexivity. }
  destruct Hfiles' as [Hk2 Hc2].
  unfold save_profiles. unfold_m.
  destruct (write_error env StoreFile); simpl; eexists;
    (split; [reflexivity|]); simpl; rewrite ?Hs2, ?Hs1; repeat split; assumption.
Qed.

(** X23: a confirmed removal takes the profile out of the store whatever
    becomes of its files. With a stored name typed, then DELETE, then yes,
    and a profile that has its name and email, [remove_profile] ends
    without an exception; if the store can be written, the store
    afterwards is the one before without that name, also when a key file
    could not be unlinked or the SSH configuration could not be written. *)
Theorem remove_profile_confirmed
    env dict_items w (profiles : store) name_line confirm1 confirm2 rest
    (p : profile) name email :
  store_file w = Doc profiles →
  stdin w = name_line :: confirm1 :: confirm2 :: rest →
  profiles !! PyStr.strip name_line = Some p →
  p !! "name" = Some name →
  p !! "email" = Some email →
  PyStr.strip confirm1 = "DELETE" →
  PyStr.lower (PyStr.strip confirm2) = "yes" →
  ∃ w', remove_profile env dict_items w = (Ok tt, w')
        ∧ store_file w'
          = match write_error env StoreFile with
            | None => Doc (delete (PyStr.strip name_line) profiles)
            | Some _ => Doc profiles
            end
        ∧ key_files w'
          = match p !! "ssh_key" with
            | Some k => unlinked env (k +:+ ".pub") (unlinked env k (key_files w))
            | None => key_files w
            end
        ∧ ssh_config w'
          = match p !! "ssh_key" with
            | Some _ => config_without env (PyStr.strip name_line) (ssh_config w)
            | None => ssh_config w
            end.
Proof.
  intros Hs Hstdin Hp Hname Hemail Hd Hy.
  unfold remove_profile.
  rewrite bind_run, load_profiles_eq, Hs.
  rewrite bool_decide_eq_false_2
    by (intros ->; rewrite lookup_empty in Hp; discriminate).
  unfold print_header.
  rewrite (bind_ok _ _ w tt (log (EvPrint LvPlain
             (PyStr.nl +:+ "=== " +:+ "Remove Git Profile" +:+ " ===")) w))
    by reflexivity.
  destruct (list_available_profiles_quiet dict_items profiles
              (log (EvPrint LvPlain
                      (PyStr.nl +:+ "=== " +:+ "Remove Git Profile" +:+ " ===")) w))
    as (w1 & Hlist & [[F1 _] Hin1]).
  rewrite (bind_ok _ _ _ _ _ Hlist). simpl in Hin1, F1.
  rewrite (bind_ok _ _ w1 name_line
             (set_stdin (confirm1 :: confirm2 :: rest)
                (log (EvPrompt (PyStr.nl +:+ "Enter profile name to PERMANENTLY DELETE: "))
                   w1)))
    by (unfold input; rewrite Hin1, Hstdin; reflexivity).
  cbv zeta. unfold _validate_profile_for_removal.
  rewrite bool_decide_eq_true_2 by eauto.
  rewrite (bind_ok _ _ _ true _ eq_refl). cbn [negb]. cbv iota.
  rewrite (bind_ok _ _ _ p _) by (unfold getitem; rewrite Hp; reflexivity).
  destruct (show_deletion_preview_quiet (PyStr.strip name_line) p
              (set_stdin (confirm1 :: confirm2 :: rest)
                 (log (EvPrompt (PyStr.nl
                                 +:+ "Enter profile name to PERMANENTLY DELETE: "))
                    w1)))
    as (r2 & w2 & Hprev & [[F2 _] Hin2] & Hok).
  rewrite (Hok ltac:(eauto) ltac:(eauto)) in Hprev.
  rewrite (bind_ok _ _ _ _ _ Hprev). simpl in Hin2, F2.
  destruct (confirm_permanent_removal_yes (PyStr.strip name_line) w2
              confirm1 confirm2 rest Hin2 Hd Hy) as (w3 & Hc & [F3 _]).
  rewrite (bind_ok _ _ _ _ _ Hc). cbn [negb]. cbv iota.
  destruct (perform_removal_store env (PyStr.strip name_line) p profiles name email
              w3 Hp Hname Hemail) as (w4 & Hrun & Hs4 & Hk4 & Hc4).
  exists w4. split; [exact Hrun|].
  destruct F1 as (K1 & C1 & _ & S1 & _), F2 as (K2 & C2 & _ & S2 & _),
    F3 as (K3 & C3 & _ & S3 & _).
  simpl in K1, C1, S1, K2, C2, S2.
  assert (EK : key_files w3 = key_files w) by congruence.
  assert (EC : ssh_config w3 = ssh_config w) by congruence.
  assert (ES : store_file w3 = Doc profiles) by congruence.
  rewrite Hs4, Hk4, Hc4, EK, EC, ES.
  destruct (write_error env StoreFile); repeat split.
Qed.

Lemma remove_profile_confirmed_witness :
  ∃ w', remove_profile posix_env items_of delete_alice_world = (Ok tt, w')
        ∧ store_file w' = Doc (delete "alice" alice_store).
Proof.
  destruct (remove_profile_confirmed posix_env items_of delete_alice_world
              alice_store " alice " "DELETE" "Yes" [] alice_profile
              "alice" "alice@example.com"
              eq_refl eq_refl eq_refl eq_refl eq_refl eq_refl eq_refl)
    as (w' & Hrun & Hs & _).
  exists w'. split; [exact Hrun|exact Hs].
Defined.

(** ** The remote of the repository *)

Lemma convert_url_for_profile_quiet url username w r w' :
  _convert_url_for_profile url username w = (r, w') →
  quiet w w' ∧ ∀ w0, fst (_convert_url_for_profile url username w0) = r.
Proof.
  unfold _convert_url_for_profile, _convert_ssh_url, getindex. unfold_m.
  destruct (PyStr.startswith "git@github.com" url).
  - destruct (PyStr.contains "github.com-" url).
    + destruct (PyStr.split "github.com-" url !! 1) as [part|]; cbv beta iota.
      * destruct (PyStr.split ":" part !! 0) as [old|]; cbv beta iota;
          intros [= <- <-]; (split; [apply quiet_refl|reflexivity]).
      * intros [= <- <-]. split; [apply quiet_refl|reflexivity].
    + destruct (PyStr.split "github.com:" url !! 1) as [part|]; cbv beta iota;
        intros [= <- <-]; (split; [apply quiet_refl|reflexivity]).
  - destruct (PyStr.startswith "https://github.com/" url);
      cbv beta iota; intros [= <- <-]; (split; [quiet_logs|reflexivity]).
Qed.

Lemma effects_talk delta : forallb talk delta = true → effects delta = [].
Proof.
  unfold effects. induction delta as [|e delta IH]; [reflexivity|].
  simpl. intros H. apply andb_true_iff in H as [He H].
  rewrite filter_cons_False by (rewrite He; exact id). apply IH. exact H.
Qed.

Lemma update_repository_url_for_profile_run remote username w r w' :
  update_repository_url_for_profile remote username w = (r, w') →
  same_files w w' ∧ stdin w' = stdin w
  ∧ ∃ delta,
      trace w' = trace w ++ delta
      ∧ ((r ≠ Ok true ∧ effects delta = [get_url_event])
         ∨ ∃ out new_url,
             origin_url remote = Some out
             ∧ fst (_convert_url_for_profile (PyStr.strip out) username w)
               = Ok (Some new_url)
             ∧ effects delta = [get_url_event; set_url_event new_url]
             ∧ r = Ok (set_url_ok remote)).
Proof.
  unfold update_repository_url_for_profile, _get_current_remote_url,
    _update_remote_url.
  unfold catch. rewrite bind_run.
  rewrite (bind_ok _ _ w tt (log get_url_event w)) by reflexivity.
  destruct (origin_url remote) as [out|] eqn:Hout.
  2:{ unfold_m. intros [= <- <-]. split; [repeat split|]. split; [reflexivity|].
      exists [get_url_event]. split; [reflexivity|]. left.
      split; [discriminate|reflexivity]. }
  unfold ret at 1. cbv beta iota.
  destruct (String.eqb (PyStr.strip out) EmptyString).
  { unfold_m. intros [= <- <-]. split; [repeat split|]. split; [reflexivity|].
    exists [get_url_event]. split; [reflexivity|]. left.
    split; [discriminate|reflexivity]. }
  rewrite bind_run.
  destruct (_convert_url_for_profile (PyStr.strip out) username (log get_url_event w))
    as [rc w1] eqn:Hconv.
  apply convert_url_for_profile_quiet in Hconv
    as [[[(K1 & C1 & H1 & S1 & G1) (d1 & T1 & F1)] I1] Hfst].
  simpl in K1, C1, H1, S1, G1, T1, I1.
  assert (Hquiet : ∀ r0, r0 ≠ Ok true →
    same_files w w1 ∧ stdin w1 = stdin w
    ∧ ∃ delta,
        trace w1 = trace w ++ delta
        ∧ ((r0 ≠ Ok true ∧ effects delta = [get_url_event])
           ∨ ∃ out0 new_url,
               Some out = Some out0
               ∧ fst (_convert_url_for_profile (PyStr.strip out0) username w)
                 = Ok (Some new_url)
               ∧ effects delta = [get_url_event; set_url_event new_url]
               ∧ r0 = Ok (set_url_ok remote))).
  { intros r0 Hr0. split; [repeat split; assumption|]. split; [exact I1|].
    exists (get_url_event :: d1). split; [rewrite T1, <- app_assoc; reflexivity|].
    left. split; [exact Hr0|].
    change (get_url_event :: d1) with ([get_url_event] ++ d1).
    rewrite effects_app, (effects_talk d1 F1). reflexivity. }
  destruct rc as [[new_url|]|e].
  - destruct (String.eqb new_url EmptyString).
    { unfold_m. intros [= <- <-]. apply Hquiet. discriminate. }
    unfold_m. specialize (Hfst w).
    destruct (set_url_ok remote) eqn:Hset; intros [= <- <-].
    + split; [repeat split; assumption|]. split; [exact I1|].
      eexists (get_url_event :: d1 ++ [set_url_event new_url; _; _]).
      split.
      { simpl. rewrite T1. repeat rewrite <- app_assoc. reflexivity. }
      right. exists out, new_url. split; [reflexivity|]. split; [exact Hfst|].
      split; [|reflexivity].
      change (get_url_event :: d1 ++ ?l) with ([get_url_event] ++ d1 ++ l).
      rewrite !effects_app, (effects_talk d1 F1). reflexivity.
    + split; [repeat split; assumption|]. split; [exact I1|].
      exists (get_url_event :: d1 ++ [set_url_event new_url]).
      split.
      { simpl. rewrite T1. repeat rewrite <- app_assoc. reflexivity. }
      right. exists out, new_url. split; [reflexivity|]. split; [exact Hfst|].
      split; [|reflexivity].
      change (get_url_event :: d1 ++ ?l) with ([get_url_event] ++ d1 ++ l).
      rewrite !effects_app, (effects_talk d1 F1). reflexivity.
  - unfold_m. intros [= <- <-]. apply Hquiet. discriminate.
  - destruct e; unfold_m; intros [= <- <-]; apply Hquiet; discriminate.
Qed.

(** X24: [update_repository_url_for_profile] touches no file, no key and
    no Git identity. It always asks git for the URL of origin; it sets a
    URL only when one was printed, and then the URL it sets is the
    conversion of the one read, stripped; it returns True exactly when
    that command succeeded. *)
Theorem update_repository_url_sets_conversion remote username w r w' :
  update_repository_url_for_profile remote username w = (r, w') →
  same_files w w' ∧ stdin w' = stdin w
  ∧ ∃ delta,
      trace w' = trace w ++ delta
      ∧ ((r ≠ Ok true ∧ effects delta = [get_url_event])
         ∨ ∃ out new_url,
             origin_url remote = Some out
             ∧ fst (_convert_url_for_profile (PyStr.strip out) username w)
               = Ok (Some new_url)
             ∧ effects delta = [get_url_event; set_url_event new_url]
             ∧ r = Ok (set_url_ok remote)).
Proof. apply update_repository_url_for_profile_run. Qed.

Lemma update_repository_url_sets_conversion_witness :
  same_files empty_world
    (snd (update_repository_url_for_profile https_clone "work" empty_world)).
Proof.
  exact (proj1 (update_repository_url_sets_conversion https_clone "work" empty_world
                  _ _ (surjective_pairing _))).
Defined.

Example update_repository_url_https :
  fst (update_repository_url_for_profile https_clone "work" empty_world) = Ok true
  ∧ effects (trace (snd (update_repository_url_for_profile https_clone "work"
                           empty_world)))
    = [get_url_event; set_url_event "git@github.com-work:octo/cat.git"].
Proof. split; vm_compute; reflexivity. Qed.

(** ** Switching *)

Lemma untouched_refl w : untouched w w.
Proof. repeat split. Qed.

Lemma untouched_trans w1 w2 w3 : untouched w1 w2 → untouched w2 w3 → untouched w1 w3.
Proof.
  intros (A1 & A2 & A3 & A4 & A5) (B1 & B2 & B3 & B4 & B5).
  repeat split; congruence.
Qed.

Lemma quiet_untouched w w' : quiet w w' → untouched w w'.
Proof.
  intros [[(K & C & _ & S & G) _] I]. repeat split; assumption.
Qed.

Lemma handle_ssh_test_result_quiet env stderr username (p : profile) w r w' :
  _handle_ssh_test_result env stderr username p w = (r, w') → quiet w w'.
Proof.
  unfold _handle_ssh_test_result, _print_connection_success_details,
    print_troubleshooting_tips, _print_platform_specific_tips.
  unfold_m.
  destruct (PyStr.contains "successfully authenticated" (PyStr.lower stderr));
    cbv beta iota.
  - destruct (p !! "name") as [name|]; cbv beta iota;
      [destruct (p !! "email") as [email|]; cbv beta iota|];
      intros [= <- <-]; quiet_logs.
  - destruct (is_windows env); cbv beta iota; intros [= <- <-]; quiet_logs.
Qed.

Lemma perform_ssh_test_untouched env username (p : profile) w r w' :
  _perform_ssh_test env username p w = (r, w') → untouched w w'.
Proof.
  unfold _perform_ssh_test. unfold getitem.
  destruct (p !! "ssh_key") as [k|].
  2:{ unfold_m. intros [= <- <-]. apply untouched_refl. }
  rewrite (bind_ok _ _ w k w) by reflexivity.
  rewrite (bind_ok _ _ w tt
             (log (EvRun ["ssh"; "-T"; "git@github.com-" +:+ username] (Some 15)) w))
    by reflexivity.
  destruct (ssh_probe env) as [[rc out err|msg]|].
  - intros H. apply handle_ssh_test_result_quiet in H.
    apply quiet_untouched in H. eapply untouched_trans; [|exact H]. repeat split.
  - unfold_m. intros [= <- <-]. repeat split.
  - unfold_m. intros [= <- <-]. repeat split.
Qed.

Lemma add_github_to_known_hosts_untouched env w :
  untouched w (snd (add_github_to_known_hosts env w)).
Proof.
  rewrite add_github_to_known_hosts_eq.
  destruct (match known_hosts w with
            | Some content => PyStr.contains "github.com" content
            | None => false
            end); [apply untouched_refl|].
  cbv zeta. destruct (ssh_keyscan env) as [rc out err|msg]; [|repeat split].
  destruct (bool_decide (rc = 0%Z) && negb (String.eqb out EmptyString));
    [|repeat split].
  destruct (write_error env KnownHostsFile); repeat split.
Qed.

Lemma test_github_connection_untouched env username w r w' :
  test_github_connection env username w = (r, w') → untouched w w'.
Proof.
  unfold test_github_connection.
  rewrite bind_run, load_profiles_eq.
  assert (Hfrom : ∀ (found : option profile) w0, untouched w w0 →
    match found with
    | None =>
        print_error ("Profile '" +:+ username +:+ "' not found!") ;;;
        ret false
    | Some p =>
        if negb (bool_decide (is_Some (p !! "ssh_key")))
        then print_error ("Profile '" +:+ username +:+ "' has no SSH key!") ;;;
             ret false
        else
          print_info ("Testing GitHub connection for profile '"
                      +:+ username +:+ "'...") ;;;
          catch (add_github_to_known_hosts env ;;;
                 _perform_ssh_test env username p)
                (fun e => match e with
                          | TimeoutExpired =>
                              print_error "Connection timeout! Check your internet connection." ;;;
                              ret false
                          | _ =>
                              print_error ("Error testing connection: "
                                           +:+ str_exn e) ;;;
                              ret false
                          end)
    end w0 = (r, w') → untouched w w').
  { intros found w0 H0. destruct found as [p|].
    2:{ unfold_m. intros [= <- <-]. eapply untouched_trans; [exact H0|].
        repeat split. }
    destruct (negb (bool_decide (is_Some (p !! "ssh_key")))).
    { unfold_m. intros [= <- <-]. eapply untouched_trans; [exact H0|].
      repeat split. }
    rewrite (bind_ok _ _ w0 tt
               (log (EvPrint LvInfo ("Testing GitHub connection for profile '"
                                     +:+ username +:+ "'...")) w0))
      by reflexivity.
    unfold catch. rewrite bind_run.
    pose proof (add_github_to_known_hosts_untouched env
                  (log (EvPrint LvInfo ("Testing GitHub connection for profile '"
                                        +:+ username +:+ "'...")) w0)) as Hadd.
    pose proof (add_github_to_known_hosts_total env
                  (log (EvPrint LvInfo ("Testing GitHub connection for profile '"
                                        +:+ username +:+ "'...")) w0)) as Htot.
    destruct (add_github_to_known_hosts env _) as [ra w1].
    simpl in Hadd, Htot. subst ra.
    assert (H1 : untouched w w1).
    { eapply untouched_trans; [exact H0|].
      eapply untouched_trans; [|exact Hadd]. repeat split. }
    destruct (_perform_ssh_test env username p w1) as [rp w2] eqn:Hp.
    apply perform_ssh_test_untouched in Hp.
    assert (H2 : untouched w w2) by (eapply untouched_trans; eassumption).
    destruct rp as [b|e].
    - intros [= <- <-]. exact H2.
    - destruct e; unfold_m; intros [= <- <-];
        (eapply untouched_trans; [exact H2|repeat split]). }
  destruct (store_file w) as [|why|profiles].
  - apply Hfrom. apply untouched_refl.
  - apply Hfrom. repeat split.
  - apply Hfrom. apply untouched_refl.
Qed.

Lemma perform_profile_switch_cases env username (profiles : store) w r w' :
  _perform_profile_switch env username profiles w = (r, w') →
  key_files w' = key_files w ∧ ssh_config w' = ssh_config w
  ∧ store_file w' = store_file w ∧ stdin w' = stdin w
  ∧ (git_global w' = git_global w ∧ r ≠ Ok true
     ∨ ∃ (p : profile) name email,
         profiles !! username = Some p
         ∧ p !! "name" = Some name ∧ p !! "email" = Some email
         ∧ git_write_ok env "user.name" = true
         ∧ (git_write_ok env "user.email" = true ∧ r = Ok true
            ∧ git_global w'
              = <["user.email" := email]> (<["user.name" := name]> (git_global w))
            ∨ git_write_ok env "user.email" = false ∧ r = Ok false
              ∧ git_global w' = <["user.name" := name]> (git_global w))).
Proof.
  unfold _perform_profile_switch, getitem.
  destruct (profiles !! username) as [p|] eqn:Hp.
  2:{ unfold_m. intros [= <- <-]. repeat split. left. split; [reflexivity|discriminate]. }
  destruct (p !! "name") as [name|] eqn:Hname.
  2:{ unfold_m. intros [= <- <-]. repeat split. left. split; [reflexivity|discriminate]. }
  rewrite (bind_ok _ _ w name w) by reflexivity.
  destruct (p !! "email") as [email|] eqn:Hemail.
  2:{ unfold_m. intros [= <- <-]. repeat split. left. split; [reflexivity|discriminate]. }
  rewrite (bind_ok _ _ w email w) by reflexivity.
  rewrite set_git_config_eq.
  destruct (git_write_ok env "user.name") eqn:Hn;
    [destruct (git_write_ok env "user.email") eqn:He|];
    intros [= <- <-]; simpl.
  - split; [reflexivity|]. split; [reflexivity|]. split; [reflexivity|].
    split; [reflexivity|]. right. exists p, name, email.
    split; [reflexivity|]. split; [exact Hname|]. split; [exact Hemail|].
    split; [reflexivity|]. left. repeat split.
  - split; [reflexivity|]. split; [reflexivity|]. split; [reflexivity|].
    split; [reflexivity|]. right. exists p, name, email.
    split; [reflexivity|]. split; [exact Hname|]. split; [exact Hemail|].
    split; [reflexivity|]. right. repeat split.
  - split; [reflexivity|]. split; [reflexivity|]. split; [reflexivity|].
    split; [reflexivity|]. left. split; [reflexivity|discriminate].
Qed.

Lemma convert_url_for_profile_result url username w r w' :
  _convert_url_for_profile url username w = (r, w') →
  (∃ new_url, r = Ok new_url) ∨ r = Raise IndexError.
Proof.
  unfold _convert_url_for_profile, _convert_ssh_url, getindex. unfold_m.
  destruct (PyStr.startswith "git@github.com" url).
  - destruct (PyStr.contains "github.com-" url).
    + destruct (PyStr.split "github.com-" url !! 1) as [part|]; cbv beta iota.
      * destruct (PyStr.split ":" part !! 0) as [old|]; cbv beta iota;
          intros [= <- <-]; eauto.
      * intros [= <- <-]. eauto.
    + destruct (PyStr.split "github.com:" url !! 1) as [part|]; cbv beta iota;
        intros [= <- <-]; eauto.
  - destruct (PyStr.startswith "https://github.com/" url);
      cbv beta iota; intros [= <- <-]; eauto.
Qed.

Lemma update_repository_url_for_profile_result remote username w r w' :
  update_repository_url_for_profile remote username w = (r, w') →
  (∃ b, r = Ok b) ∨ r = Raise IndexError.
Proof.
  unfold update_repository_url_for_profile, _get_current_remote_url,
    _update_remote_url.
  unfold catch. rewrite bind_run.
  rewrite (bind_ok _ _ w tt (log get_url_event w)) by reflexivity.
  destruct (origin_url remote) as [out|].
  2:{ unfold_m. intros [= <- <-]. eauto. }
  unfold ret at 1. cbv beta iota.
  destruct (String.eqb (PyStr.strip out) EmptyString).
  { unfold_m. intros [= <- <-]. eauto. }
  rewrite bind_run.
  destruct (_convert_url_for_profile (PyStr.strip out) username (log get_url_event w))
    as [rc w1] eqn:Hconv.
  apply convert_url_for_profile_result in Hconv as [[new_url ->]| ->].
  - destruct new_url as [new_url|]; [|unfold_m; intros [= <- <-]; eauto].
    destruct (String.eqb new_url EmptyString); [unfold_m; intros [= <- <-]; eauto|].
    unfold_m. destruct (set_url_ok remote); intros [= <- <-]; eauto.
  - intros [= <- <-]. eauto.
Qed.

Lemma update_repository_url_for_profile_raises remote username w out tail :
  origin_url remote = Some out →
  PyStr.strip out = "git@github.com" +:+ tail →
  PyStr.contains "github.com-" (PyStr.strip out) = false →
  PyStr.contains "github.com:" (PyStr.strip out) = false →
  update_repository_url_for_profile remote username w
  = (Raise IndexError, log get_url_event w).
Proof.
  intros Hout Hstrip Hdash Hcolon.
  unfold update_repository_url_for_profile, _get_current_remote_url.
  unfold catch. rewrite bind_run.
  rewrite (bind_ok _ _ w tt (log get_url_event w)) by reflexivity.
  rewrite Hout. unfold ret at 1. cbv beta iota.
  rewrite Hstrip in *. rewrite append_cons.
  change (String.eqb (String "g" ?x) EmptyString) with false. cbv iota.
  rewrite <- append_cons.
  rewrite bind_run, (convert_other_host_form tail username _ Hdash Hcolon).
  reflexivity.
Qed.

Lemma post_switch_actions_untouched env remote username (profiles : store) w r w' :
  _post_switch_actions env remote username profiles w = (r, w') →
  untouched w w'
  ∧ (is_Some (profiles !! username) → r = Ok tt ∨ r = Raise IndexError).
Proof.
  unfold _post_switch_actions. rewrite bind_run.
  destruct (update_repository_url_for_profile remote username w)
    as [ru w1] eqn:Hu.
  pose proof (update_repository_url_for_profile_result _ _ _ _ _ Hu) as Hres.
  apply update_repository_url_for_profile_run in Hu
    as ((K & C & _ & S & G) & I & _).
  assert (H1 : untouched w w1) by (repeat split; assumption).
  destruct ru as [b|e].
  2:{ intros [= <- <-]. split; [exact H1|]. intros _.
      destruct Hres as [[b Hb]|Hb]; [discriminate|]. right.
      injection Hb as ->. reflexivity. }
  unfold getitem.
  destruct (profiles !! username) as [p|].
  2:{ unfold_m. intros [= <- <-]. split; [exact H1|].
      intros [x Hx]. discriminate. }
  rewrite (bind_ok _ _ w1 p w1) by reflexivity.
  destruct (bool_decide (is_Some (p !! "ssh_key"))).
  2:{ unfold_m. intros [= <- <-]. split; [exact H1|]. intros _. left. reflexivity. }
  rewrite (bind_ok _ _ w1 tt
             (log (EvPrint LvPlain (PyStr.nl +:+ "Testing GitHub connection...")) w1))
    by reflexivity.
  rewrite bind_run.
  destruct (test_github_connection env username _) as [rt w2] eqn:Ht.
  pose proof (proj1 (test_github_connection_cases env username
                       (log (EvPrint LvPlain
                               (PyStr.nl +:+ "Testing GitHub connection...")) w1)))
    as [b' Hb'].
  rewrite Ht in Hb'. simpl in Hb'. subst rt.
  apply test_github_connection_untouched in Ht.
  unfold_m. intros [= <- <-]. split.
  - eapply untouched_trans; [exact H1|].
    eapply untouched_trans; [|exact Ht]. repeat split.
  - intros _. left. reflexivity.
Qed.

(** X25: [switch_profile] never touches a key file, the SSH configuration
    or the store of profiles, whatever is typed and however the tools
    answer. The Git configuration stays as it was unless the name typed,
    stripped, is a profile of the store that has a name and an email, and
    then [user.name] is the name of that profile. *)
Theorem switch_profile_frame env dict_items remote w r w' :
  switch_profile env dict_items remote w = (r, w') →
  key_files w' = key_files w ∧ ssh_config w' = ssh_config w
  ∧ store_file w' = store_file w
  ∧ (git_global w' = git_global w
     ∨ ∃ (profiles : store) line rest (p : profile) name,
         store_file w = Doc profiles
         ∧ stdin w = line :: rest
         ∧ profiles !! PyStr.strip line = Some p
         ∧ p !! "name" = Some name
         ∧ is_Some (p !! "email")
         ∧ git_global w' !! "user.name" = Some name).
Proof.
  intros H. unfold switch_profile in H.
  rewrite bind_run, load_profiles_eq in H.
  destruct (store_file w) as [|why|profiles] eqn:Hs.
  { rewrite bool_decide_eq_true_2 in H by reflexivity.
    unfold_m. injection H as <- <-. repeat split; try assumption. left. reflexivity. }
  { rewrite bool_decide_eq_true_2 in H by reflexivity.
    unfold_m. injection H as <- <-. repeat split; try assumption. left. reflexivity. }
  destruct (bool_decide (profiles = ∅)).
  { unfold_m. injection H as <- <-. repeat split; try assumption. left. reflexivity. }
  unfold print_header in H.
  rewrite (bind_ok _ _ w tt (log (EvPrint LvPlain
             (PyStr.nl +:+ "=== " +:+ "Switch Git Profile" +:+ " ===")) w))
    in H by reflexivity.
  destruct (list_available_profiles_quiet dict_items profiles
              (log (EvPrint LvPlain
                      (PyStr.nl +:+ "=== " +:+ "Switch Git Profile" +:+ " ===")) w))
    as (w1 & Hlist & Hq1).
  rewrite (bind_ok _ _ _ _ _ Hlist) in H.
  apply quiet_untouched in Hq1 as (K1 & C1 & S1 & G1 & I1).
  simpl in K1, C1, S1, G1, I1. clear Hlist.
  destruct (stdin w) as [|line rest] eqn:Hstdin.
  { rewrite (bind_raise _ _ w1 EOFError
               (log (EvPrompt (PyStr.nl +:+ "Enter profile name: ")) w1)) in H
      by (unfold input; rewrite I1; reflexivity).
    injection H as <- <-. simpl. rewrite Hs in S1.
    split; [exact K1|]. split; [exact C1|]. split; [exact S1|]. left. exact G1. }
  rewrite (bind_ok _ _ w1 line
             (set_stdin rest
                (log (EvPrompt (PyStr.nl +:+ "Enter profile name: ")) w1))) in H
    by (unfold input; rewrite I1; reflexivity).
  cbv zeta in H. rewrite bind_run in H.
  destruct (_perform_profile_switch env (PyStr.strip line) profiles _)
    as [rs w2] eqn:Hsw.
  apply perform_profile_switch_cases in Hsw as (K2 & C2 & S2 & I2 & Hgit).
  simpl in K2, C2, S2, I2, Hgit. rewrite Hs in S1.
  assert (Hname : git_global w2 = git_global w
                  ∨ ∃ (p : profile) name,
                      profiles !! PyStr.strip line = Some p
                      ∧ p !! "name" = Some name
                      ∧ is_Some (p !! "email")
                      ∧ git_global w2 !! "user.name" = Some name).
  { destruct Hgit as [[Hg _]|(p & name & email & Hp & Hn & He & _ & Hg)].
    - left. congruence.
    - right. exists p, name. split; [exact Hp|]. split; [exact Hn|].
      split; [eauto|].
      destruct Hg as [(_ & _ & ->)|(_ & _ & ->)].
      + rewrite lookup_insert_ne by discriminate. apply lookup_insert_eq.
      + apply lookup_insert_eq. }
  assert (Hend : ∀ w3, untouched w2 w3 →
    key_files w3 = key_files w ∧ ssh_config w3 = ssh_config w
    ∧ store_file w3 = Doc profiles
    ∧ (git_global w3 = git_global w
       ∨ ∃ (profiles0 : store) line0 rest0 (p : profile) name,
           Doc profiles = Doc profiles0
           ∧ line :: rest = line0 :: rest0
           ∧ profiles0 !! PyStr.strip line0 = Some p
           ∧ p !! "name" = Some name
           ∧ is_Some (p !! "email")
           ∧ git_global w3 !! "user.name" = Some name)).
  { intros w3 (K3 & C3 & S3 & G3 & _).
    split; [congruence|]. split; [congruence|]. split; [congruence|].
    destruct Hname as [Hg|(p & name & Hp & Hn & He & Hg)].
    - left. congruence.
    - right. exists profiles, line, rest, p, name. rewrite G3. eauto 6. }
  destruct rs as [[|]|e].
  - cbn [negb] in H. cbv iota in H.
    rewrite (bind_ok _ _ w2 tt
               (log (EvPrint LvSuccess ("Switched to profile '"
                                        +:+ PyStr.strip line +:+ "'!")) w2))
      in H by reflexivity.
    apply post_switch_actions_untouched in H as [Hpost _].
    apply Hend. eapply untouched_trans; [|exact Hpost]. repeat split.
  - cbn [negb] in H. cbv iota in H. unfold ret in H. injection H as <- <-.
    apply Hend. apply untouched_refl.
  - injection H as <- <-. apply Hend. apply untouched_refl.
Qed.

Lemma switch_profile_frame_witness :
  store_file (snd (switch_profile posix_env items_of https_clone
                     switch_to_ghost_world)) = Doc alice_store.
Proof.
  exact (proj1 (proj2 (proj2 (switch_profile_frame posix_env items_of https_clone
                                switch_to_ghost_world _ _ (surjective_pairing _))))).
Defined.

(** X26: [switch_profile] sets the Git identity before it rewrites the URL
    of origin, and keeps it whatever comes after. With a stored name typed
    and both writes possible, the Git configuration afterwards holds the
    name and the email of the profile, and the call ends normally or with
    [IndexError]; it ends with [IndexError], the identity already
    switched, when the URL of origin starts with [git@github.com] and
    holds neither [github.com-] nor [github.com:]. *)
Theorem switch_profile_switches
    env dict_items remote w (profiles : store) line rest (p : profile) name email :
  store_file w = Doc profiles →
  stdin w = line :: rest →
  profiles !! PyStr.strip line = Some p →
  p !! "name" = Some name →
  p !! "email" = Some email →
  git_write_ok env "user.name" = true →
  git_write_ok env "user.email" = true →
  ∃ r w',
    switch_profile env dict_items remote w = (r, w')
    ∧ git_global w'
      = <["user.email" := email]> (<["user.name" := name]> (git_global w))
    ∧ (r = Ok tt ∨ r = Raise IndexError)
    ∧ (∀ out tail,
         origin_url remote = Some out →
         PyStr.strip out = "git@github.com" +:+ tail →
         PyStr.contains "github.com-" (PyStr.strip out) = false →
         PyStr.contains "github.com:" (PyStr.strip out) = false →
         r = Raise IndexError).
Proof.
  intros Hs Hstdin Hp Hname Hemail Hok1 Hok2.
  unfold switch_profile.
  rewrite bind_run, load_profiles_eq, Hs.
  rewrite bool_decide_eq_false_2
    by (intros ->; rewrite lookup_empty in Hp; discriminate).
  unfold print_header.
  rewrite (bind_ok _ _ w tt (log (EvPrint LvPlain
             (PyStr.nl +:+ "=== " +:+ "Switch Git Profile" +:+ " ===")) w))
    by reflexivity.
  destruct (list_available_profiles_quiet dict_items profiles
              (log (EvPrint LvPlain
                      (PyStr.nl +:+ "=== " +:+ "Switch Git Profile" +:+ " ===")) w))
    as (w1 & Hlist & Hq1).
  rewrite (bind_ok _ _ _ _ _ Hlist).
  apply quiet_untouched in Hq1 as (_ & _ & _ & G1 & I1). simpl in G1, I1.
  rewrite (bind_ok _ _ w1 line
             (set_stdin rest
                (log (EvPrompt (PyStr.nl +:+ "Enter profile name: ")) w1)))
    by (unfold input; rewrite I1, Hstdin; reflexivity).
  cbv zeta. rewrite bind_run.
  unfold _perform_profile_switch at 1. rewrite Hp. unfold getitem.
  rewrite Hname, Hemail.
  rewrite (bind_ok _ _ _ name _ eq_refl), (bind_ok _ _ _ email _ eq_refl).
  rewrite set_git_config_eq, Hok1, Hok2. cbn [negb]. cbv iota.
  match goal with
  | |- context [bind (print_success ?m) ?k ?w2] =>
      rewrite (bind_ok (print_success m) k w2 tt (log (EvPrint LvSuccess m) w2))
        by reflexivity
  end.
  match goal with
  | |- context [_post_switch_actions env remote ?u ?ps ?w3] =>
      destruct (_post_switch_actions env remote u ps w3) as [rp w4] eqn:Hpost
  end.
  exists rp, w4. split; [reflexivity|].
  pose proof (post_switch_actions_untouched _ _ _ _ _ _ _ Hpost)
    as [(_ & _ & _ & G4 & _) Hres].
  simpl in G4. split; [rewrite G4, G1; reflexivity|].
  split; [apply Hres; eauto|].
  intros out tail Hout Hstrip Hdash Hcolon.
  unfold _post_switch_actions in Hpost.
  rewrite (bind_raise _ _ _ _ _
             (update_repository_url_for_profile_raises remote _ _ out tail
                Hout Hstrip Hdash Hcolon)) in Hpost.
  injection Hpost as <- _. reflexivity.
Qed.

Lemma switch_profile_switches_witness :
  ∃ r w',
    switch_profile posix_env items_of company_clone switch_to_alice_world = (r, w')
    ∧ git_global w' !! "user.name" = Some "alice"
    ∧ r = Raise IndexError.
Proof.
  destruct (switch_profile_switches posix_env items_of company_clone
              switch_to_alice_world alice_store " alice " [] alice_profile
              "alice" "alice@example.com"
              eq_refl eq_refl eq_refl eq_refl eq_refl eq_refl eq_refl)
    as (r & w' & Hrun & Hg & _ & Hraise).
  exists r, w'. split; [exact Hrun|]. split.
  - rewrite Hg. rewrite lookup_insert_ne by discriminate. apply lookup_insert_eq.
  - apply (Hraise ("git@github.company.com:octo/cat.git" +:+ PyStr.nl)
             "pany.com:octo/cat.git"); reflexivity.
Defined.

(** ** Finding the profile of the current identity *)

Lemma find_in_items_first config items w r w' :
  find_in_items config items w = (r, w') →
  w' = w
  ∧ match r with
    | Ok (Some (username, p)) =>
        matches_config config p
        ∧ ∃ before after,
            items = before ++ (username, p) :: after
            ∧ Forall (fun entry => ¬ matches_config config entry.2) before
    | Ok None => Forall (fun entry => ¬ matches_config config entry.2) items
    | Raise e => ∃ key, e = KeyError key
    end.
Proof.
  revert r w'. induction items as [|[username p] items IH]; intros r w'.
  - simpl. unfold ret. intros [= <- <-]. split; [reflexivity|constructor].
  - simpl. unfold getitem.
    destruct (p !! "name") as [name|] eqn:Hname.
    2:{ unfold_m. intros [= <- <-]. split; [reflexivity|eauto]. }
    rewrite (bind_ok _ _ w name w) by reflexivity.
    destruct (String.eqb_spec name (id_name config)) as [Hn|Hn].
    + destruct (p !! "email") as [email|] eqn:Hemail.
      2:{ unfold_m. intros [= <- <-]. split; [reflexivity|eauto]. }
      rewrite (bind_ok _ _ w email w) by reflexivity.
      destruct (String.eqb_spec email (id_email config)) as [He|He].
      * unfold ret. intros [= <- <-]. split; [reflexivity|]. subst name email.
        split; [split; assumption|]. exists [], items. split; [reflexivity|constructor].
      * intros H. apply IH in H as [-> H]. split; [reflexivity|].
        assert (Hno : ¬ matches_config config (username, p).2).
        { intros [_ Hm]. simpl in Hm. congruence. }
        destruct r as [[[u q]|]|e]; [| |exact H].
        -- destruct H as (Hm & before & after & -> & Hall).
           split; [exact Hm|]. exists ((username, p) :: before), after.
           split; [reflexivity|]. constructor; assumption.
        -- constructor; assumption.
    + intros H. apply IH in H as [-> H]. split; [reflexivity|].
      assert (Hno : ¬ matches_config config (username, p).2).
      { intros [Hm _]. simpl in Hm. congruence. }
      destruct r as [[[u q]|]|e]; [| |exact H].
      * destruct H as (Hm & before & after & -> & Hall).
        split; [exact Hm|]. exists ((username, p) :: before), after.
        split; [reflexivity|]. constructor; assumption.
      * constructor; assumption.
Qed.

(** X27: [_find_profile_by_config] changes nothing and returns the first
    entry, in the order of the store, whose name and email are those of
    the configuration: no entry before it has both. It returns nothing
    exactly when no entry has both, and it can only fail with a
    [KeyError]. In a store where every profile is named like its key, as
    [_create_profile] writes them, the entry found is the one whose key is
    the configured name. *)
Theorem find_profile_by_config_first dict_items config (profiles : store) w r w' :
  _find_profile_by_config dict_items config profiles w = (r, w') →
  w' = w
  ∧ (∀ username p, r = Ok (Some (username, p)) →
       matches_config config p
       ∧ (∃ before after,
            dict_items profiles = before ++ (username, p) :: after
            ∧ Forall (fun entry => ¬ matches_config config entry.2) before)
       ∧ ((∀ u q, (u, q) ∈ dict_items profiles → q !! "name" = Some u) →
          username = id_name config))
  ∧ (r = Ok None →
     Forall (fun entry => ¬ matches_config config entry.2) (dict_items profiles))
  ∧ (∀ e, r = Raise e → ∃ key, e = KeyError key).
Proof.
  unfold _find_profile_by_config. intros H.
  apply find_in_items_first in H as [-> H]. split; [reflexivity|].
  split; [|split].
  - intros username p ->. destruct H as ([Hn He] & before & after & Hitems & Hall).
    split; [split; assumption|]. split; [eauto|].
    intros Hinv. specialize (Hinv username p).
    rewrite Hitems in Hinv.
    assert (Hin : (username, p) ∈ before ++ (username, p) :: after).
    { apply elem_of_app. right. apply elem_of_cons. left. reflexivity. }
    specialize (Hinv Hin). congruence.
  - intros ->. exact H.
  - intros e ->. exact H.
Qed.

Lemma find_profile_by_config_first_witness :
  snd (_find_profile_by_config items_of (mkIdentity "alice" "alice@example.com")
         alice_store empty_world) = empty_world.
Proof.
  exact (proj1 (find_profile_by_config_first items_of
                  (mkIdentity "alice" "alice@example.com") alice_store
                  empty_world _ _ (surjective_pairing _))).
Defined.

Lemma load_profiles_quiet w :
  ∃ w', load_profiles w = (Ok (loaded w), w') ∧ quiet w w'.
Proof.
  rewrite load_profiles_eq. unfold loaded.
  destruct (store_file w); eexists; (split; [reflexivity|]); quiet_logs.
Qed.

Lemma get_current_profile_found dict_items w r w' :
  _get_current_profile dict_items w = (r, w') →
  same_files w w'
  ∧ (∃ delta, trace w' = trace w ++ delta
              ∧ ∀ new_url, set_url_event new_url ∉ delta)
  ∧ ∀ username p, r = Ok (Some (username, p)) →
      ∃ config,
        current_identity (git_global w) = Some config
        ∧ (username, p) ∈ dict_items (loaded w)
        ∧ matches_config config p.
Proof.
  unfold _get_current_profile.
  rewrite bind_run, get_current_git_config_eq.
  destruct (current_identity (git_global w)) as [config|].
  2:{ unfold_m. intros [= <- <-]. split; [repeat split|]. split.
      - eexists [_; _; _]. split; [simpl; repeat rewrite <- app_assoc; reflexivity|].
        intros new_url Hin. repeat (apply elem_of_cons in Hin as [Hin|Hin];
                                    [discriminate|]).
        apply elem_of_nil in Hin. exact Hin.
      - intros username p. discriminate. }
  destruct (load_profiles_quiet
              (log (git_read "user.email") (log (git_read "user.name") w)))
    as (w1 & Hload & [[F1 (d1 & T1 & D1)] _]).
  rewrite (bind_ok _ _ _ _ _ Hload).
  change (loaded (log (git_read "user.email") (log (git_read "user.name") w)))
    with (loaded w).
  rewrite bind_run.
  destruct (_find_profile_by_config dict_items config (loaded w) w1)
    as [rf w2] eqn:Hfind.
  unfold _find_profile_by_config in Hfind.
  apply find_in_items_first in Hfind as [-> Hfound].
  destruct F1 as (K1 & C1 & H1 & S1 & G1). simpl in K1, C1, H1, S1, G1, T1.
  assert (Hno : ∀ extra, forallb talk extra = true →
            ∀ new_url, set_url_event new_url
                       ∉ [git_read "user.name"; git_read "user.email"] ++ d1 ++ extra).
  { intros extra Hextra new_url Hin.
    apply elem_of_app in Hin as [Hin|Hin].
    - repeat (apply elem_of_cons in Hin as [Hin|Hin]; [discriminate|]).
      apply elem_of_nil in Hin. exact Hin.
    - apply elem_of_app in Hin as [Hin|Hin].
      + rewrite forallb_forall in D1. apply list_elem_of_In, D1 in Hin.
        discriminate.
      + rewrite forallb_forall in Hextra. apply list_elem_of_In, Hextra in Hin.
        discriminate. }
  destruct rf as [[[username p]|]|e].
  - unfold ret. intros [= <- <-]. split; [repeat split; assumption|]. split.
    + exists ([git_read "user.name"; git_read "user.email"] ++ d1 ++ []).
      split; [|apply Hno; reflexivity].
      rewrite T1, app_nil_r. simpl. repeat rewrite <- app_assoc. reflexivity.
    + intros u q [= <- <-]. exists config.
      destruct Hfound as (Hm & before & after & Hitems & _).
      split; [reflexivity|]. split; [|exact Hm].
      rewrite Hitems. apply elem_of_app. right. apply elem_of_cons. left.
      reflexivity.
  - unfold_m. intros [= <- <-]. split; [repeat split; assumption|]. split.
    + exists ([git_read "user.name"; git_read "user.email"] ++ d1
              ++ [EvPrint LvError "Current Git config doesn't match any profile!"]).
      split; [|apply Hno; reflexivity].
      simpl. rewrite T1. simpl. repeat rewrite <- app_assoc. reflexivity.
    + intros u q. discriminate.
  - intros [= <- <-]. split; [repeat split; assumption|]. split.
    + exists ([git_read "user.name"; git_read "user.email"] ++ d1 ++ []).
      split; [|apply Hno; reflexivity].
      rewrite T1, app_nil_r. simpl. repeat rewrite <- app_assoc. reflexivity.
    + intros u q. discriminate.
Qed.

(** X28: [update_repository_url] changes no file and no Git identity, and
    it sets the URL of origin only in a Git repository, only when the
    current Git identity is that of a stored profile, and only to the
    conversion, for the key of such a profile, of the URL that origin
    has. *)
Theorem update_repository_url_gate dict_items remote w r w' :
  (∀ (profiles : store) u (p : profile),
     (u, p) ∈ dict_items profiles → profiles !! u = Some p) →
  update_repository_url dict_items remote w = (r, w') →
  same_files w w'
  ∧ ∃ delta,
      trace w' = trace w ++ delta
      ∧ ∀ new_url, set_url_event new_url ∈ delta →
          in_repository remote = true
          ∧ ∃ (profiles : store) config username (p : profile) out,
              store_file w = Doc profiles
              ∧ current_identity (git_global w) = Some config
              ∧ profiles !! username = Some p
              ∧ matches_config config p
              ∧ origin_url remote = Some out
              ∧ fst (_convert_url_for_profile (PyStr.strip out) username w)
                = Ok (Some new_url).
Proof.
  intros Hitems. unfold update_repository_url, _is_in_git_repository.
  rewrite bind_run.
  rewrite (bind_ok _ _ w tt
             (log (EvRun ["git"; "rev-parse"; "--git-dir"] None) w)) by reflexivity.
  destruct (in_repository remote) eqn:Hrepo.
  2:{ unfold_m. cbn [negb]. intros [= <- <-]. split; [repeat split|].
      eexists [_; _]. split; [simpl; repeat rewrite <- app_assoc; reflexivity|].
      intros new_url Hin.
      repeat (apply elem_of_cons in Hin as [Hin|Hin]; [discriminate|]).
      apply elem_of_nil in Hin. contradiction. }
  unfold ret at 1. cbn [negb]. cbv beta iota. rewrite bind_run.
  destruct (_get_current_profile dict_items _) as [rc w1] eqn:Hcur.
  apply get_current_profile_found in Hcur
    as ((K1 & C1 & H1 & S1 & G1) & (d1 & T1 & D1) & Hfound).
  simpl in K1, C1, H1, S1, G1, T1.
  change (loaded (log (EvRun ["git"; "rev-parse"; "--git-dir"] None) w))
    with (loaded w) in Hfound.
  change (git_global (log (EvRun ["git"; "rev-parse"; "--git-dir"] None) w))
    with (git_global w) in Hfound.
  assert (Hstop : same_files w w1
    ∧ ∃ delta,
        trace w1 = trace w ++ delta
        ∧ ∀ new_url, set_url_event new_url ∈ delta →
            true = true
            ∧ ∃ (profiles : store) config username (p : profile) out,
                store_file w = Doc profiles
                ∧ current_identity (git_global w) = Some config
                ∧ profiles !! username = Some p
                ∧ matches_config config p
                ∧ origin_url remote = Some out
                ∧ fst (_convert_url_for_profile (PyStr.strip out) username w)
                  = Ok (Some new_url)).
  { split; [repeat split; assumption|].
    exists (EvRun ["git"; "rev-parse"; "--git-dir"] None :: d1).
    split; [rewrite T1, <- app_assoc; reflexivity|].
    intros new_url Hin. apply elem_of_cons in Hin as [Hin|Hin]; [discriminate|].
    exfalso. exact (D1 new_url Hin). }
  destruct rc as [[[username p]|]|e].
  2:{ unfold ret. intros [= <- <-]. exact Hstop. }
  2:{ intros [= <- <-]. exact Hstop. }
  clear Hstop. rewrite bind_run.
  destruct (update_repository_url_for_profile remote username w1)
    as [ru w2] eqn:Hu.
  apply update_repository_url_for_profile_run in Hu
    as ((K2 & C2 & H2 & S2 & G2) & _ & d2 & T2 & Hd2).
  assert (Hres : (let (r0, w3) := (ru, w2) in
                  match r0 with
                  | Ok _ => ret tt w3
                  | Raise e => (Raise e, w3)
                  end) = (r, w') → w' = w2).
  { destruct ru; unfold ret; intros [= _ <-]; reflexivity. }
  intros Hrun. apply Hres in Hrun. subst w'. clear Hres.
  split; [repeat split; congruence|].
  exists (EvRun ["git"; "rev-parse"; "--git-dir"] None :: d1 ++ d2).
  split.
  { rewrite T2, T1. repeat rewrite <- app_assoc. reflexivity. }
  intros new_url Hin. split; [reflexivity|].
  apply elem_of_cons in Hin as [Hin|Hin]; [discriminate|].
  apply elem_of_app in Hin as [Hin|Hin]; [exfalso; exact (D1 new_url Hin)|].
  assert (Heff : set_url_event new_url ∈ effects d2).
  { unfold effects. apply list_elem_of_filter. split; [exact I|exact Hin]. }
  destruct Hd2 as [[_ Hd2]|(out & new' & Hout & Hconv & Hd2 & _)];
    rewrite Hd2 in Heff.
  { apply elem_of_cons in Heff as [Heff|Heff]; [discriminate|].
    apply elem_of_nil in Heff. contradiction. }
  apply elem_of_cons in Heff as [Heff|Heff]; [discriminate|].
  apply elem_of_cons in Heff as [Heff|Heff];
    [|apply elem_of_nil in Heff; contradiction].
  injection Heff as ->.
  destruct (Hfound username p eq_refl) as (config & Hc & Hmem & Hm).
  pose proof (Hitems _ _ _ Hmem) as Hlook.
  unfold loaded in Hlook.
  destruct (store_file w) as [| |profiles] eqn:Hs;
    try (rewrite lookup_empty in Hlook; discriminate).
  exists profiles, config, username, p, out.
  split; [reflexivity|]. split; [exact Hc|]. split; [exact Hlook|].
  split; [exact Hm|]. split; [exact Hout|].
  destruct (_convert_url_for_profile (PyStr.strip out) username w1)
    as [rv wv] eqn:Hv.
  apply convert_url_for_profile_quiet in Hv as [_ Hv].
  rewrite (Hv w). simpl in Hconv. exact Hconv.
Qed.

Lemma update_repository_url_gate_witness :
  same_files alice_active_world
    (snd (update_repository_url items_of https_clone alice_active_world)).
Proof.
  exact (proj1 (update_repository_url_gate items_of https_clone alice_active_world
                  _ _
                  (fun profiles u p H => proj1 (elem_of_map_to_list profiles u p) H)
                  (surjective_pairing _))).
Defined.

Example update_repository_url_run :
  effects (trace (snd (update_repository_url items_of https_clone
                         alice_active_world)))
  = [EvRun ["git"; "rev-parse"; "--git-dir"] None;
     git_read "user.name"; git_read "user.email";
     get_url_event; set_url_event "git@github.com-alice:octo/cat.git"].
Proof. vm_compute. reflexivity. Qed.

(** ** Key files of different profiles *)

Lemma append_inj_l p s t : p +:+ s = p +:+ t → s = t.
Proof.
  induction p as [|c p IH]; [rewrite !append_empty_l; auto|].
  rewrite !append_cons. intros [= H]. auto.
Qed.

Lemma append_inj_r s a b : a +:+ s = b +:+ s → a = b.
Proof.
  intros H.
  assert (Hlen : String.length a = String.length b).
  { apply (f_equal String.length) in H. rewrite !append_length in H. lia. }
  revert b H Hlen. induction a as [|c a IH]; intros [|d b] H Hlen;
    try discriminate Hlen; [reflexivity|].
  rewrite !append_cons in H. injection H as -> H. f_equal.
  apply IH; [exact H|]. simpl in Hlen. lia.
Qed.

Lemma valid_username_no_dot name :
  validate_username name = true → occurs "." name = false.
Proof.
  intros H. apply validate_username_spec in H as [H|(t & -> & H & _)].
  - apply username_grammar_occurs; [exact H|reflexivity].
  - rewrite occurs_app, (username_grammar_occurs "." t H) by reflexivity.
    reflexivity.
Qed.

Lemma lower_app s t : PyStr.lower (s +:+ t) = PyStr.lower s +:+ PyStr.lower t.
Proof.
  induction s as [|c s IH]; [reflexivity|].
  rewrite append_cons. simpl. rewrite IH. reflexivity.
Qed.

Lemma lower_char_alnum_hyphen c :
  is_alnum_hyphen c = true → is_alnum_hyphen (PyStr.lower_char c) = true.
Proof.
  destruct c as [[|] [|] [|] [|] [|] [|] [|] [|]]; vm_compute; intros H;
    first [discriminate H|reflexivity].
Qed.

Lemma lower_grammar_no_dot name :
  username_grammar name = true → occurs "." (PyStr.lower name) = false.
Proof.
  intros H. apply username_grammar_chars in H.
  apply (forallb_occurs is_alnum_hyphen); [|reflexivity].
  induction name as [|c name IH]; [reflexivity|].
  simpl in H. apply andb_true_iff in H as [Hc H].
  simpl. rewrite (lower_char_alnum_hyphen c Hc), (IH H). reflexivity.
Qed.

Lemma key_paths_differ env a b :
  username_grammar a = true →
  username_grammar b = true →
  PyStr.lower a ≠ PyStr.lower b →
  PyStr.lower (key_path env a) ≠ PyStr.lower (key_path env b)
  ∧ PyStr.lower (key_path env a) ≠ PyStr.lower (key_path env b +:+ ".pub")
  ∧ PyStr.lower (key_path env a +:+ ".pub") ≠ PyStr.lower (key_path env b)
  ∧ PyStr.lower (key_path env a +:+ ".pub")
    ≠ PyStr.lower (key_path env b +:+ ".pub").
Proof.
  intros Ha Hb Hab. unfold key_path.
  rewrite !key_path_of_valid_name
    by (apply validate_username_spec; left; assumption).
  assert (Hdot : ∀ x y, username_grammar x = true →
                        PyStr.lower x ≠ PyStr.lower y +:+ ".pub").
  { intros x y Hx Heq. apply lower_grammar_no_dot in Hx.
    rewrite Heq, occurs_app in Hx. apply orb_false_iff in Hx as [_ Hx].
    discriminate. }
  assert (Hshape : ∀ x, PyStr.lower ((ssh_dir env +:+ path_sep (is_windows env)
                                      +:+ "id_rsa_" +:+ x) +:+ ".pub")
                        = PyStr.lower (ssh_dir env)
                          +:+ PyStr.lower (path_sep (is_windows env))
                          +:+ PyStr.lower "id_rsa_"
                          +:+ (PyStr.lower x +:+ ".pub")).
  { intros x. rewrite !lower_app. rewrite !append_assoc_r. reflexivity. }
  assert (Hplain : ∀ x, PyStr.lower (ssh_dir env +:+ path_sep (is_windows env)
                                     +:+ "id_rsa_" +:+ x)
                        = PyStr.lower (ssh_dir env)
                          +:+ PyStr.lower (path_sep (is_windows env))
                          +:+ PyStr.lower "id_rsa_" +:+ PyStr.lower x).
  { intros x. rewrite !lower_app. reflexivity. }
  rewrite !Hshape, !Hplain.
  repeat split; intros H; do 3 apply append_inj_l in H.
  - contradiction.
  - exact (Hdot a b Ha H).
  - symmetry in H. exact (Hdot b a Hb H).
  - apply Hab. apply (append_inj_r ".pub"). exact H.
Qed.

(** X29: the key files of two profiles never coincide, also where the file
    system takes no account of case. For two names of the username grammar
    that differ by more than the case of their letters, the private and
    the public key path of one differ from both paths of the other after
    lower-casing, so removing the key files of one profile leaves the key
    files of the other in place. *)
Theorem removal_keeps_other_keys env a b (p : profile) w :
  username_grammar a = true →
  username_grammar b = true →
  PyStr.lower a ≠ PyStr.lower b →
  p !! "ssh_key" = Some (key_path env a) →
  key_path env b ∈ key_files w →
  key_path env b +:+ ".pub" ∈ key_files w →
  PyStr.lower (key_path env a) ≠ PyStr.lower (key_path env b)
  ∧ PyStr.lower (key_path env a) ≠ PyStr.lower (key_path env b +:+ ".pub")
  ∧ PyStr.lower (key_path env a +:+ ".pub") ≠ PyStr.lower (key_path env b)
  ∧ PyStr.lower (key_path env a +:+ ".pub")
    ≠ PyStr.lower (key_path env b +:+ ".pub")
  ∧ key_path env b ∈ key_files (snd (_cleanup_ssh_files_with_feedback env a p w))
  ∧ key_path env b +:+ ".pub"
    ∈ key_files (snd (_cleanup_ssh_files_with_feedback env a p w)).
Proof.
  intros Ha Hb Hab Hkey Hin Hpub.
  destruct (key_paths_differ env a b Ha Hb Hab) as (D1 & D2 & D3 & D4).
  split; [exact D1|]. split; [exact D2|]. split; [exact D3|]. split; [exact D4|].
  destruct (cleanup_ssh_files_spec env a p w) as (w' & delta & Hrun & _ & _ & _ & Hk).
  rewrite Hrun. simpl. rewrite Hkey in Hk. destruct Hk as (-> & _).
  assert (Hkeep : ∀ path gone files,
            path ≠ gone → path ∈ files → path ∈ unlinked env gone files).
  { intros path gone files Hne Hfiles. unfold unlinked.
    destruct (bool_decide (gone ∈ files)); [|exact Hfiles].
    destruct (unlink_error env gone); [exact Hfiles|].
    apply elem_of_difference. split; [exact Hfiles|].
    intros Hs. apply elem_of_singleton in Hs. contradiction. }
  split; apply Hkeep; try apply Hkeep; try assumption; congruence.
Qed.

Lemma removal_keeps_other_keys_witness :
  key_path posix_env "bob"
  ∈ key_files (snd (_cleanup_ssh_files_with_feedback posix_env "alice" alice_profile
                      two_keys_world)).
Proof.
  refine (proj1 (proj2 (proj2 (proj2 (proj2
            (removal_keeps_other_keys posix_env "alice" "bob"
               alice_profile two_keys_world
               eq_refl eq_refl _ eq_refl _ _)))))).
  - discriminate.
  - vm_compute. set_solver.
  - vm_compute. set_solver.
Defined.

(** ** The stanza on Windows *)

Lemma replace_backslash_slashes s : PyStr.replace "\" "/" s = slashes s.
Proof.
  unfold PyStr.replace. induction s as [|c s IH]; [reflexivity|].
  rewrite replace_from_cons, prefix_cons, prefix_empty, andb_true_r.
  simpl String.length. simpl Nat.sub. simpl slashes.
  rewrite Ascii.eqb_sym.
  destruct (Ascii.eqb c "\").
  - rewrite append_cons, append_empty_l, IH. reflexivity.
  - rewrite IH. reflexivity.
Qed.

Lemma slashes_no_backslash s : occurs "\" (slashes s) = false.
Proof.
  induction s as [|c s IH]; [reflexivity|].
  simpl slashes. rewrite occurs_cons, IH, orb_false_r.
  destruct (Ascii.eqb_spec c "\") as [->|Hc]; [reflexivity|].
  apply Ascii.eqb_neq. congruence.
Qed.

(** X30: on Windows the stanza that [update_ssh_config] appends names the
    key file with every backslash turned into a slash, and holds no
    backslash at all when the name has none; on the other platforms the
    path is written as it is given. *)
Theorem update_ssh_config_slashes env username key_file w :
  write_error env SshConfigFile = None →
  occurs "\" username = false →
  ssh_config (snd (update_ssh_config env username key_file w))
  = Some (default EmptyString (ssh_config w)
          +:+ config_content username
                (if is_windows env then slashes key_file else key_file))
  ∧ (is_windows env = true →
     occurs "\" (config_content username (slashes key_file)) = false).
Proof.
  intros Hwrite Hname. split.
  - unfold update_ssh_config. rewrite Hwrite. unfold_m. simpl.
    rewrite replace_backslash_slashes. reflexivity.
  - intros _. unfold config_content, stanza_lines, PyStr.writelines. simpl.
    rewrite !occurs_app, Hname, slashes_no_backslash. reflexivity.
Qed.

Lemma update_ssh_config_slashes_witness :
  ssh_config (snd (update_ssh_config windows_env "alice"
                     "C:\Users\u\.ssh\id_rsa_alice" empty_world))
  = Some (config_content "alice" "C:/Users/u/.ssh/id_rsa_alice").
Proof.
  exact (proj1 (update_ssh_config_slashes windows_env "alice"
                  "C:\Users\u\.ssh\id_rsa_alice" empty_world eq_refl eq_refl)).
Defined.
